(** * m2ools: jitter, retry and result cache

    A shallow embedding of the Python modules [m2jitter.py], [m2retry.py],
    [m2cache.py] and of the consolidated [m2ools.py], with the properties
    their specification states about them.

    Conventions of the embedding.
    - Python numbers ([int], [float], [bool]) carry their value as an exact
      rational: every finite float is a rational, and the rounding of
      [+], [*], [/] and [**] is not modelled.
    - The random generator is a pair of tapes that the code consumes: one
      of standard normal draws for [random.gauss], one of raw naturals for
      [random.choice].  A computation that needs more draws than the tape
      holds yields [Stuck]; it never invents a value.
    - An exception is a value of [pyexn]; a raised exception carries the
      state of the world at the point where it was raised.
    - Strings are sequences of 8-bit characters.
    - The clock is read by the caller: a cache call is given the readings
      that [datetime.now()] returns to it.
    - The disk is a map from paths to contents; a file holds what was
      serialised into it, and loading gives it back.  Directories,
      [os.makedirs] and the [print] calls are left out. *)

From Stdlib Require Import ZArith QArith Qabs Qpower Lqa String Ascii List Lia DecimalString.
From stdpp Require Import base gmap strings list.

Local Open Scope string_scope.

(** ** Python values and exceptions *)

Inductive pyval :=
  | PyNone
  | PyBool (b : bool)
  | PyInt (z : Z)
  | PyFloat (q : Q)
  | PyStr (s : string).

Inductive pyexn :=
  | TypeError (msg : string)
  | ValueError (msg : string)
  | IndexError (msg : string)
  | OverflowError (msg : string)
  | UnboundLocalError (var : string)
  | FileNotFoundError (path : string)
  | MaxTriesExhaustedError (msg : string)
  | OperationError (tag : string).

(** [isinstance(x, (int, float))]: [bool] is a subclass of [int]. *)
Definition num_of (x : pyval) : option Q :=
  match x with
  | PyBool b => Some (if b then 1%Q else 0%Q)
  | PyInt z => Some (inject_Z z)
  | PyFloat q => Some q
  | PyNone | PyStr _ => None
  end.

(** [isinstance(x, int)] *)
Definition int_of (x : pyval) : option Z :=
  match x with
  | PyBool b => Some (if b then 1%Z else 0%Z)
  | PyInt z => Some z
  | _ => None
  end.

(** [isinstance(x, bool)] *)
Definition bool_of (x : pyval) : option bool :=
  match x with
  | PyBool b => Some b
  | _ => None
  end.

Definition Qlt_bool (a b : Q) : bool := negb (Qle_bool b a).

(** A pure computation that may raise. *)
Inductive res (A : Type) :=
  | Ok (a : A)
  | Err (e : pyexn).
Arguments Ok {A} a.
Arguments Err {A} e.

(** ** The jitter primitive *)

Definition JITTER_SIGMA_COUNT : Q := 4.

(** The outcome of a computation that reads the tape of normal draws. *)
Inductive drawn (A : Type) :=
  | Drawn (a : A) (tape : list Q)
  | Raised (e : pyexn) (tape : list Q)
  | Starved.
Arguments Drawn {A} a tape.
Arguments Raised {A} e tape.
Arguments Starved {A}.

(** [random.gauss(mu, sigma)] is [mu + z * sigma] for the next standard
    normal draw [z]. *)
Definition gauss_of (mu sigma z : Q) : Q := (mu + z * sigma)%Q.

Module M2jitter.

(** [while abs(jitter_amount) >= std * JITTER_SIGMA_COUNT:
       jitter_amount = random.gauss(mean, std)] *)
Fixpoint resample (mean std jitter_amount : Q) (tape : list Q) : drawn Q :=
  if Qle_bool (std * JITTER_SIGMA_COUNT) (Qabs jitter_amount) then
    match tape with
    | [] => Starved
    | z :: tape' => resample mean std (gauss_of mean std z) tape'
    end
  else Drawn jitter_amount tape.

(** [get_jitter(val, jitterfactor)] of [m2jitter.py].  Nothing is
    validated: a jitterfactor that is not a number fails at [<=], a value
    that is not a number fails at [abs]. *)
Definition get_jitter (val jitterfactor : pyval) (tape : list Q) : drawn Q :=
  match num_of jitterfactor with
  | None =>
      Raised (TypeError "'<=' not supported between instances") tape
  | Some jf =>
      if Qle_bool jf 0
         || match num_of val with Some v => Qeq_bool v 0 | None => false end
      then Drawn 0%Q tape
      else
        match num_of val with
        | None => Raised (TypeError "bad operand type for abs()") tape
        | Some v =>
            let base_value := Qabs v in
            let mean := 0%Q in
            let std := (base_value * jf / JITTER_SIGMA_COUNT)%Q in
            match tape with
            | [] => Starved
            | z :: tape' => resample mean std (gauss_of mean std z) tape'
            end
        end
  end.

(** [get_jittered(val, jitterfactor)]: [val + get_jitter(val, jitterfactor)];
    the sum fails for a [val] that is not a number. *)
Definition get_jittered (val jitterfactor : pyval) (tape : list Q) : drawn Q :=
  match get_jitter val jitterfactor tape with
  | Drawn j tape' =>
      match num_of val with
      | Some v => Drawn (v + j)%Q tape'
      | None => Raised (TypeError "unsupported operand type(s) for +") tape'
      end
  | Raised e tape' => Raised e tape'
  | Starved => Starved
  end.

End M2jitter.

Module M2ools.

(** [while abs(jitter_amount := random.gauss(mean, std))
          >= (std * JITTER_SIGMA_COUNT): pass] *)
Fixpoint sample (mean std : Q) (tape : list Q) : drawn Q :=
  match tape with
  | [] => Starved
  | z :: tape' =>
      let jitter_amount := gauss_of mean std z in
      if Qle_bool (std * JITTER_SIGMA_COUNT) (Qabs jitter_amount)
      then sample mean std tape'
      else Drawn jitter_amount tape'
  end.

(** [get_jitter(val, jitterfactor)] of [m2ools.py]: the value is checked
    first and a zero value returns before the jitterfactor is looked at. *)
Definition get_jitter (val jitterfactor : pyval) (tape : list Q) : drawn Q :=
  match num_of val with
  | None =>
      Raised (TypeError "Argument to `jitterfactor` must be of type int or float.") tape
  | Some v =>
      if Qeq_bool v 0 then Drawn 0%Q tape
      else
        match num_of jitterfactor with
        | None =>
            Raised (TypeError "Argument to `jitterfactor` must be of type int or float.") tape
        | Some jf =>
            if Qlt_bool jf 0 then
              Raised (ValueError "Argument to `jitterfactor` must not be negative.") tape
            else if Qeq_bool jf 0 then Drawn 0%Q tape
            else
              let base_value := Qabs v in
              let mean := 0%Q in
              let std := (base_value * jf / JITTER_SIGMA_COUNT)%Q in
              sample mean std tape
        end
  end.

Definition get_jittered (val jitterfactor : pyval) (tape : list Q) : drawn Q :=
  match get_jitter val jitterfactor tape with
  | Drawn j tape' =>
      match num_of val with
      | Some v => Drawn (v + j)%Q tape'
      | None => Raised (TypeError "unsupported operand type(s) for +") tape'
      end
  | Raised e tape' => Raised e tape'
  | Starved => Starved
  end.

End M2ools.

(** ** Computations over a world

    The retry engine and the cache thread a world through their calls: the
    state of the wrapped operation, what was slept, what is on disk.  A
    computation either returns, raises (both with the world reached), or is
    stuck for want of random draws. *)

Inductive outcome (W A : Type) :=
  | Return (a : A) (w : W)
  | Raise (e : pyexn) (w : W)
  | Stuck.
Arguments Return {W A} a w.
Arguments Raise {W A} e w.
Arguments Stuck {W A}.

Definition comp (W A : Type) : Type := W -> outcome W A.

#[global] Instance comp_ret {W} : MRet (comp W) := fun A a w => Return a w.
#[global] Instance comp_bind {W} : MBind (comp W) := fun A B f m w =>
  match m w with
  | Return a w' => f a w'
  | Raise e w' => Raise e w'
  | Stuck => Stuck
  end.

Definition throw {W A} (e : pyexn) : comp W A := fun w => Raise e w.

Definition lift_res {W A} (r : res A) : comp W A :=
  match r with
  | Ok a => mret a
  | Err e => throw e
  end.

#[global] Instance res_ret : MRet res := fun A a => Ok a.
#[global] Instance res_bind : MBind res := fun A B f m =>
  match m with
  | Ok a => f a
  | Err e => Err e
  end.

(** A wrapped Python callable: its [__name__] and what a call does to its
    own state [S]. *)
Record operation (S R : Type) := {
  op_name : string;
  op_call : list pyval -> list (string * pyval) -> S -> res R * S
}.
Arguments op_name {S R} o.
Arguments op_call {S R} o args kwargs st.

(** [str] and [repr], which the messages and the cache key are built from. *)
Record pyformat := {
  py_str : pyval -> string;
  py_repr : pyval -> string
}.

Definition kwarg_repr (fmt : pyformat) (kv : string * pyval) : string :=
  fst kv +:+ "=" +:+ py_repr fmt (snd kv).

Definition str_of_Z (z : Z) : string := NilZero.string_of_int (Z.to_int z).

(** ** The retry engine ([m2retry.py]; [retry] of [m2ools.py] is the same
    text over [m2ools.jitter]) *)

Module M2retry.

(** The callable handed in as [validator], or something that is not one. *)
Inductive validator_arg :=
  | Callable (f : pyval -> res bool)
  | NotCallable (v : pyval).

(** The decorator's closure: the arguments of [m2retry] after the checks
    and after lines 71-79 have rewritten them. *)
Record policy := {
  validator : pyval -> res bool;
  maxtries : Z;
  delay : Q;
  jitterfactor : Q;
  backoff : bool;
  boexpbase : Q;
  borandom : bool
}.

(** Lines 38-69: the checks, in the order of the source. *)
Definition check_maxtries (x : pyval) : res Z :=
  match int_of x with
  | Some n =>
      if (n <? 1)%Z
      then Err (ValueError "Argument to `maxtries` must be equal or greater than 1.")
      else Ok n
  | None => Err (TypeError "Argument to `maxtries` must be of type integer.")
  end.

Definition check_delay (x : pyval) : res Q :=
  match num_of x with
  | Some d =>
      if Qlt_bool d 0
      then Err (ValueError "Argument to `delay` must be equal or greater than 0.")
      else Ok d
  | None => Err (TypeError "Argument to `delay` must be of type integer or float.")
  end.

Definition check_jitterfactor (x : pyval) : res Q :=
  match num_of x with
  | Some j =>
      if Qlt_bool j 0 || Qlt_bool 1 j
      then Err (ValueError "Argument to `jitterfactor` can range only from 0 to 1 (both inclusive).")
      else Ok j
  | None => Err (TypeError "Argument to `jitterfactor` must be of type integer or float.")
  end.

Definition check_bool (what : string) (x : pyval) : res bool :=
  match bool_of x with
  | Some b => Ok b
  | None => Err (TypeError ("Argument to `" +:+ what +:+ "` must be of type bool."))
  end.

Definition check_boexpbase (x : pyval) : res Q :=
  match num_of x with
  | Some b =>
      if Qlt_bool b 1
      then Err (ValueError "Argument to `boexpbase` must be equal or greater than 1.")
      else Ok b
  | None => Err (TypeError "Argument to `boexpbase` must be of type integer or float.")
  end.

(** [m2retry(validator=, maxtries=, delay=, jitterfactor=, backoff=,
    boexpbase=, borandom=)] up to the point where it returns the decorator. *)
Definition m2retry (validator : validator_arg)
    (maxtries delay jitterfactor backoff boexpbase borandom : pyval) : res policy :=
  match validator with
  | NotCallable _ => Err (TypeError "First argument must be of callable type.")
  | Callable validator =>
      maxtries ← check_maxtries maxtries;
      delay ← check_delay delay;
      jitterfactor ← check_jitterfactor jitterfactor;
      backoff ← check_bool "backoff" backoff;
      boexpbase ← check_boexpbase boexpbase;
      borandom ← check_bool "borandom" borandom;
      (* if not delay: jitterfactor = 0; backoff = False *)
      let jitterfactor := if Qeq_bool delay 0 then 0%Q else jitterfactor in
      let backoff := if Qeq_bool delay 0 then false else backoff in
      (* if not backoff: boexpbase = 1 *)
      let boexpbase := if negb backoff then 1%Q else boexpbase in
      (* if boexpbase == 1: borandom = False *)
      let borandom := if Qeq_bool boexpbase 1 then false else borandom in
      Ok {| validator := validator; maxtries := maxtries; delay := delay;
            jitterfactor := jitterfactor; backoff := backoff;
            boexpbase := boexpbase; borandom := borandom |}
  end.

(** What a retry-wrapped call can touch. *)
Record world (S : Type) := {
  op_state : S;
  calls : nat;               (* invocations of the wrapped operation so far *)
  slept : list Q;            (* arguments of [sleep], latest first *)
  normal_tape : list Q;      (* draws left for [random.gauss] *)
  choice_tape : list nat     (* draws left for [random.choice] *)
}.
Arguments op_state {S} w.
Arguments calls {S} w.
Arguments slept {S} w.
Arguments normal_tape {S} w.
Arguments choice_tape {S} w.

(** the call of [func] with the wrapper's own arguments *)
Definition invoke {S} (func : operation S pyval)
    (args : list pyval) (kwargs : list (string * pyval)) : comp (world S) pyval :=
  fun w =>
    let '(r, st) := op_call func args kwargs (op_state w) in
    let w' := {| op_state := st; calls := Datatypes.S (calls w); slept := slept w;
                 normal_tape := normal_tape w; choice_tape := choice_tape w |} in
    match r with
    | Ok v => Return v w'
    | Err e => Raise e w'
    end.

(** [time.sleep(t)]: a negative length is refused. *)
Definition sleep {S} (t : Q) : comp (world S) unit :=
  fun w =>
    if Qlt_bool t 0 then Raise (ValueError "sleep length must be non-negative") w
    else Return tt {| op_state := op_state w; calls := calls w; slept := t :: slept w;
                      normal_tape := normal_tape w; choice_tape := choice_tape w |}.

(** [random.choice(seq)]: [seq[randbelow(len(seq))]]. *)
Definition random_choice {S} (seq : list Z) : comp (world S) Z :=
  fun w =>
    match seq with
    | [] => Raise (IndexError "Cannot choose from an empty sequence") w
    | x :: _ =>
        match choice_tape w with
        | [] => Stuck
        | r :: tape' =>
            Return (nth (r mod length seq) seq x)
              {| op_state := op_state w; calls := calls w; slept := slept w;
                 normal_tape := normal_tape w; choice_tape := tape' |}
        end
    end.

(** [range(n)] as a list *)
Definition range (n : Z) : list Z := map Z.of_nat (seq 0 (Z.to_nat n)).

(** Lines 81-86: the exponent of the backoff. *)
Definition exponent {S} (p : policy) (failcount : Z) : comp (world S) Z :=
  if borandom p then random_choice (range failcount)
  else mret (failcount - 1)%Z.

(** The wrapper of [m2jitter(jitterfactor=jitterfactor)] around a function
    that has returned [result]: [get_jittered(result, jitterfactor)], which
    reads the tape of normal draws. *)
Definition m2jitter {S} (jitterfactor : Q) (result : Q) : comp (world S) Q :=
  fun w =>
    match M2jitter.get_jittered (PyFloat result) (PyFloat jitterfactor) (normal_tape w) with
    | Drawn v tape' =>
        Return v {| op_state := op_state w; calls := calls w; slept := slept w;
                    normal_tape := tape'; choice_tape := choice_tape w |}
    | Raised e tape' =>
        Raise e {| op_state := op_state w; calls := calls w; slept := slept w;
                   normal_tape := tape'; choice_tape := choice_tape w |}
    | Starved => Stuck
    end.

(** Lines 88-90: [boexpbase ** exponent(failcount) * delay], jittered. *)
Definition get_waiting_time {S} (p : policy) (boexpbase : Q) (failcount : Z) (delay : Q)
    : comp (world S) Q :=
  e ← exponent p failcount;
  m2jitter (jitterfactor p) (Qpower boexpbase e * delay)%Q.

(** The message of line 107. *)
Definition exhausted_message {S} (fmt : pyformat) (func : operation S pyval)
    (args : list pyval) (kwargs : list (string * pyval)) (failcount : Z) : string :=
  op_name func +:+ "("
  +:+ (String.concat ", " (map (py_str fmt) args)
       +:+ String.concat ", " (map (kwarg_repr fmt) kwargs))
  +:+ ") failed " +:+ str_of_Z failcount +:+ " times, returning None.".

(** Lines 97-107: the [while remaining_tries: ... else: raise] loop.  The
    counter only ever goes down by one, so it is the structural argument. *)
Fixpoint attempts {S} (fmt : pyformat) (p : policy) (func : operation S pyval)
    (args : list pyval) (kwargs : list (string * pyval))
    (remaining_tries : nat) (failcount : Z) : comp (world S) pyval :=
  match remaining_tries with
  | O => throw (MaxTriesExhaustedError (exhausted_message fmt func args kwargs failcount))
  | Datatypes.S remaining_tries =>
      result ← invoke func args kwargs;
      valid ← lift_res (validator p result);
      if (valid : bool) then mret result
      else
        let failcount := (failcount + 1)%Z in
        _ ← (if negb (Qeq_bool (delay p) 0) && negb (Nat.eqb remaining_tries 0)
             then time_to_wait ← get_waiting_time p (boexpbase p) failcount (delay p);
                  sleep time_to_wait
             else mret tt);
        attempts fmt p func args kwargs remaining_tries failcount
  end.

(** The wrapper that [m2retry(...)(func)] returns. *)
Definition wrapper {S} (fmt : pyformat) (p : policy) (func : operation S pyval)
    (args : list pyval) (kwargs : list (string * pyval)) : comp (world S) pyval :=
  attempts fmt p func args kwargs (Z.to_nat (maxtries p)) 0%Z.

End M2retry.

(** ** The [datetime] module of the Python library

    Naive date-times of the proleptic Gregorian calendar, after the
    reference implementation of the library ([_pydatetime.py]): only what
    [m2cache.py] uses of it. *)

Module PyDatetime.

Local Open Scope Z_scope.

Record datetime := {
  year : Z; month : Z; day : Z;
  hour : Z; minute : Z; second : Z; microsecond : Z
}.

Record timedelta := { td_days : Z; td_seconds : Z; td_microseconds : Z }.

Definition MINYEAR := 1.
Definition MAXYEAR := 9999.
Definition MAXORDINAL := 3652059.

Definition is_leap (y : Z) : bool :=
  (y mod 4 =? 0) && (negb (y mod 100 =? 0) || (y mod 400 =? 0)).

Definition DAYS_IN_MONTH : list Z := [-1; 31; 28; 31; 30; 31; 30; 31; 31; 30; 31; 30; 31].
Definition DAYS_BEFORE_MONTH : list Z :=
  [-1; 0; 31; 59; 90; 120; 151; 181; 212; 243; 273; 304; 334].

Definition days_before_year (y : Z) : Z :=
  let y := y - 1 in y * 365 + y / 4 - y / 100 + y / 400.

Definition days_in_month (y m : Z) : Z :=
  if (m =? 2) && is_leap y then 29 else nth (Z.to_nat m) DAYS_IN_MONTH 0.

Definition days_before_month (y m : Z) : Z :=
  nth (Z.to_nat m) DAYS_BEFORE_MONTH 0 + (if (2 <? m) && is_leap y then 1 else 0).

Definition ymd2ord (y m d : Z) : Z :=
  days_before_year y + days_before_month y m + d.

Definition DI400Y := 146097.
Definition DI100Y := 36524.
Definition DI4Y := 1461.

(** [_ord2ymd(n)]: the date of the [n]-th day, 0001-01-01 being day 1. *)
Definition ord2ymd (n : Z) : Z * Z * Z :=
  let n := n - 1 in
  let n400 := n / DI400Y in
  let n := n mod DI400Y in
  let y := n400 * 400 + 1 in
  let n100 := n / DI100Y in
  let n := n mod DI100Y in
  let n4 := n / DI4Y in
  let n := n mod DI4Y in
  let n1 := n / 365 in
  let n := n mod 365 in
  let y := y + n100 * 100 + n4 * 4 + n1 in
  if (n1 =? 4) || (n100 =? 4) then (y - 1, 12, 31)
  else
    let leapyear := (n1 =? 3) && (negb (n4 =? 24) || (n100 =? 3)) in
    let m := Z.shiftr (n + 50) 5 in
    let preceding := nth (Z.to_nat m) DAYS_BEFORE_MONTH 0
                     + (if (2 <? m) && leapyear then 1 else 0) in
    if n <? preceding then
      let m := m - 1 in
      let preceding := preceding
                       - (nth (Z.to_nat m) DAYS_IN_MONTH 0
                          + (if (m =? 2) && leapyear then 1 else 0)) in
      (y, m, n - preceding + 1)
    else (y, m, n - preceding + 1).

(** [datetime(year, month, day, hour, minute, second)]: the constructor
    checks every field. *)
Definition new (y m d hh mm ss us : Z) : res datetime :=
  if negb ((MINYEAR <=? y) && (y <=? MAXYEAR))
  then Err (ValueError "year must be in 1..9999")
  else if negb ((1 <=? m) && (m <=? 12))
  then Err (ValueError "month must be in 1..12")
  else if negb ((1 <=? d) && (d <=? days_in_month y m))
  then Err (ValueError "day is out of range for month")
  else if negb ((0 <=? hh) && (hh <=? 23))
  then Err (ValueError "hour must be in 0..23")
  else if negb ((0 <=? mm) && (mm <=? 59))
  then Err (ValueError "minute must be in 0..59")
  else if negb ((0 <=? ss) && (ss <=? 59))
  then Err (ValueError "second must be in 0..59")
  else if negb ((0 <=? us) && (us <=? 999999))
  then Err (ValueError "microsecond must be in 0..999999")
  else Ok {| year := y; month := m; day := d;
             hour := hh; minute := mm; second := ss; microsecond := us |}.

(** A value that the constructor would have accepted. *)
Definition valid (dt : datetime) : bool :=
  match new (year dt) (month dt) (day dt) (hour dt) (minute dt) (second dt)
            (microsecond dt) with
  | Ok _ => true
  | Err _ => false
  end.

(** [timedelta(days, seconds, microseconds)] brought to its normal form:
    seconds in 0..86399, microseconds in 0..999999, and the day count
    bounded. *)
Definition normalize (d s us : Z) : res timedelta :=
  let s := s + us / 1000000 in
  let us := us mod 1000000 in
  let d := d + s / 86400 in
  let s := s mod 86400 in
  if 999999999 <? Z.abs d
  then Err (OverflowError "timedelta # of days is too large")
  else Ok {| td_days := d; td_seconds := s; td_microseconds := us |}.

(** [timedelta(weeks=, days=, hours=, minutes=, seconds=)] *)
Definition new_timedelta (weeks days hours minutes seconds : Z) : res timedelta :=
  normalize (days + weeks * 7) (seconds + minutes * 60 + hours * 3600) 0.

(** [-td] *)
Definition neg (td : timedelta) : res timedelta :=
  normalize (- td_days td) (- td_seconds td) (- td_microseconds td).

Definition toordinal (dt : datetime) : Z := ymd2ord (year dt) (month dt) (day dt).

(** [dt + td] *)
Definition add (dt : datetime) (td : timedelta) : res datetime :=
  delta ← normalize (toordinal dt + td_days td)
             (second dt + minute dt * 60 + hour dt * 3600 + td_seconds td)
             (microsecond dt + td_microseconds td);
  let hh := td_seconds delta / 3600 in
  let rem := td_seconds delta mod 3600 in
  let mm := rem / 60 in
  let ss := rem mod 60 in
  if (0 <? td_days delta) && (td_days delta <=? MAXORDINAL) then
    let '(y, m, d) := ord2ymd (td_days delta) in
    new y m d hh mm ss (td_microseconds delta)
  else Err (OverflowError "date value out of range").

(** [dt - td] is [dt + (-td)]. *)
Definition sub (dt : datetime) (td : timedelta) : res datetime :=
  ntd ← neg td; add dt ntd.

(** Date-times compare as the tuples of their fields. *)
Definition fields (dt : datetime) : list Z :=
  [year dt; month dt; day dt; hour dt; minute dt; second dt; microsecond dt].

Fixpoint lex_ltb (a b : list Z) : bool :=
  match a, b with
  | x :: a', y :: b' => (x <? y) || ((x =? y) && lex_ltb a' b')
  | [], _ :: _ => true
  | _, [] => false
  end.

Definition ltb (a b : datetime) : bool := lex_ltb (fields a) (fields b).
(** [a >= b] *)
Definition geb (a b : datetime) : bool := negb (ltb a b).

(** Decimal digits of a number, padded with zeros to [width]. *)
Fixpoint zeros (n : nat) : string :=
  match n with
  | O => ""
  | S n => String "0" (zeros n)
  end.

Definition pad (width : nat) (z : Z) : string :=
  let s := str_of_Z z in zeros (width - String.length s) +:+ s.

(** [dt.strftime('_%Y-%m-%d_%H%M%S')] *)
Definition strftime_stamp (dt : datetime) : string :=
  "_" +:+ pad 4 (year dt) +:+ "-" +:+ pad 2 (month dt) +:+ "-" +:+ pad 2 (day dt)
  +:+ "_" +:+ pad 2 (hour dt) +:+ pad 2 (minute dt) +:+ pad 2 (second dt).

End PyDatetime.

(** ** The regular expressions of [get_dt]

    Python's [re] is a backtracking matcher: of all the ways a pattern can
    match at a position it reports the first, greedy repetitions trying
    their longest form first.  A pattern is run here to the list of all its
    matches in that order of preference, and [re.match] takes the head. *)

Module PyRe.

Inductive regex :=
  | Digit                                    (* \d *)
  | NonDigit                                 (* \D *)
  | HexDigit                                 (* [0-9a-f] *)
  | Chr (c : ascii)
  | Lit (s : string)
  | Seq (r1 r2 : regex)
  | Alt (r1 r2 : regex)
  | Rep (r : regex) (lo : nat) (hi : option nat)  (* greedy r{lo,hi}; no [hi]: unbounded *)
  | Group (i : nat) (r : regex)              (* the i-th capturing group *)
  | Eos.                                     (* $ *)

Definition Opt (r : regex) : regex := Rep r 0 (Some 1).
Definition Star (r : regex) : regex := Rep r 0 None.
Definition Plus (r : regex) : regex := Rep r 1 None.

Definition is_digit (c : ascii) : bool :=
  (48 <=? nat_of_ascii c)%nat && (nat_of_ascii c <=? 57)%nat.

Definition is_hex_digit (c : ascii) : bool :=
  is_digit c || ((97 <=? nat_of_ascii c)%nat && (nat_of_ascii c <=? 102)%nat).

Definition newline : ascii := ascii_of_nat 10.

(** What the groups captured, and the text that is left. *)
Abbreviation captures := (gmap nat string).
Definition state : Type := captures * string.

Fixpoint strip_prefix (p s : string) : option string :=
  match p, s with
  | EmptyString, _ => Some s
  | String a p', String b s' => if Ascii.eqb a b then strip_prefix p' s' else None
  | String _ _, EmptyString => None
  end.

(** The text between two positions of the same string. *)
Definition consumed (s rest : string) : string :=
  substring 0 (String.length s - String.length rest) s.

(** Greedy bounded repetition of a matcher. *)
Fixpoint rep (m : string -> captures -> list state) (lo hi : nat)
    (s : string) (caps : captures) : list state :=
  match hi with
  | O => if Nat.eqb lo 0 then [(caps, s)] else []
  | S hi' =>
      flat_map (fun st : state => rep m (pred lo) hi' (snd st) (fst st)) (m s caps)
      ++ (if Nat.eqb lo 0 then [(caps, s)] else [])
  end.

Fixpoint run (r : regex) (s : string) (caps : captures) : list state :=
  match r with
  | Digit =>
      match s with
      | String c s' => if is_digit c then [(caps, s')] else []
      | EmptyString => []
      end
  | NonDigit =>
      match s with
      | String c s' => if is_digit c then [] else [(caps, s')]
      | EmptyString => []
      end
  | HexDigit =>
      match s with
      | String c s' => if is_hex_digit c then [(caps, s')] else []
      | EmptyString => []
      end
  | Chr a =>
      match s with
      | String c s' => if Ascii.eqb a c then [(caps, s')] else []
      | EmptyString => []
      end
  | Lit p =>
      match strip_prefix p s with
      | Some s' => [(caps, s')]
      | None => []
      end
  | Seq r1 r2 => flat_map (fun st : state => run r2 (snd st) (fst st)) (run r1 s caps)
  | Alt r1 r2 => run r1 s caps ++ run r2 s caps
  | Rep r lo hi =>
      rep (run r) lo (match hi with Some h => h | None => String.length s end) s caps
  | Group i r =>
      map (fun st : state => (<[i := consumed s (snd st)]> (fst st), snd st)) (run r s caps)
  | Eos =>
      match s with
      | EmptyString => [(caps, s)]
      | String c EmptyString => if Ascii.eqb c newline then [(caps, s)] else []
      | _ => []
      end
  end.

(** [re.match(pattern, s)]: the groups of the first match at the start. *)
Definition re_match (r : regex) (s : string) : option captures :=
  match run r s ∅ with
  | st :: _ => Some (fst st)
  | [] => None
  end.

(** [re.findall(pattern, s)] for a pattern with groups: the matches from
    left to right, none overlapping, each as the texts of its groups. *)
Fixpoint findall_from (fuel : nat) (r : regex) (groups : list nat) (s : string)
    : list (list string) :=
  match fuel with
  | O => []
  | S fuel =>
      match run r s ∅ with
      | st :: _ =>
          map (fun i => default "" (fst st !! i)) groups
          :: (if (String.length (snd st) <? String.length s)%nat
              then findall_from fuel r groups (snd st)
              else match s with
                   | String _ s' => findall_from fuel r groups s'
                   | EmptyString => []
                   end)
      | [] =>
          match s with
          | String _ s' => findall_from fuel r groups s'
          | EmptyString => []
          end
      end
  end.

Definition findall (r : regex) (groups : list nat) (s : string) : list (list string) :=
  findall_from (S (String.length s)) r groups s.

(** [int(s)] for a string of decimal digits. *)
Definition digit_value (c : ascii) : Z := Z.of_nat (nat_of_ascii c - 48).

Fixpoint int_acc (acc : Z) (s : string) : Z :=
  match s with
  | EmptyString => acc
  | String c s' => int_acc (10 * acc + digit_value c)%Z s'
  end.

Definition int_of_digits (s : string) : Z := int_acc 0 s.

End PyRe.

(** ** The result cache ([m2cache.py]; [cache] of [m2ools.py] is the same
    text) *)

Module M2cache.

Import PyDatetime PyRe.

(** *** Fingerprint *)

(** [get_func_sig_hashed(name, args, kwargs)]; [sha1] stands for
    [hashlib.sha1(...).hexdigest()]. *)
Definition func_sig (fmt : pyformat) (name : string)
    (args : list pyval) (kwargs : list (string * pyval)) : string :=
  let argslist := map (py_repr fmt) args in
  let kwargslist := map (kwarg_repr fmt) kwargs in
  let allargs := String.concat ", " (argslist ++ kwargslist)%list in
  name +:+ "(" +:+ allargs +:+ ")".

Definition get_func_sig_hashed (fmt : pyformat) (sha1 : string -> string) (name : string)
    (args : list pyval) (kwargs : list (string * pyval)) : string :=
  sha1 (func_sig fmt name args kwargs).

(** *** Reachback *)

(** [(?:\D(\d{1,2}))?] *)
Definition field_re (i : nat) : regex :=
  Opt (Seq NonDigit (Group i (Rep Digit 1 (Some 2)))).

Definition datetime_re : regex :=
  Seq (Group 1 (Rep Digit 1 (Some 4)))
    (Seq (field_re 2) (Seq (field_re 3) (Seq (field_re 4)
      (Seq (field_re 5) (Seq (field_re 6) Eos))))).

Definition unit_re : regex :=
  Alt (Lit "year") (Alt (Lit "month") (Alt (Lit "week") (Alt (Lit "day")
    (Alt (Lit "hour") (Alt (Lit "minute") (Lit "second")))))).

Definition customtimedelta_re : regex :=
  Seq (Group 1 (Plus Digit)) (Seq (Star (Chr " ")) (Seq (Group 2 unit_re) (Opt (Chr "s")))).

(** [int(x) if x else dflt] for a group that may not have taken part. *)
Definition group_or (g : captures) (i : nat) (dflt : Z) : Z :=
  match g !! i with
  | Some x => if String.eqb x "" then dflt else int_of_digits x
  | None => dflt
  end.

(** [{f'{k}s': int(v) for v, k in matches if k in units}]: a later phrase
    with the same unit replaces an earlier one. *)
Definition plural_args (units : list string) (matches : list (list string)) : gmap string Z :=
  foldl (fun (d : gmap string Z) (m : list string) =>
           match m with
           | [v; k] =>
               if bool_decide (k ∈ units) then <[k +:+ "s" := int_of_digits v]> d else d
           | _ => d
           end) ∅ matches.

(** [d.get(key, 0)] *)
Definition get0 (d : gmap string Z) (key : string) : Z := default 0%Z (d !! key).

(** [while month <= 0: month += 12; year -= 1].  Every round adds twelve,
    so [1 - month] rounds are more than enough. *)
Fixpoint borrow (fuel : nat) (month year : Z) : Z * Z :=
  if (month <=? 0)%Z then
    match fuel with
    | O => (month, year)
    | S fuel => borrow fuel (month + 12)%Z (year - 1)%Z
    end
  else (month, year).

(** [get_dt(reachback)], given what [datetime.now()] reads. *)
Definition get_dt (now : datetime) (reachback : string) : res datetime :=
  match re_match datetime_re reachback with
  | Some g =>
      new (group_or g 1 1) (group_or g 2 1) (group_or g 3 1)
          (group_or g 4 0) (group_or g 5 0) (group_or g 6 0) 0
  | None =>
      match findall customtimedelta_re [1; 2]%nat reachback with
      | [] => Err (UnboundLocalError "dt_args")
      | matches =>
          let tdelta_args := plural_args ["week"; "day"; "hour"; "minute"; "second"] matches in
          let custom_args := plural_args ["year"; "month"] matches in
          td ← new_timedelta (get0 tdelta_args "weeks") (get0 tdelta_args "days")
                 (get0 tdelta_args "hours") (get0 tdelta_args "minutes")
                 (get0 tdelta_args "seconds");
          dt ← sub now td;
          let month := (month dt - get0 custom_args "months")%Z in
          let year := (year dt - get0 custom_args "years")%Z in
          let '(month, year) := borrow (Z.to_nat (1 - month)) month year in
          new year month (day dt) (hour dt) (minute dt) (second dt) 0
      end
  end.

(** *** Storage and inventory *)

(** What a wrapped operation may return: [None], a [pandas.DataFrame], or
    any other object; the payload is the text that serialising it writes. *)
Inductive result :=
  | RNone
  | RFrame (csv : string)
  | RObject (pickled : string).

Record entry := { dt : datetime; cachefilename : string }.

Record config := {
  reachback : string;
  hoard : bool;
  cachedir : string
}.

(** The two readings of the clock a call can make: in [get_dt] and in
    [to_cache]. *)
Record readings := { at_lookup : datetime; at_store : datetime }.

Record world (S : Type) := {
  op_state : S;
  calls : nat;                                  (* invocations of the wrapped operation *)
  cache_inventory : gmap string (list entry);   (* [wrapper.cache_inventory] *)
  files : gmap string string                    (* the disk: path to content *)
}.
Arguments op_state {S} w.
Arguments calls {S} w.
Arguments cache_inventory {S} w.
Arguments files {S} w.

Definition set_inventory {S} (inv : gmap string (list entry)) : comp (world S) unit :=
  fun w => Return tt {| op_state := op_state w; calls := calls w;
                        cache_inventory := inv; files := files w |}.

Definition set_files {S} (fs : gmap string string) : comp (world S) unit :=
  fun w => Return tt {| op_state := op_state w; calls := calls w;
                        cache_inventory := cache_inventory w; files := fs |}.

Definition get_inventory {S} : comp (world S) (gmap string (list entry)) :=
  fun w => Return (cache_inventory w) w.

Definition get_files {S} : comp (world S) (gmap string string) :=
  fun w => Return (files w) w.

Definition invoke {S} (func : operation S result)
    (args : list pyval) (kwargs : list (string * pyval)) : comp (world S) result :=
  fun w =>
    let '(r, st) := op_call func args kwargs (op_state w) in
    let w' := {| op_state := st; calls := Datatypes.S (calls w);
                 cache_inventory := cache_inventory w; files := files w |} in
    match r with
    | Ok v => Return v w'
    | Err e => Raise e w'
    end.

(** [os.path.join(a, b)] for a relative [b] *)
Definition path_join (a b : string) : string :=
  if String.eqb a "" then b
  else if String.eqb (substring (String.length a - 1) 1 a) "/" then a +:+ b
  else a +:+ "/" +:+ b.

(** [to_cache(result, cachedir, func_name, func_sig_hashed)]; the caller
    has ruled out [None]. *)
Definition to_cache {S} (now : datetime) (r : result) (cachedir func_name func_sig_hashed : string)
    : comp (world S) (datetime * string) :=
  let dt := now in
  let cachebasefilename :=
    path_join cachedir (func_name +:+ "_" +:+ func_sig_hashed +:+ strftime_stamp dt) in
  let '(cachefilename, content) :=
    match r with
    | RFrame csv => (cachebasefilename +:+ ".csv", csv)
    | RObject pickled => (cachebasefilename +:+ ".pkl", pickled)
    | RNone => (cachebasefilename +:+ ".pkl", "")
    end in
  fs ← get_files;
  _ ← set_files (<[cachefilename := content]> fs);
  mret (dt, cachefilename).

(** [from_cache(cachefilename, func_name)] *)
Definition from_cache {S} (cachefilename : string) : comp (world S) result :=
  let n := String.length cachefilename in
  let ext := substring (n - 4) 4 cachefilename in
  fs ← get_files;
  if String.eqb ext ".csv" then
    match fs !! cachefilename with
    | Some content => mret (RFrame content)
    | None => throw (FileNotFoundError cachefilename)
    end
  else if String.eqb ext ".pkl" then
    match fs !! cachefilename with
    | Some content => mret (RObject content)
    | None => throw (FileNotFoundError cachefilename)
    end
  else throw (UnboundLocalError "result").

(** [max(entries, key=lambda d: d['dt'])]: the first of the greatest. *)
Definition max_by_dt (entries : list entry) : res entry :=
  match entries with
  | [] => Err (ValueError "max() arg is an empty sequence")
  | e :: rest =>
      Ok (fold_left (fun best x => if ltb (dt best) (dt x) then x else best) rest e)
  end.

(** [for file in stale_files: os.remove(file)] *)
Fixpoint remove_all {S} (stale_files : list string) : comp (world S) unit :=
  match stale_files with
  | [] => mret tt
  | file :: rest =>
      fs ← get_files;
      match fs !! file with
      | Some _ => _ ← set_files (delete file fs); remove_all rest
      | None => throw (FileNotFoundError file)
      end
  end.

(** The pattern of a cache file of [func_name]:
    [func_name + r'_([0-9a-f]{40})_(\d{4}-\d{2}-\d{2}_\d{6})\.(?:csv|pkl)$'] *)
Definition exactly (n : nat) (r : regex) : regex := Rep r n (Some n).

Definition stamp_re : regex :=
  Seq (exactly 4 Digit) (Seq (Chr "-") (Seq (exactly 2 Digit) (Seq (Chr "-")
    (Seq (exactly 2 Digit) (Seq (Chr "_") (exactly 6 Digit)))))).

Definition cachefilename_re (func_name : string) : regex :=
  Seq (Lit func_name) (Seq (Chr "_") (Seq (Group 1 (exactly 40 HexDigit)) (Seq (Chr "_")
    (Seq (Group 2 stamp_re) (Seq (Chr ".") (Seq (Alt (Lit "csv") (Lit "pkl")) Eos)))))).

(** [datetime.strptime(timestamp, '%Y-%m-%d_%H%M%S')] on a text that the
    pattern has let through. *)
Definition strptime_stamp (timestamp : string) : res datetime :=
  let num (start len : nat) := int_of_digits (substring start len timestamp) in
  new (num 0 4) (num 5 2) (num 8 2) (num 11 2) (num 13 2) (num 15 2)%nat 0.

(** [get_cache_inventory(cachedir, func_name)], given what [os.walk] lists
    under the directory: the files as pairs of directory and name, in the
    order of the walk.  The inventory is a [defaultdict(list)]. *)
Fixpoint scan (func_name : string) (listing : list (string * string))
    (cache_inventory : gmap string (list entry)) : res (gmap string (list entry)) :=
  match listing with
  | [] => Ok cache_inventory
  | (root, filename) :: listing =>
      match re_match (cachefilename_re func_name) filename with
      | Some g =>
          let func_sig_hashed := default "" (g !! 1%nat) in
          let timestamp := default "" (g !! 2%nat) in
          dt ← strptime_stamp timestamp;
          let cachefilename := path_join root filename in
          scan func_name listing
            (<[func_sig_hashed :=
                 (default [] (cache_inventory !! func_sig_hashed)
                  ++ [{| dt := dt; cachefilename := cachefilename |}])%list]>
               cache_inventory)
      | None => scan func_name listing cache_inventory
      end
  end.

Definition get_cache_inventory (listing : list (string * string)) (func_name : string)
    : res (gmap string (list entry)) :=
  scan func_name listing ∅.

(** [wrapper.cache_inventory.get(key, []).append(e)]: [get] does not go
    through [__missing__], so for a key that is absent the entry lands on a
    list that nothing holds. *)
Definition get_append (key : string) (e : entry) (inv : gmap string (list entry))
    : gmap string (list entry) :=
  match inv !! key with
  | Some entries => <[key := (entries ++ [e])%list]> inv
  | None => inv
  end.

(** The wrapper that [m2cache(...)(func)] returns (lines 90-109). *)
Definition wrapper {S} (fmt : pyformat) (sha1 : string -> string) (cfg : config)
    (func : operation S result) (clk : readings)
    (args : list pyval) (kwargs : list (string * pyval)) : comp (world S) result :=
  let func_sig_hashed := get_func_sig_hashed fmt sha1 (op_name func) args kwargs in
  inv ← get_inventory;
  hit ← match inv !! func_sig_hashed with
        | None => mret None
        | Some entries =>
            most_recent_cached_entry ← lift_res (max_by_dt entries);
            cutoff ← lift_res (get_dt (at_lookup clk) (reachback cfg));
            mret (if geb (dt most_recent_cached_entry) cutoff
                  then Some most_recent_cached_entry else None)
        end;
  match hit with
  | Some most_recent_cached_entry =>
      from_cache (cachefilename most_recent_cached_entry)
  | None =>
      r ← invoke func args kwargs;
      match r with
      | RNone => mret r
      | _ =>
          '(dt, cachefilename) ← to_cache (at_store clk) r (cachedir cfg) (op_name func)
                                    func_sig_hashed;
          _ ← (if negb (hoard cfg) then
                 inv ← get_inventory;
                 let stale_files := map M2cache.cachefilename (default [] (inv !! func_sig_hashed)) in
                 _ ← remove_all stale_files;
                 inv ← get_inventory;
                 set_inventory (<[func_sig_hashed := []]> inv)
               else mret tt);
          inv ← get_inventory;
          _ ← set_inventory
                (get_append func_sig_hashed {| dt := dt; cachefilename := cachefilename |} inv);
          mret r
      end
  end.

End M2cache.

(** ** Vocabulary of the properties *)






(** The world right after a call of the operation that a retry wraps. *)
Definition after_call {S} (func : operation S pyval) (args : list pyval)
    (kwargs : list (string * pyval)) (w : M2retry.world S) : M2retry.world S :=
  {| M2retry.op_state := snd (op_call func args kwargs (M2retry.op_state w));
     M2retry.calls := Datatypes.S (M2retry.calls w); M2retry.slept := M2retry.slept w;
     M2retry.normal_tape := M2retry.normal_tape w;
     M2retry.choice_tape := M2retry.choice_tape w |}.


(** What the checks of [m2retry] and lines 71-79 leave true of the closure. *)
Definition well_formed (p : M2retry.policy) : Prop :=
  (1 <= M2retry.maxtries p)%Z
  /\ (0 <= M2retry.delay p)%Q
  /\ (0 <= M2retry.jitterfactor p /\ M2retry.jitterfactor p <= 1)%Q
  /\ (1 <= M2retry.boexpbase p)%Q
  /\ ((M2retry.delay p == 0)%Q ->
      (M2retry.jitterfactor p == 0)%Q /\ M2retry.backoff p = false)
  /\ (M2retry.backoff p = false -> (M2retry.boexpbase p == 1)%Q)
  /\ ((M2retry.boexpbase p == 1)%Q -> M2retry.borandom p = false).

(** A draw that the crop keeps whatever the positive deviation. *)
Definition acceptable (z : Q) : bool := Qlt_bool (Qabs z) JITTER_SIGMA_COUNT.

Fixpoint count_acceptable (tape : list Q) : nat :=
  match tape with
  | [] => O
  | z :: tape => if acceptable z then Datatypes.S (count_acceptable tape)
                 else count_acceptable tape
  end.

(** The tapes hold enough for [n] more waits: a draw for every random
    exponent, and an acceptable draw for every jitter that is not zero. *)
Definition enough_draws {S} (p : M2retry.policy) (n : nat) (w : M2retry.world S) : Prop :=
  (M2retry.delay p == 0)%Q
  \/ ((M2retry.borandom p = true -> n <= length (M2retry.choice_tape w))
      /\ ((M2retry.jitterfactor p == 0)%Q
          \/ n <= count_acceptable (M2retry.normal_tape w))).



(** ** Worked examples *)

(** A formatter that is right for integers, booleans and [None], and
    leaves a string as it is. *)
Definition plain_str (v : pyval) : string :=
  match v with
  | PyNone => "None"
  | PyBool true => "True"
  | PyBool false => "False"
  | PyInt z => str_of_Z z
  | PyFloat q => str_of_Z (Qnum q) +:+ "/" +:+ str_of_Z (Zpos (Qden q))
  | PyStr s => s
  end.

Definition plain_format : pyformat := {| py_str := plain_str; py_repr := plain_str |}.


(** A validator that takes the fifth call's result only. *)
Definition only_five (v : pyval) : res bool :=
  Ok match v with
     | PyInt 5 => true
     | _ => false
     end.

(** An operation that fails on its third call. *)
Definition failing_third : operation nat pyval := {|
  op_name := "failing_third";
  op_call := fun _ _ n =>
    (if Nat.eqb n 2 then Err (OperationError "boom") else Ok (PyInt (Z.of_nat (Datatypes.S n))),
     Datatypes.S n)
|}.

Definition retry_start (normal : list Q) (choice : list nat) : M2retry.world nat :=
  {| M2retry.op_state := 0%nat; M2retry.calls := 0%nat; M2retry.slept := [];
     M2retry.normal_tape := normal; M2retry.choice_tape := choice |}.

(** [validator=only_five, maxtries=n, delay=0, jitterfactor=1,
    backoff=False, boexpbase=2, borandom=False], as in [example_retry.py]. *)
Definition no_delay_policy (n : Z) : M2retry.policy := {|
  M2retry.validator := only_five; M2retry.maxtries := n; M2retry.delay := 0;
  M2retry.jitterfactor := 0; M2retry.backoff := false;
  M2retry.boexpbase := 1; M2retry.borandom := false
|}.


(** The file [to_cache] writes for a result, and what it writes. *)
Definition stored_name (cachedir func_name func_sig_hashed : string)
    (now : PyDatetime.datetime) (r : M2cache.result) : string :=
  M2cache.path_join cachedir
    (func_name +:+ "_" +:+ func_sig_hashed +:+ PyDatetime.strftime_stamp now)
  +:+ match r with
      | M2cache.RFrame _ => ".csv"
      | _ => ".pkl"
      end.

Definition stored_content (r : M2cache.result) : string :=
  match r with
  | M2cache.RFrame csv => csv
  | M2cache.RObject pickled => pickled
  | M2cache.RNone => ""
  end.

(** The lookup of lines 92-94 finds nothing fresh enough: the fingerprint
    is not in the inventory, or its newest entry is older than the cutoff. *)
Definition lookup_misses {S} (cfg : M2cache.config) (clk : M2cache.readings)
    (func_sig_hashed : string) (w : M2cache.world S) : Prop :=
  M2cache.cache_inventory w !! func_sig_hashed = None
  \/ exists entries e cutoff,
      M2cache.cache_inventory w !! func_sig_hashed = Some entries
      /\ M2cache.max_by_dt entries = Ok e
      /\ M2cache.get_dt (M2cache.at_lookup clk) (M2cache.reachback cfg) = Ok cutoff
      /\ PyDatetime.geb (M2cache.dt e) cutoff = false.

(** The files the inventory holds for a fingerprint. *)
Definition recorded_files {S} (func_sig_hashed : string) (w : M2cache.world S) : list string :=
  map M2cache.cachefilename (default [] (M2cache.cache_inventory w !! func_sig_hashed)).

(** The extension [from_cache] dispatches on. *)
Definition extension (path : string) : string :=
  substring (String.length path - 4) 4 path.

(** A stand-in for the digest: the wrapper only compares fingerprints. *)
Definition plain_digest (s : string) : string := s.

(** An operation that returns an object naming the call. *)
Definition fetch : operation nat M2cache.result := {|
  op_name := "fetch";
  op_call := fun _ _ n =>
    (Ok (M2cache.RObject ("result " +:+ str_of_Z (Z.of_nat (Datatypes.S n)))), Datatypes.S n)
|}.

(** An empty cache directory scanned at decoration time. *)
Definition cache_start : M2cache.world nat :=
  {| M2cache.op_state := 0%nat; M2cache.calls := 0%nat;
     M2cache.cache_inventory := ∅; M2cache.files := ∅ |}.

Definition noon (s us : Z) : PyDatetime.datetime :=
  {| PyDatetime.year := 2021; PyDatetime.month := 3; PyDatetime.day := 31;
     PyDatetime.hour := 12; PyDatetime.minute := 0; PyDatetime.second := s;
     PyDatetime.microsecond := us |}.

(** A call that reads the clock at the same time for lookup and store. *)
Definition at_time (t : PyDatetime.datetime) : M2cache.readings :=
  {| M2cache.at_lookup := t; M2cache.at_store := t |}.

(** [m2cache(hoard=..., reachback=...)] with the default directory. *)
Definition cache_config (reachback : string) (hoard : bool) : M2cache.config :=
  {| M2cache.reachback := reachback; M2cache.hoard := hoard; M2cache.cachedir := "cache" |}.

(** Two calls of a cache-wrapped operation with the same arguments. *)
Definition twice {S} (fmt : pyformat) (sha1 : string -> string) (cfg : M2cache.config)
    (func : operation S M2cache.result) (clk1 clk2 : M2cache.readings)
    (args : list pyval) (kwargs : list (string * pyval))
    : comp (M2cache.world S) (M2cache.result * M2cache.result) :=
  r1 ← M2cache.wrapper fmt sha1 cfg func clk1 args kwargs;
  r2 ← M2cache.wrapper fmt sha1 cfg func clk2 args kwargs;
  mret (r1, r2).

(** The world after a first write of [fetch(1)] at 12:00:00 under
    single-version retention. *)
Definition after_first_write : M2cache.world nat :=
  {| M2cache.op_state := 1%nat; M2cache.calls := 1%nat;
     M2cache.cache_inventory :=
       {[ "fetch(1)" := [ {| M2cache.dt := noon 0 5;
                             M2cache.cachefilename :=
                               "cache/fetch_fetch(1)_2021-03-31_120000.pkl" |} ] ]};
     M2cache.files := {[ "cache/fetch_fetch(1)_2021-03-31_120000.pkl" := "result 1" ]} |}.

(** ** The reachback grammars in the words of the specification *)

Fixpoint all_digits (s : string) : bool :=
  match s with
  | EmptyString => true
  | String c s => PyRe.is_digit c && all_digits s
  end.

(** One to [n] decimal digits. *)
Definition digits_upto (n : nat) (s : string) : Prop :=
  all_digits s = true /\ (1 <= String.length s <= n)%nat.

(** A field behind its separator: any one character that is not a digit,
    then one or two digits. *)
Definition date_field (sf : ascii * string) : Prop :=
  PyRe.is_digit (fst sf) = false /\ digits_upto 2 (snd sf).

Fixpoint render_fields (fs : list (ascii * string)) : string :=
  match fs with
  | [] => ""
  | sf :: fs => String (fst sf) (snd sf +:+ render_fields fs)
  end.

(** [YYYY[-MM[-DD[-hh[-mm[-ss]]]]]]: the year and up to five fields. *)
Definition partial_date (y : string) (fs : list (ascii * string)) : string :=
  y +:+ render_fields fs.

Definition is_partial_date (y : string) (fs : list (ascii * string)) : Prop :=
  digits_upto 4 y /\ (length fs <= 5)%nat /\ Forall date_field fs.

(** The value of the [i]-th field after the year, or its default. *)
Definition field_value (fs : list (ascii * string)) (i : nat) (dflt : Z) : Z :=
  match fs !! i with
  | Some sf => PyRe.int_of_digits (snd sf)
  | None => dflt
  end.

(** The cutoff of a relative specification: the fixed durations are taken
    off the clock reading first, then years and months are taken off the
    calendar date, a month at or below zero borrowing from the year. *)
Definition relative_cutoff (now : PyDatetime.datetime) (matches : list (list string))
    : res PyDatetime.datetime :=
  let fixed := M2cache.plural_args ["week"; "day"; "hour"; "minute"; "second"] matches in
  let calendar := M2cache.plural_args ["year"; "month"] matches in
  td ← PyDatetime.new_timedelta (M2cache.get0 fixed "weeks") (M2cache.get0 fixed "days")
         (M2cache.get0 fixed "hours") (M2cache.get0 fixed "minutes")
         (M2cache.get0 fixed "seconds");
  dt ← PyDatetime.sub now td;
  let months := (PyDatetime.year dt * 12 + (PyDatetime.month dt - 1)
                 - (M2cache.get0 calendar "years" * 12 + M2cache.get0 calendar "months"))%Z in
  PyDatetime.new (months / 12) (months mod 12 + 1) (PyDatetime.day dt)
    (PyDatetime.hour dt) (PyDatetime.minute dt) (PyDatetime.second dt) 0.

(** The text after a run of digits does not go on with a digit. *)
Definition no_digit_head (t : string) : Prop :=
  match t with
  | EmptyString => True
  | String c _ => PyRe.is_digit c = false
  end.

(** The groups that the fields fill, in order. *)
Fixpoint fill_groups (groups : list nat) (fs : list (ascii * string))
    (caps : PyRe.captures) : PyRe.captures :=
  match groups, fs with
  | i :: groups, sf :: fs => fill_groups groups fs (<[i := snd sf]> caps)
  | _, _ => caps
  end.

(** The part of [datetime_re] after the year. *)
Definition fields_re (groups : list nat) : PyRe.regex :=
  foldr (fun i r => PyRe.Seq (M2cache.field_re i) r) PyRe.Eos groups.

(** ** Further vocabulary: the cache inventory *)

(** A file name that [from_cache] can load. *)
Definition loadable (path : string) : Prop :=
  extension path = ".csv" \/ extension path = ".pkl".

(** Every fingerprint of the inventory has an entry, and every entry has a
    file name that [from_cache] can load. *)
Definition inventory_ok (inv : gmap string (list M2cache.entry)) : Prop :=
  forall fp entries,
    inv !! fp = Some entries ->
    entries <> [] /\ Forall (fun e => loadable (M2cache.cachefilename e)) entries.


(** An operation that has nothing to return on its first call and fails
    on every later one. *)
Definition nothing_then_fail : operation nat M2cache.result := {|
  op_name := "fetch";
  op_call := fun _ _ n =>
    (if Nat.eqb n 0 then Ok M2cache.RNone else Err (OperationError "boom"), Datatypes.S n)
|}.

(** The world of [after_first_write] once its cache file has been
    removed behind the cache's back. *)
Definition after_file_lost : M2cache.world nat :=
  {| M2cache.op_state := 1%nat; M2cache.calls := 1%nat;
     M2cache.cache_inventory := M2cache.cache_inventory after_first_write;
     M2cache.files := ∅ |}.

(** ** Further vocabulary: the scan of the cache directory *)

(** A file name that does not end in a line feed. *)
Definition no_final_newline (s : string) : Prop :=
  forall t, s <> t +:+ String PyRe.newline "".

Fixpoint all_hex (s : string) : bool :=
  match s with
  | EmptyString => true
  | String c s => PyRe.is_hex_digit c && all_hex s
  end.

(** What [hexdigest()] of SHA-1 returns: forty lower-case hex digits. *)
Definition is_hexdigest (s : string) : Prop :=
  String.length s = 40%nat /\ all_hex s = true.

(** [s] is [n] decimal digits that read as [z]. *)
Definition reads_as (n : nat) (z : Z) (s : string) : bool :=
  all_digits s && Nat.eqb (String.length s) n && Z.eqb (PyRe.int_of_digits s) z.

(** The name, inside the cache directory, of the file [to_cache] writes. *)
Definition stored_basename (func_name func_sig_hashed : string)
    (now : PyDatetime.datetime) (r : M2cache.result) : string :=
  func_name +:+ "_" +:+ func_sig_hashed +:+ PyDatetime.strftime_stamp now
  +:+ match r with
      | M2cache.RFrame _ => ".csv"
      | _ => ".pkl"
      end.

(** A time as its file name keeps it: to the second. *)
Definition to_the_second (dt : PyDatetime.datetime) : PyDatetime.datetime :=
  {| PyDatetime.year := PyDatetime.year dt; PyDatetime.month := PyDatetime.month dt;
     PyDatetime.day := PyDatetime.day dt; PyDatetime.hour := PyDatetime.hour dt;
     PyDatetime.minute := PyDatetime.minute dt; PyDatetime.second := PyDatetime.second dt;
     PyDatetime.microsecond := 0 |}.

(** A digest, and a cache directory as [os.walk] lists it: a file that is
    not a cache file, and the file [to_cache] wrote for [fetch] at
    12:00:00. *)
Definition some_digest : string := "da39a3ee5e6b4b0d3255bfef95601890afd80709".

Definition some_listing : list (string * string) :=
  [ ("cache", "notes.txt");
    ("cache", stored_basename "fetch" some_digest (noon 0 5) (M2cache.RObject "result 1")) ].

(** ** Further vocabulary: the waits of the retry engine *)





(** ** The argument decorators

    [m2jitterargs] of [m2jitter.py] (lines 62-89) and [jitterargs] of
    [m2ools.py] (lines 88-114) are the same text, each over the
    [get_jittered] of its own module. *)

Module JitterArgs.

Section Wrapper.

Variable get_jittered : pyval -> pyval -> list Q -> drawn Q.

(** [jfactor >= 0]: a factor that is not a number cannot be compared. *)
Definition ge_zero (jfactor : pyval) : res bool :=
  match num_of jfactor with
  | Some jf => Ok (Qle_bool 0 jf)
  | None => Err (TypeError "'>=' not supported between instances")
  end.

(** The Python value of [val + get_jitter(val, jfactor)] for a number
    [val] and a factor that is not negative, given the sum [r]: where
    [get_jitter] returns the integer [0], for a zero factor or a zero
    value, an integer or a boolean stays an integer; everything else is a
    float. *)
Definition sum_value (val : pyval) (jf r : Q) : pyval :=
  match int_of val with
  | Some z => if Qle_bool jf 0 || Qeq_bool (inject_Z z) 0 then PyInt z else PyFloat r
  | None => PyFloat r
  end.

(** The body of both loops:
    [if jfactor >= 0 and isinstance(x, (int, float)):
        x = get_jittered(x, jfactor)] *)
Definition jitter_one (val jfactor : pyval) (tape : list Q) : drawn pyval :=
  match ge_zero jfactor with
  | Err e => Raised e tape
  | Ok false => Drawn val tape
  | Ok true =>
      match num_of val with
      | None => Drawn val tape
      | Some _ =>
          match get_jittered val jfactor tape with
          | Drawn r tape' =>
              Drawn (sum_value val (default 0%Q (num_of jfactor)) r) tape'
          | Raised e tape' => Raised e tape'
          | Starved => Starved
          end
      end
  end.

(** [for idx, jfactor in enumerate(jitterfactors[:len(args)]): ...
        newargs[idx] = get_jittered(args[idx], jfactor)] *)
Fixpoint positional (todo : list (nat * pyval)) (args newargs : list pyval)
    (tape : list Q) : drawn (list pyval) :=
  match todo with
  | [] => Drawn newargs tape
  | (idx, jfactor) :: todo =>
      match args !! idx with
      | None => Raised (IndexError "tuple index out of range") tape
      | Some a =>
          match jitter_one a jfactor tape with
          | Drawn x tape' => positional todo args (<[idx := x]> newargs) tape'
          | Raised e tape' => Raised e tape'
          | Starved => Starved
          end
      end
  end.

(** [for jfactor, key in zip(jitterfactors[len(args):], kwargs): ...
        kwargs[key] = get_jittered(kwargs[key], jfactor)]: the keys of a
    dict come in the order of its items, each once, so [kwargs[key]] is
    the value listed with the key, and assigning to it keeps the order. *)
Fixpoint keyword (jitterfactors : list pyval) (kwargs : list (string * pyval))
    (tape : list Q) : drawn (list (string * pyval)) :=
  match jitterfactors, kwargs with
  | jfactor :: jitterfactors, (key, val) :: kwargs =>
      match jitter_one val jfactor tape with
      | Drawn x tape' =>
          match keyword jitterfactors kwargs tape' with
          | Drawn rest tape'' => Drawn ((key, x) :: rest) tape''
          | Raised e tape'' => Raised e tape''
          | Starved => Starved
          end
      | Raised e tape' => Raised e tape'
      | Starved => Starved
      end
  | _, _ => Drawn kwargs tape
  end.

(** The arguments that the wrapper hands on. *)
Definition jittered_arguments (jitterfactors args : list pyval)
    (kwargs : list (string * pyval)) (tape : list Q)
    : drawn (list pyval * list (string * pyval)) :=
  match positional (imap pair (take (length args) jitterfactors)) args args tape with
  | Drawn newargs tape' =>
      match keyword (drop (length args) jitterfactors) kwargs tape' with
      | Drawn kwargs' tape'' => Drawn (newargs, kwargs') tape''
      | Raised e tape'' => Raised e tape''
      | Starved => Starved
      end
  | Raised e tape' => Raised e tape'
  | Starved => Starved
  end.

(** The wrapper: the call of [func] with the new positional arguments and
    the keyword arguments as the second loop has left them. *)
Definition wrapper {S R} (func : operation S R) (jitterfactors args : list pyval)
    (kwargs : list (string * pyval)) (st : S) (tape : list Q) : drawn (res R * S) :=
  match jittered_arguments jitterfactors args kwargs tape with
  | Drawn (newargs, kwargs') tape' => Drawn (op_call func newargs kwargs' st) tape'
  | Raised e tape' => Raised e tape'
  | Starved => Starved
  end.

End Wrapper.

End JitterArgs.






(** ** Paths ([m2paths.py]) *)

Module M2paths.

(** What a sanitising step comes to.  [re.sub] reads a backslash in the
    replacement as the start of an escape or of a group reference; that
    reading is left out here, and a replacement with a backslash in it ends
    in [TemplateEscape]. *)
Inductive subbed (A : Type) :=
  | Done (a : A)
  | Refused (e : pyexn)
  | TemplateEscape.
Arguments Done {A} a.
Arguments Refused {A} e.
Arguments TemplateEscape {A}.

#[global] Instance subbed_ret : MRet subbed := fun A a => Done a.
#[global] Instance subbed_bind : MBind subbed := fun A B f m =>
  match m with
  | Done a => f a
  | Refused e => Refused e
  | TemplateEscape => TemplateEscape
  end.

Definition backslash : ascii := ascii_of_nat 92.
Definition carriage_return : ascii := ascii_of_nat 13.
Definition nul : ascii := ascii_of_nat 0.

(** The class of ['file'] mode: tilde, slash, line feed, carriage return,
    NUL and backslash. *)
Definition unwanted_file (c : ascii) : bool :=
  Ascii.eqb c "~" || Ascii.eqb c "/" || Ascii.eqb c PyRe.newline
  || Ascii.eqb c carriage_return || Ascii.eqb c nul || Ascii.eqb c backslash.

(** The class of ['dir'] mode where [os.path.sep] is the slash: the same
    without the slash. *)
Definition unwanted_dir (c : ascii) : bool :=
  Ascii.eqb c "~" || Ascii.eqb c PyRe.newline
  || Ascii.eqb c carriage_return || Ascii.eqb c nul || Ascii.eqb c backslash.

Fixpoint has (a : ascii) (s : string) : bool :=
  match s with
  | EmptyString => false
  | String c s => Ascii.eqb a c || has a s
  end.

(** [re.sub('([...]+)', repl, s)] for a replacement with no backslash:
    from left to right, every longest run of characters of the class gives
    way to one [repl].  [in_run] says that the character before was of the
    class. *)
Fixpoint replace_runs (unwanted : ascii -> bool) (repl s : string) (in_run : bool) : string :=
  match s with
  | EmptyString => EmptyString
  | String c s =>
      if unwanted c then
        if in_run then replace_runs unwanted repl s true
        else repl +:+ replace_runs unwanted repl s true
      else String c (replace_runs unwanted repl s false)
  end.

Definition re_sub (unwanted : ascii -> bool) (repl s : string) : subbed string :=
  if has backslash repl then TemplateEscape
  else Done (replace_runs unwanted repl s false).

(** [untaint(mode, name, replacewith)] for a [name] that is a string. *)
Definition untaint (mode : pyval) (name : string) (replacewith : option string)
    : subbed string :=
  match replacewith with
  | None => Done name
  | Some replacewith =>
      match mode with
      | PyStr m =>
          if String.eqb m "file" then re_sub unwanted_file replacewith name
          else if String.eqb m "dir" then re_sub unwanted_dir replacewith name
          else Refused (ValueError "")
      | _ => Refused (ValueError "")
      end
  end.

(** [os.path.join(a, b)] of [posixpath]: a second part that starts at the
    root stands alone. *)
Definition os_path_join (a b : string) : string :=
  match b with
  | String "/" _ => b
  | _ =>
      if String.eqb a "" then b
      else if String.eqb (substring (String.length a - 1) 1 a) "/" then a +:+ b
      else a +:+ "/" +:+ b
  end.

Definition startswith_dot (s : string) : bool :=
  match s with
  | String "." _ => true
  | _ => false
  end.

(** [get_new_path] with its positional arguments and its keywords
    [extension], [dirname], [timestamp], [replacewith], [createdir] and
    [timeformat].  The positional arguments, the extension and
    the directory come as their [str()]; [now_text] is what
    [datetime.now().strftime(timeformat)] gives.  The result is the path and
    the directory handed to [os.makedirs], if any; what [os.makedirs] may
    raise on its own is left out. *)
Definition get_new_path (args : list string) (extension dirname : string)
    (timestamp : bool) (now_text : string) (replacewith : option string)
    (createdir : bool) : subbed (string * option string) :=
  replacewith ← match replacewith with
                | Some r => r' ← untaint (PyStr "file") r (Some ""); mret (Some r')
                | None => mret None
                end;
  dirname ← untaint (PyStr "dir") dirname replacewith;
  extension ← untaint (PyStr "file") extension replacewith;
  let made := if createdir && negb (String.eqb dirname "") then Some dirname else None in
  let extension :=
    if negb (String.eqb extension "") && negb (startswith_dot extension)
    then "." +:+ extension else extension in
  let args := (args ++ (if timestamp then [now_text] else []))%list in
  filename ← untaint (PyStr "file") (String.concat "_" args) replacewith;
  mret (os_path_join dirname (filename +:+ extension), made).

End M2paths.

(** ** Further vocabulary: clean names *)

(** No character of the text is in the class. *)
Fixpoint free_of (unwanted : ascii -> bool) (s : string) : bool :=
  match s with
  | EmptyString => true
  | String c s => negb (unwanted c) && free_of unwanted s
  end.

(** Every character of the text is in the class. *)
Fixpoint all_of (unwanted : ascii -> bool) (s : string) : bool :=
  match s with
  | EmptyString => true
  | String c s => unwanted c && all_of unwanted s
  end.

(** The text with the characters of the class left out. *)
Fixpoint without (unwanted : ascii -> bool) (s : string) : string :=
  match s with
  | EmptyString => EmptyString
  | String c s => if unwanted c then without unwanted s else String c (without unwanted s)
  end.

(** The text does not start with a character of the class. *)
Definition clean_start (unwanted : ascii -> bool) (s : string) : bool :=
  match s with
  | EmptyString => true
  | String c _ => negb (unwanted c)
  end.

(** The class of a mode of [untaint]. *)
Definition class_of (mode : string) : ascii -> bool :=
  if String.eqb mode "file" then M2paths.unwanted_file else M2paths.unwanted_dir.

(** The extension as [get_new_path] appends it. *)
Definition dotted (extension : string) : string :=
  if negb (String.eqb extension "") && negb (M2paths.startswith_dot extension)
  then "." +:+ extension else extension.

(** * Properties *)

(** ** Jitter *)

Section Jitter.

Local Open Scope Q_scope.

Lemma Qle_bool_false (a b : Q) : Qle_bool a b = false <-> b < a.
Proof.
  split; intros H.
  - apply Qnot_le_lt. intros Hle. apply Qle_bool_iff in Hle. congruence.
  - destruct (Qle_bool a b) eqn:E; [|reflexivity].
    apply Qle_bool_iff in E. exfalso. apply (Qlt_not_le _ _ H E).
Qed.

Lemma Qlt_bool_true (a b : Q) : Qlt_bool a b = true <-> a < b.
Proof. unfold Qlt_bool. rewrite negb_true_iff. apply Qle_bool_false. Qed.

Lemma Qlt_bool_false (a b : Q) : Qlt_bool a b = false <-> b <= a.
Proof. unfold Qlt_bool. rewrite negb_false_iff. apply Qle_bool_iff. Qed.










(** C9, as the code has it.  [m2ools.get_jittered] raises [TypeError] for
    a value that is not a number; for a number other than zero it raises
    [TypeError] for a jitterfactor that is not a number and [ValueError]
    for a negative one; but a zero value is returned as it is before the
    jitterfactor is looked at, and so is any value under a zero
    jitterfactor.  [m2jitter.get_jittered] has no checks of its own: a
    jitterfactor at or below zero, or a zero value, returns the value as it
    is; an argument that is not a number fails in the arithmetic. *)
Theorem jitter_argument_checks (val jitterfactor : pyval) (tape : list Q) :
  (num_of val = None ->
     exists msg, M2ools.get_jittered val jitterfactor tape = Raised (TypeError msg) tape)
  /\ (forall v, num_of val = Some v -> ~ v == 0 -> num_of jitterfactor = None ->
     exists msg, M2ools.get_jittered val jitterfactor tape = Raised (TypeError msg) tape)
  /\ (forall v jf, num_of val = Some v -> ~ v == 0 -> num_of jitterfactor = Some jf -> jf < 0 ->
     exists msg, M2ools.get_jittered val jitterfactor tape = Raised (ValueError msg) tape)
  /\ (forall v, num_of val = Some v -> v == 0 ->
     exists r, M2ools.get_jittered val jitterfactor tape = Drawn r tape /\ r == v)
  /\ (forall v jf, num_of val = Some v -> num_of jitterfactor = Some jf -> jf == 0 ->
     exists r, M2ools.get_jittered val jitterfactor tape = Drawn r tape /\ r == v)
  /\ (forall v jf, num_of val = Some v -> num_of jitterfactor = Some jf -> jf <= 0 \/ v == 0 ->
     exists r, M2jitter.get_jittered val jitterfactor tape = Drawn r tape /\ r == v)
  /\ (num_of val = None \/ num_of jitterfactor = None ->
     exists msg, M2jitter.get_jittered val jitterfactor tape = Raised (TypeError msg) tape).
Proof.
  repeat split.
  - intros Hval. unfold M2ools.get_jittered, M2ools.get_jitter. rewrite Hval. eauto.
  - intros v Hval Hv Hjf. unfold M2ools.get_jittered, M2ools.get_jitter.
    rewrite Hval, Hjf.
    destruct (Qeq_bool v 0) eqn:E; [apply Qeq_bool_iff in E; contradiction|]. eauto.
  - intros v jf Hval Hv Hjf Hneg. unfold M2ools.get_jittered, M2ools.get_jitter.
    rewrite Hval, Hjf.
    destruct (Qeq_bool v 0) eqn:E; [apply Qeq_bool_iff in E; contradiction|].
    apply Qlt_bool_true in Hneg. rewrite Hneg. eauto.
  - intros v Hval Hv. unfold M2ools.get_jittered, M2ools.get_jitter.
    rewrite Hval. apply Qeq_bool_iff in Hv. rewrite Hv.
    exists (v + 0). split; [reflexivity|ring].
  - intros v jf Hval Hjf Hz. unfold M2ools.get_jittered, M2ools.get_jitter.
    rewrite Hval, Hjf.
    destruct (Qeq_bool v 0); [exists (v + 0); split; [reflexivity|ring]|].
    assert (Hlt : Qlt_bool jf 0 = false) by (apply Qlt_bool_false; lra).
    apply Qeq_bool_iff in Hz. rewrite Hlt, Hz.
    exists (v + 0). split; [reflexivity|ring].
  - intros v jf Hval Hjf Hor. unfold M2jitter.get_jittered, M2jitter.get_jitter.
    rewrite Hjf, Hval.
    assert (Hc : Qle_bool jf 0 || Qeq_bool v 0 = true).
    { apply orb_true_iff. destruct Hor as [H|H].
      - left. apply Qle_bool_iff. exact H.
      - right. apply Qeq_bool_iff. exact H. }
    rewrite Hc. exists (v + 0). split; [reflexivity|ring].
  - intros Hor. unfold M2jitter.get_jittered, M2jitter.get_jitter.
    destruct (num_of jitterfactor) as [jf|] eqn:Hjf; [|eauto].
    destruct Hor as [Hval|]; [|discriminate]. rewrite Hval.
    rewrite orb_false_r. destruct (Qle_bool jf 0); eauto.
Qed.

Lemma jitter_argument_checks_witness :
  (exists msg, M2ools.get_jittered (PyStr "ten") (PyInt 1) [] = Raised (TypeError msg) [])
  /\ (exists msg, M2ools.get_jittered (PyInt 10) (PyInt (-1)) [] = Raised (ValueError msg) [])
  /\ (exists r, M2jitter.get_jittered (PyInt 10) (PyInt (-1)) [] = Drawn r []
                /\ r == inject_Z 10).
Proof.
  pose proof (jitter_argument_checks (PyStr "ten") (PyInt 1) []) as (H1 & _).
  pose proof (jitter_argument_checks (PyInt 10) (PyInt (-1)) [])
    as (_ & _ & H3 & _ & _ & H6 & _).
  split; [exact (H1 eq_refl)|]. split.
  - apply (H3 (inject_Z 10) (inject_Z (-1)) eq_refl); [intros H; discriminate H|reflexivity|reflexivity].
  - apply (H6 (inject_Z 10) (inject_Z (-1)) eq_refl eq_refl). left. discriminate.
Defined.

(** C9 as stated fails: a negative jitterfactor is not refused when the
    value is zero ([m2ools.py]), nor ever by [m2jitter.py]. *)
Lemma jitter_negative_factor_not_refused :
  M2ools.get_jittered (PyInt 0) (PyInt (-1)) [] = Drawn (inject_Z 0 + 0) []
  /\ M2jitter.get_jittered (PyInt 10) (PyInt (-1)) [] = Drawn (inject_Z 10 + 0) []
  /\ ~ (exists e tape', M2ools.get_jittered (PyInt 0) (PyInt (-1)) [] = Raised e tape').
Proof.
  repeat split. intros (e & t & H). discriminate H.
Qed.



End Jitter.

(** ** Retry *)

Section Retry.

Import M2retry.
Local Open Scope Q_scope.

Context {S : Type} (fmt : pyformat) (func : operation S pyval)
  (args : list pyval) (kwargs : list (string * pyval)).

Local Abbreviation called := (after_call func args kwargs).

Lemma m2retry_well_formed (v : validator_arg) (mt d jf bo be br : pyval) (p : policy) :
  m2retry v mt d jf bo be br = Ok p -> well_formed p.
Proof.
  unfold m2retry. destruct v as [f|]; [|discriminate].
  unfold check_maxtries, check_delay, check_jitterfactor, check_bool, check_boexpbase.
  destruct (int_of mt) as [n|]; [|discriminate].
  destruct (n <? 1)%Z eqn:Hn; [discriminate|].
  destruct (num_of d) as [dq|]; [|discriminate].
  destruct (Qlt_bool dq 0) eqn:Hd; [discriminate|].
  destruct (num_of jf) as [jq|]; [|discriminate].
  destruct (Qlt_bool jq 0 || Qlt_bool 1 jq) eqn:Hj; [discriminate|].
  destruct (bool_of bo) as [bb|]; [|discriminate].
  destruct (num_of be) as [bq|]; [|discriminate].
  destruct (Qlt_bool bq 1) eqn:Hb; [discriminate|].
  destruct (bool_of br) as [rb|]; [|discriminate].
  cbn. intros H. injection H as <-. unfold well_formed. cbn.
  apply Z.ltb_ge in Hn. apply Qlt_bool_false in Hd, Hb.
  apply orb_false_iff in Hj as [Hj0 Hj1]. apply Qlt_bool_false in Hj0, Hj1.
  split; [exact Hn|]. split; [exact Hd|].
  destruct (Qeq_bool dq 0) eqn:Ed.
  - cbn. repeat split; intros; try reflexivity; lra.
  - apply Qeq_bool_neq in Ed.
    destruct bb; cbn.
    + split; [split; assumption|]. split; [exact Hb|].
      split; [intros; contradiction|]. split; [discriminate|].
      intros H1. apply Qeq_bool_iff in H1. rewrite H1. reflexivity.
    + split; [split; assumption|].
      repeat split; intros; try reflexivity; try contradiction; lra.
Qed.

(** One round of the loop, spelled out. *)
Lemma attempts_step (p : policy) (n : nat) (fc : Z) (w : world S) :
  attempts fmt p func args kwargs (Datatypes.S n) fc w =
  match fst (op_call func args kwargs (op_state w)) with
  | Err e => Raise e (called w)
  | Ok v =>
      match validator p v with
      | Err e => Raise e (called w)
      | Ok true => Return v (called w)
      | Ok false =>
          if negb (Qeq_bool (delay p) 0) && negb (Nat.eqb n 0) then
            match (time_to_wait ← get_waiting_time p (boexpbase p) (fc + 1)%Z (delay p);
                   sleep time_to_wait) (called w) with
            | Return _ w' => attempts fmt p func args kwargs n (fc + 1)%Z w'
            | Raise e w' => Raise e w'
            | Stuck => Stuck
            end
          else attempts fmt p func args kwargs n (fc + 1)%Z (called w)
      end
  end.
Proof.
  cbn [attempts]. unfold mbind, comp_bind, invoke, after_call.
  destruct (op_call func args kwargs (op_state w)) as [[v|e] st]; cbn; [|reflexivity].
  destruct (validator p v) as [[|]|e]; cbn; try reflexivity.
  destruct (negb (Qeq_bool (delay p) 0) && negb (Nat.eqb n 0)); reflexivity.
Qed.










Lemma enough_draws_zero (p : policy) (w : world S) : enough_draws p 0 w.
Proof. right. split; [intros; lia|right; lia]. Qed.




(** With no delay the loop never waits: nothing is slept and no draw is
    taken, however it ends; and it does end. *)
Lemma attempts_without_delay (p : policy) :
  delay p == 0 ->
  forall (n : nat) (fc : Z) (w : world S),
    match attempts fmt p func args kwargs n fc w with
    | Return _ w' | Raise _ w' =>
        slept w' = slept w /\ normal_tape w' = normal_tape w
        /\ choice_tape w' = choice_tape w
    | Stuck => False
    end.
Proof.
  intros Hd. apply Qeq_bool_iff in Hd.
  induction n as [|n IH]; intros fc w.
  - cbn. auto.
  - rewrite attempts_step, Hd. cbn [negb andb].
    destruct (fst (op_call func args kwargs (op_state w))) as [v|e]; [|cbn; auto].
    destruct (validator p v) as [[|]|e]; [cbn; auto| |cbn; auto].
    exact (IH (fc + 1)%Z (called w)).
Qed.









(** C7. In the closure that [m2retry] builds, a zero delay comes with a
    zero jitterfactor and no backoff; no backoff, passed in or forced,
    comes with a base of one; and a base of one, passed in or forced, comes
    with a fixed exponent: whatever was passed for the fields that are
    forced.  With a zero delay a wrapped call sleeps not once and takes no
    random draw, however it ends, and it always ends. *)
Theorem retry_policy_normalised (va : validator_arg) (mt d jf bo be br : pyval)
    (p : policy) :
  m2retry va mt d jf bo be br = Ok p ->
  num_of d = Some (delay p)
  /\ (delay p == 0 -> jitterfactor p == 0 /\ backoff p = false)
  /\ (bool_of bo = Some false \/ backoff p = false -> boexpbase p == 1)
  /\ ((exists b, num_of be = Some b /\ b == 1) \/ boexpbase p == 1 -> borandom p = false)
  /\ (delay p == 0 ->
      forall w : world S,
        match wrapper fmt p func args kwargs w with
        | Return _ w' | Raise _ w' =>
            slept w' = slept w /\ normal_tape w' = normal_tape w
            /\ choice_tape w' = choice_tape w
        | Stuck => False
        end).
Proof.
  intros Hp. pose proof (m2retry_well_formed _ _ _ _ _ _ _ _ Hp) as WF.
  destruct WF as (_ & _ & _ & _ & H1 & H2 & H3).
  assert (Hsupplied : num_of d = Some (delay p)
                      /\ (bool_of bo = Some false -> backoff p = false)
                      /\ (forall b, num_of be = Some b -> b == 1 -> boexpbase p == 1)).
  { revert Hp. unfold m2retry. destruct va; [|discriminate].
    unfold check_maxtries, check_delay, check_jitterfactor, check_bool, check_boexpbase.
    destruct (int_of mt) as [n|]; [|discriminate].
    destruct (n <? 1)%Z; [discriminate|].
    destruct (num_of d) as [dq|]; [|discriminate].
    destruct (Qlt_bool dq 0); [discriminate|].
    destruct (num_of jf) as [jq|]; [|discriminate].
    destruct (Qlt_bool jq 0 || Qlt_bool 1 jq); [discriminate|].
    destruct (bool_of bo) as [bb|]; [|discriminate].
    destruct (num_of be) as [bq|]; [|discriminate].
    destruct (Qlt_bool bq 1); [discriminate|].
    destruct (bool_of br) as [rb|]; [|discriminate].
    cbn. intros H. injection H as <-. cbn.
    split; [reflexivity|]. split.
    - intros [= ->]. destruct (Qeq_bool dq 0); reflexivity.
    - intros b [= <-] Hb. destruct (Qeq_bool dq 0); cbn; [reflexivity|].
      destruct bb; cbn; [exact Hb|reflexivity]. }
  destruct Hsupplied as (Hd & Hbo & Hbe).
  split; [exact Hd|]. split; [exact H1|].
  split; [intros [H|H]; [apply H2, Hbo, H|apply H2, H]|].
  split; [intros [(b & Hb & Hb1)|H]; [apply H3, (Hbe b Hb Hb1)|apply H3, H]|].
  intros Hz w. unfold wrapper. apply attempts_without_delay. exact Hz.
Qed.

End Retry.




(** [delay=0] with [jitterfactor=1, backoff=True, boexpbase=2,
    borandom=True] passed in: all four are switched off, and five failed
    tries sleep not once. *)
Lemma retry_policy_normalised_witness :
  M2retry.m2retry (M2retry.Callable only_five) (PyInt 5) (PyInt 0) (PyInt 1) (PyBool true)
    (PyInt 2) (PyBool true) = Ok (no_delay_policy 5)
  /\ ((M2retry.jitterfactor (no_delay_policy 5) == 0)%Q
      /\ M2retry.backoff (no_delay_policy 5) = false)
  /\ match M2retry.wrapper plain_format (no_delay_policy 5) failing_third [] []
           (retry_start [1%Q] [1%nat]) with
     | Return _ w' | Raise _ w' =>
         M2retry.slept w' = [] /\ M2retry.normal_tape w' = [1%Q]
         /\ M2retry.choice_tape w' = [1%nat]
     | Stuck => False
     end.
Proof.
  pose proof (retry_policy_normalised plain_format failing_third [] []
                (M2retry.Callable only_five) (PyInt 5) (PyInt 0) (PyInt 1) (PyBool true)
                (PyInt 2) (PyBool true) (no_delay_policy 5) eq_refl)
    as (_ & H1 & _ & _ & H4).
  split; [reflexivity|]. split.
  - apply H1. reflexivity.
  - apply (H4 ltac:(reflexivity) (retry_start [1%Q] [1%nat])).
Defined.

(** ** Cache *)

Section Cache.

Import PyDatetime M2cache.

Context {S : Type} (fmt : pyformat) (sha1 : string -> string) (cfg : config)
  (func : operation S result).

Lemma to_cache_spec (now : datetime) (r : result) (fp : string) (w : world S) :
  to_cache now r (cachedir cfg) (op_name func) fp w
  = Return (now, stored_name (cachedir cfg) (op_name func) fp now r)
      {| op_state := op_state w; calls := calls w; cache_inventory := cache_inventory w;
         files := <[stored_name (cachedir cfg) (op_name func) fp now r := stored_content r]>
                    (files w) |}.
Proof. destruct r; reflexivity. Qed.

(** Removing files that are all there and all different removes exactly
    them. *)
Lemma remove_all_spec (stale : list string) :
  forall w : world S,
    NoDup stale ->
    (forall f, f ∈ stale -> is_Some (files w !! f)) ->
    exists fs,
      remove_all stale w
      = Return tt {| op_state := op_state w; calls := calls w;
                     cache_inventory := cache_inventory w; files := fs |}
      /\ (forall f, f ∈ stale -> fs !! f = None)
      /\ (forall f, f ∉ stale -> fs !! f = files w !! f).
Proof.
  induction stale as [|file rest IH]; intros w Hnd Hall.
  - exists (files w). split; [destruct w; reflexivity|].
    split; [intros f Hf; inversion Hf|reflexivity].
  - apply NoDup_cons in Hnd as [Hnotin Hnd].
    destruct (Hall file) as [content Hfile]; [left|].
    set (w1 := {| op_state := op_state w; calls := calls w;
                  cache_inventory := cache_inventory w;
                  files := delete file (files w) |}).
    destruct (IH w1 Hnd) as (fs & E & Hgone & Hkept).
    { intros f Hf. cbn. rewrite lookup_delete_ne; [apply Hall; right; exact Hf|].
      intros ->. contradiction. }
    exists fs. split; [|split].
    + cbn [remove_all]. unfold mbind, comp_bind, get_files, set_files.
      rewrite Hfile. exact E.
    + intros f Hf. apply elem_of_cons in Hf as [->|Hf]; [|apply Hgone; exact Hf].
      rewrite Hkept by exact Hnotin. cbn. apply lookup_delete_eq.
    + intros f Hf. apply not_elem_of_cons in Hf as [Hne Hf].
      rewrite Hkept by exact Hf. cbn. apply lookup_delete_ne. congruence.
Qed.


(** A miss leaves the world as it was and goes on to the call. *)
Lemma lookup_miss_spec (clk : readings) (fp : string) (w : world S) :
  lookup_misses cfg clk fp w ->
  match cache_inventory w !! fp with
  | Some entries =>
      most_recent_cached_entry ← lift_res (max_by_dt entries);
      cutoff ← lift_res (get_dt (at_lookup clk) (reachback cfg));
      mret (if geb (dt most_recent_cached_entry) cutoff
            then Some most_recent_cached_entry else None)
  | None => mret None
  end w = Return None w.
Proof.
  intros [H|(entries & e & cutoff & H & Hmax & Hcut & Hge)]; rewrite H; [reflexivity|].
  unfold mbind, comp_bind, lift_res. rewrite Hmax, Hcut. cbn. rewrite Hge. reflexivity.
Qed.

(** A miss under hoard: the result is written, nothing is removed, and
    the entry goes where [get(...).append] puts it. *)
Lemma wrapper_store_hoard (clk : readings) (args : list pyval)
    (kwargs : list (string * pyval)) (w : world S) (r : result) (st' : S) :
  let fp := get_func_sig_hashed fmt sha1 (op_name func) args kwargs in
  let new_path := stored_name (cachedir cfg) (op_name func) fp (at_store clk) r in
  let new_entry := {| dt := at_store clk; cachefilename := new_path |} in
  lookup_misses cfg clk fp w ->
  op_call func args kwargs (op_state w) = (Ok r, st') ->
  r <> RNone ->
  hoard cfg = true ->
  wrapper fmt sha1 cfg func clk args kwargs w
  = Return r {| op_state := st'; calls := Datatypes.S (calls w);
                cache_inventory := get_append fp new_entry (cache_inventory w);
                files := <[new_path := stored_content r]> (files w) |}.
Proof.
  intros fp new_path new_entry Hmiss Hcall Hr Hh.
  unfold wrapper. fold fp.
  unfold mbind at 1. unfold comp_bind at 1. unfold get_inventory at 1.
  unfold mbind at 1. unfold comp_bind at 1.
  rewrite (lookup_miss_spec clk fp w Hmiss).
  unfold mbind at 1. unfold comp_bind at 1. unfold invoke at 1. rewrite Hcall.
  destruct r; [contradiction| |];
    unfold mbind at 1; unfold comp_bind at 1; rewrite to_cache_spec, Hh; reflexivity.
Qed.

(** A miss under single-version retention: the result is written, then
    every file the inventory held for the fingerprint is removed, and the
    inventory holds the new entry alone. *)
Lemma wrapper_store_single (clk : readings) (args : list pyval)
    (kwargs : list (string * pyval)) (w : world S) (r : result) (st' : S) :
  let fp := get_func_sig_hashed fmt sha1 (op_name func) args kwargs in
  let new_path := stored_name (cachedir cfg) (op_name func) fp (at_store clk) r in
  let new_entry := {| dt := at_store clk; cachefilename := new_path |} in
  lookup_misses cfg clk fp w ->
  op_call func args kwargs (op_state w) = (Ok r, st') ->
  r <> RNone ->
  hoard cfg = false ->
  NoDup (recorded_files fp w) ->
  (forall f, f ∈ recorded_files fp w -> f = new_path \/ is_Some (files w !! f)) ->
  exists fs,
    wrapper fmt sha1 cfg func clk args kwargs w
    = Return r {| op_state := st'; calls := Datatypes.S (calls w);
                  cache_inventory := <[fp := [new_entry]]> (cache_inventory w);
                  files := fs |}
    /\ (forall f, f ∈ recorded_files fp w -> fs !! f = None)
    /\ (forall f, f ∉ recorded_files fp w ->
          fs !! f = <[new_path := stored_content r]> (files w) !! f).
Proof.
  intros fp new_path new_entry Hmiss Hcall Hr Hh Hnd Hall.
  set (w1 := {| op_state := st'; calls := Datatypes.S (calls w);
                cache_inventory := cache_inventory w;
                files := <[new_path := stored_content r]> (files w) |}).
  destruct (remove_all_spec (recorded_files fp w) w1 Hnd) as (fs & E & Hgone & Hkept).
  { intros f Hf. cbn. destruct (Hall f Hf) as [->|Hsome].
    - rewrite lookup_insert_eq. eauto.
    - destruct (decide (new_path = f)) as [->|Hne].
      + rewrite lookup_insert_eq. eauto.
      + rewrite lookup_insert_ne by exact Hne. exact Hsome. }
  exists fs. split; [|split; [exact Hgone|exact Hkept]].
  unfold recorded_files in E. subst w1 new_entry new_path fp.
  unfold wrapper.
  unfold mbind at 1. unfold comp_bind at 1. unfold get_inventory at 1.
  unfold mbind at 1. unfold comp_bind at 1.
  rewrite (lookup_miss_spec clk _ w Hmiss).
  unfold mbind at 1. unfold comp_bind at 1. unfold invoke at 1. rewrite Hcall.
  destruct r; [contradiction| |];
    unfold mbind at 1; unfold comp_bind at 1; rewrite to_cache_spec, Hh;
    cbn [negb]; unfold mbind, comp_bind, get_inventory;
    cbn [op_state calls files cache_inventory] in E |- *; rewrite E;
    unfold set_inventory, get_append, mret, comp_ret;
    cbn [op_state calls files cache_inventory];
    rewrite lookup_insert_eq, insert_insert_eq; reflexivity.
Qed.

Lemma extension_app (s ext : string) :
  String.length ext = 4%nat -> extension (s +:+ ext) = ext.
Proof.
  intros Hlen. unfold extension.
  assert (Hl : forall a b, String.length (a +:+ b) = (String.length a + String.length b)%nat).
  { induction a as [|c a IH]; intros b; simpl; [reflexivity|]. f_equal. apply IH. }
  rewrite Hl, Hlen. replace (String.length s + 4 - 4)%nat with (String.length s) by lia.
  induction s as [|c s IH]; simpl.
  - destruct ext as [|c1 [|c2 [|c3 [|c4 [|c5 ext]]]]]; try discriminate. reflexivity.
  - exact IH.
Qed.

Lemma extension_stored_name (dir name fp : string) (now : datetime) (r : result) :
  extension (stored_name dir name fp now r)
  = match r with
    | RFrame _ => ".csv"
    | _ => ".pkl"
    end.
Proof. unfold stored_name. destruct r; apply extension_app; reflexivity. Qed.

(** Under hoard, a first result for a fingerprint is written to disk but
    the inventory is left as it was. *)
Lemma hoard_fresh_entry_lost (clk : readings) (args : list pyval)
    (kwargs : list (string * pyval)) (w : world S) (r : result) (st' : S) :
  let fp := get_func_sig_hashed fmt sha1 (op_name func) args kwargs in
  hoard cfg = true ->
  cache_inventory w !! fp = None ->
  op_call func args kwargs (op_state w) = (Ok r, st') ->
  r <> RNone ->
  wrapper fmt sha1 cfg func clk args kwargs w
  = Return r {| op_state := st'; calls := Datatypes.S (calls w);
                cache_inventory := cache_inventory w;
                files := <[stored_name (cachedir cfg) (op_name func) fp (at_store clk) r
                           := stored_content r]> (files w) |}.
Proof.
  intros fp Hh Hnone Hcall Hr.
  rewrite (wrapper_store_hoard clk args kwargs w r st' (or_introl Hnone) Hcall Hr Hh).
  unfold get_append. fold fp. rewrite Hnone. reflexivity.
Qed.


(** C3, as the code has it.  A call that misses and gets a result writes
    it to a file named after the store time to the second.  When that name
    is none of the names the inventory holds for the fingerprint (all of
    them different, all on disk): under single-version retention every one
    of those files is removed and the inventory holds the new entry alone,
    so of the fingerprint's files the new one is the only one left; under
    hoard nothing is removed, so the earlier files and the new one all
    remain.  Files of other fingerprints are not touched in either mode. *)
Theorem cache_write_retention (clk : readings) (args : list pyval)
    (kwargs : list (string * pyval)) (w : world S) (r : result) (st' : S) :
  let fp := get_func_sig_hashed fmt sha1 (op_name func) args kwargs in
  let new_path := stored_name (cachedir cfg) (op_name func) fp (at_store clk) r in
  let new_entry := {| dt := at_store clk; cachefilename := new_path |} in
  lookup_misses cfg clk fp w ->
  op_call func args kwargs (op_state w) = (Ok r, st') ->
  r <> RNone ->
  NoDup (recorded_files fp w) ->
  (forall f, f ∈ recorded_files fp w -> is_Some (files w !! f)) ->
  new_path ∉ recorded_files fp w ->
  exists w',
    wrapper fmt sha1 cfg func clk args kwargs w = Return r w'
    /\ calls w' = Datatypes.S (calls w)
    /\ files w' !! new_path = Some (stored_content r)
    /\ (forall f, f ∉ recorded_files fp w -> f <> new_path -> files w' !! f = files w !! f)
    /\ (hoard cfg = false ->
        cache_inventory w' !! fp = Some [new_entry]
        /\ recorded_files fp w' = [new_path]
        /\ forall f, f ∈ recorded_files fp w -> files w' !! f = None)
    /\ (hoard cfg = true ->
        forall f, f ∈ recorded_files fp w -> files w' !! f = files w !! f).
Proof.
  intros fp new_path new_entry Hmiss Hcall Hr Hnd Hall Hnew.
  destruct (hoard cfg) eqn:Hh.
  - eexists. split; [exact (wrapper_store_hoard clk args kwargs w r st' Hmiss Hcall Hr Hh)|].
    fold fp new_path new_entry. cbn [calls files cache_inventory].
    split; [reflexivity|]. split; [apply lookup_insert_eq|].
    split; [intros f _ Hne; apply lookup_insert_ne; congruence|].
    split; [discriminate|]. intros _ f Hf. apply lookup_insert_ne. congruence.
  - destruct (wrapper_store_single clk args kwargs w r st' Hmiss Hcall Hr Hh Hnd)
      as (fs & E & Hgone & Hkept); [intros f Hf; right; apply Hall; exact Hf|].
    fold fp new_path new_entry in E, Hkept.
    eexists. split; [exact E|]. cbn [calls files cache_inventory].
    split; [reflexivity|].
    split; [rewrite (Hkept new_path Hnew); apply lookup_insert_eq|].
    split; [intros f Hf Hne; rewrite (Hkept f Hf); apply lookup_insert_ne; congruence|].
    split; [|discriminate]. intros _.
    split; [apply lookup_insert_eq|]. split; [|exact Hgone].
    unfold recorded_files. cbn [cache_inventory]. rewrite lookup_insert_eq. reflexivity.
Qed.

End Cache.

(** A second write seven seconds after the first, the cutoff being in the
    future: the first file goes, the second stays. *)
Lemma cache_write_retention_witness :
  exists w',
    M2cache.wrapper plain_format plain_digest (cache_config "9999" false) fetch
      (at_time (noon 7 9)) [PyInt 1] [] after_first_write
    = Return (M2cache.RObject "result 2") w'
    /\ M2cache.calls w' = 2%nat
    /\ M2cache.files w' !! "cache/fetch_fetch(1)_2021-03-31_120007.pkl" = Some "result 2"
    /\ M2cache.files w' !! "cache/fetch_fetch(1)_2021-03-31_120000.pkl" = None
    /\ recorded_files "fetch(1)" w' = ["cache/fetch_fetch(1)_2021-03-31_120007.pkl"].
Proof.
  destruct (cache_write_retention plain_format plain_digest (cache_config "9999" false) fetch
              (at_time (noon 7 9)) [PyInt 1] [] after_first_write
              (M2cache.RObject "result 2") 2%nat)
    as (w' & E & Hc & Hnew & _ & Hsingle & _).
  - right. eexists _, _, _. repeat split; reflexivity.
  - reflexivity.
  - discriminate.
  - repeat constructor. intros H. inversion H.
  - intros f Hf. apply list_elem_of_singleton in Hf as ->. eexists. reflexivity.
  - intros H. apply list_elem_of_singleton in H. discriminate H.
  - destruct (Hsingle eq_refl) as (_ & Hrec & Hgone).
    exists w'. split; [exact E|]. split; [exact Hc|]. split; [exact Hnew|].
    split; [|exact Hrec]. apply Hgone. apply list_elem_of_singleton. reflexivity.
Defined.

(** C3 as stated fails when the second write falls in the second of the
    first (here with a cutoff in the future, so that every call misses):
    both writes go to one file name.  Under single-version retention the
    file just written is removed as stale and no file is left; under hoard
    one file is left, not two. *)
Lemma cache_same_second_writes_share_a_file :
  (exists w',
      twice plain_format plain_digest (cache_config "9999" false) fetch
        (at_time (noon 0 5)) (at_time (noon 0 9)) [PyInt 1] [] cache_start
      = Return (M2cache.RObject "result 1", M2cache.RObject "result 2") w'
      /\ M2cache.calls w' = 2%nat
      /\ M2cache.files w' = ∅)
  /\ (exists w',
        twice plain_format plain_digest (cache_config "9999" true) fetch
          (at_time (noon 0 5)) (at_time (noon 0 9)) [PyInt 1] [] cache_start
        = Return (M2cache.RObject "result 1", M2cache.RObject "result 2") w'
        /\ M2cache.calls w' = 2%nat
        /\ M2cache.files w'
           = {[ "cache/fetch_fetch(1)_2021-03-31_120000.pkl" := "result 2" ]}).
Proof.
  split; eexists; (split; [vm_compute; reflexivity|]); split; reflexivity.
Qed.

(** C1, where the code departs from it: [m2cache(hoard=True)] over an
    empty cache directory, called twice with the same arguments, the
    cutoff (the default, the first day of year 1) long before the first
    call's store time.  The first call stores its result, yet the second
    call finds no entry for the fingerprint and runs the operation again:
    two invocations, not one.  With [hoard=False] the same two calls run
    it once. *)
Theorem cache_hoard_round_trip_invokes_twice :
  M2cache.get_dt (noon 7 9) "0001-01-01"
  = Ok {| PyDatetime.year := 1; PyDatetime.month := 1; PyDatetime.day := 1;
          PyDatetime.hour := 0; PyDatetime.minute := 0; PyDatetime.second := 0;
          PyDatetime.microsecond := 0 |}
  /\ PyDatetime.geb (noon 0 5)
       {| PyDatetime.year := 1; PyDatetime.month := 1; PyDatetime.day := 1;
          PyDatetime.hour := 0; PyDatetime.minute := 0; PyDatetime.second := 0;
          PyDatetime.microsecond := 0 |} = true
  /\ (exists w',
        twice plain_format plain_digest (cache_config "0001-01-01" true) fetch
          (at_time (noon 0 5)) (at_time (noon 7 9)) [PyInt 1] [] cache_start
        = Return (M2cache.RObject "result 1", M2cache.RObject "result 2") w'
        /\ M2cache.calls w' = 2%nat
        /\ M2cache.files w' !! "cache/fetch_fetch(1)_2021-03-31_120000.pkl"
           = Some "result 1")
  /\ (exists w',
        twice plain_format plain_digest (cache_config "0001-01-01" false) fetch
          (at_time (noon 0 5)) (at_time (noon 7 9)) [PyInt 1] [] cache_start
        = Return (M2cache.RObject "result 1", M2cache.RObject "result 1") w'
        /\ M2cache.calls w' = 1%nat).
Proof.
  split; [vm_compute; reflexivity|]. split; [reflexivity|]. split.
  - eexists. split; [vm_compute; reflexivity|]. split; reflexivity.
  - eexists. split; [vm_compute; reflexivity|]. reflexivity.
Qed.

(** C2, where the code departs from it: [m2cache(hoard=True)] over an
    empty cache directory.  The call runs the operation, gets a result and
    writes it to its timestamped file, but no entry for the fingerprint
    reaches the inventory, which stays empty. *)
Theorem cache_hoard_first_entry_not_recorded :
  M2cache.get_cache_inventory [] (op_name fetch) = Ok (M2cache.cache_inventory cache_start)
  /\ exists w',
    M2cache.wrapper plain_format plain_digest (cache_config "0001-01-01" true) fetch
      (at_time (noon 0 5)) [PyInt 1] [] cache_start
    = Return (M2cache.RObject "result 1") w'
    /\ M2cache.calls w' = 1%nat
    /\ M2cache.files w' !! "cache/fetch_fetch(1)_2021-03-31_120000.pkl" = Some "result 1"
    /\ M2cache.get_func_sig_hashed plain_format plain_digest (op_name fetch) [PyInt 1] []
       = "fetch(1)"
    /\ M2cache.cache_inventory w' !! "fetch(1)" = None
    /\ M2cache.cache_inventory w' = ∅.
Proof.
  split; [reflexivity|].
  eexists. split; [vm_compute; reflexivity|]. repeat split; reflexivity.
Qed.

(** ** Reachback *)

Section Reachback.

Import PyDatetime PyRe M2cache.

Lemma append_length (a b : string) :
  String.length (a +:+ b) = (String.length a + String.length b)%nat.
Proof. induction a as [|c a IH]; simpl; [reflexivity|]. f_equal. exact IH. Qed.

Lemma consumed_append (y t : string) : consumed (y +:+ t) t = y.
Proof.
  unfold consumed. rewrite append_length.
  replace (String.length y + String.length t - String.length t)%nat
    with (String.length y) by lia.
  induction y as [|c y IH]; simpl.
  - destruct t; reflexivity.
  - f_equal. exact IH.
Qed.

Lemma run_digit_no_head (t : string) (caps : captures) :
  no_digit_head t -> run Digit t caps = [].
Proof. destruct t as [|c t]; simpl; [reflexivity|]. intros ->. reflexivity. Qed.

(** A greedy run of digits takes all the digits there are, when they fit. *)
Lemma rep_digits_greedy (y : string) :
  forall (hi : nat) (t : string) (caps : captures),
    all_digits y = true -> (String.length y <= hi)%nat -> no_digit_head t ->
    head (rep (run Digit) 0 hi (y +:+ t) caps) = Some (caps, t).
Proof.
  induction y as [|c y IH]; intros hi t caps Hd Hlen Ht.
  - change (EmptyString +:+ t) with t. destruct hi as [|hi]; [reflexivity|].
    cbn [rep]. rewrite (run_digit_no_head t caps Ht). reflexivity.
  - simpl in Hd. apply andb_true_iff in Hd as [Hc Hd].
    destruct hi as [|hi]; [simpl in Hlen; lia|].
    cbn [rep]. simpl (run Digit _ _). rewrite Hc. cbn [flat_map fst snd pred].
    rewrite app_nil_r.
    specialize (IH hi t caps Hd ltac:(simpl in Hlen; lia) Ht).
    destruct (rep (run Digit) 0 hi (y +:+ t) caps); [discriminate|]. exact IH.
Qed.

Lemma rep_digits_at_least_one (y : string) (hi : nat) (t : string) (caps : captures) :
  digits_upto hi y -> no_digit_head t ->
  head (rep (run Digit) 1 hi (y +:+ t) caps) = Some (caps, t).
Proof.
  intros [Hd [Hlo Hhi]] Ht. destruct y as [|c y]; [simpl in Hlo; lia|].
  simpl in Hd. apply andb_true_iff in Hd as [Hc Hd].
  destruct hi as [|hi]; [simpl in Hhi; lia|].
  cbn [rep]. simpl (run Digit _ _). rewrite Hc. cbn [flat_map fst snd pred Nat.eqb].
  rewrite !app_nil_r.
  exact (rep_digits_greedy y hi t caps Hd ltac:(simpl in Hhi; lia) Ht).
Qed.

Lemma head_flat_map {A B : Type} (f : A -> list B) (l : list A) (a : A) (b : B) :
  head l = Some a -> head (f a) = Some b -> head (flat_map f l) = Some b.
Proof.
  destruct l as [|a' l]; [discriminate|]. intros [= ->] Hb. simpl.
  destruct (f a); [discriminate|]. exact Hb.
Qed.

Lemma run_seq_head (r1 r2 : regex) (s : string) (caps : captures) (st1 st2 : state) :
  head (run r1 s caps) = Some st1 ->
  head (run r2 (snd st1) (fst st1)) = Some st2 ->
  head (run (Seq r1 r2) s caps) = Some st2.
Proof. intros H1 H2. cbn [run]. exact (head_flat_map _ _ _ _ H1 H2). Qed.

Lemma run_group_head (i : nat) (r : regex) (s : string) (caps : captures) (st : state) :
  head (run r s caps) = Some st ->
  head (run (Group i r) s caps) = Some (<[i := consumed s (snd st)]> (fst st), snd st).
Proof.
  cbn [run]. destruct (run r s caps) as [|st' l]; [discriminate|].
  intros [= ->]. reflexivity.
Qed.

Lemma run_opt_head (r : regex) (s : string) (caps : captures) (st : state) :
  head (run r s caps) = Some st -> head (run (Opt r) s caps) = Some st.
Proof.
  unfold Opt. cbn [run]. cbn [rep].
  destruct (run r s caps) as [|st' l]; [discriminate|].
  intros [= ->]. destruct st as [c s']. reflexivity.
Qed.

(** A field that is there is taken, with its digits as the group. *)
Lemma field_present (i : nat) (sf : ascii * string) (t : string) (caps : captures) :
  date_field sf -> no_digit_head t ->
  head (run (field_re i) (String (fst sf) (snd sf +:+ t)) caps)
  = Some (<[i := snd sf]> caps, t).
Proof.
  intros [Hsep Hf] Ht. unfold field_re. apply run_opt_head.
  eapply run_seq_head.
  - simpl. rewrite Hsep. reflexivity.
  - cbn [fst snd].
    pose proof (run_group_head i (Rep Digit 1 (Some 2)) (snd sf +:+ t) caps (caps, t)) as Hg.
    cbn [fst snd] in Hg. rewrite consumed_append in Hg. apply Hg.
    cbn [run]. exact (rep_digits_at_least_one (snd sf) 2 t caps Hf Ht).
Qed.

Lemma no_digit_head_fields (fs : list (ascii * string)) :
  Forall date_field fs -> no_digit_head (render_fields fs).
Proof. intros H. destruct H as [|sf fs [Hsep _] _]; [exact I|exact Hsep]. Qed.

Lemma fill_groups_nil (groups : list nat) (caps : captures) :
  fill_groups groups [] caps = caps.
Proof. destruct groups; reflexivity. Qed.

(** The fields after the year, as many as there are, and then the end. *)
Lemma fields_re_head (groups : list nat) :
  forall (fs : list (ascii * string)) (caps : captures),
    (length fs <= length groups)%nat -> Forall date_field fs ->
    head (run (fields_re groups) (render_fields fs) caps)
    = Some (fill_groups groups fs caps, "").
Proof.
  induction groups as [|i groups IH]; intros fs caps Hlen Hfs.
  - destruct fs; [reflexivity|simpl in Hlen; lia].
  - cbn [fields_re foldr]. fold (fields_re groups).
    destruct fs as [|sf fs].
    + eapply run_seq_head; [reflexivity|]. cbn [fst snd fill_groups].
      pose proof (IH [] caps ltac:(simpl; lia) Hfs) as H.
      rewrite fill_groups_nil in H. exact H.
    + apply Forall_cons_iff in Hfs as [Hsf Hfs]. cbn [render_fields].
      eapply run_seq_head.
      * exact (field_present i sf _ caps Hsf (no_digit_head_fields fs Hfs)).
      * cbn [fst snd fill_groups]. apply IH; [simpl in Hlen; lia|exact Hfs].
Qed.

(** Every string of the absolute grammar is matched, the year as group 1
    and the fields as the groups after it. *)
Lemma datetime_re_matches (y : string) (fs : list (ascii * string)) :
  is_partial_date y fs ->
  re_match datetime_re (partial_date y fs)
  = Some (fill_groups [2; 3; 4; 5; 6]%nat fs (<[1%nat := y]> ∅)).
Proof.
  intros (Hy & Hlen & Hfs). unfold re_match, partial_date.
  assert (H : head (run datetime_re (y +:+ render_fields fs) ∅)
              = Some (fill_groups [2; 3; 4; 5; 6]%nat fs (<[1%nat := y]> ∅), "")).
  { change datetime_re
      with (Seq (Group 1 (Rep Digit 1 (Some 4))) (fields_re [2; 3; 4; 5; 6]%nat)).
    eapply run_seq_head.
    - pose proof (run_group_head 1 (Rep Digit 1 (Some 4)) (y +:+ render_fields fs) ∅
                    (∅, render_fields fs)) as Hg.
      cbn [fst snd] in Hg. rewrite consumed_append in Hg. apply Hg.
      cbn [run]. exact (rep_digits_at_least_one y 4 _ ∅ Hy (no_digit_head_fields fs Hfs)).
    - cbn [fst snd]. apply fields_re_head; [exact Hlen|exact Hfs]. }
  destruct (run datetime_re (y +:+ render_fields fs) ∅) as [|st l]; [discriminate|].
  injection H as ->. reflexivity.
Qed.

Lemma group_or_insert_eq (caps : captures) (i : nat) (x : string) (dflt : Z) :
  x <> "" -> group_or (<[i := x]> caps) i dflt = int_of_digits x.
Proof.
  intros Hx. unfold group_or. rewrite lookup_insert_eq.
  destruct (String.eqb x "") eqn:E; [|reflexivity].
  apply String.eqb_eq in E. contradiction.
Qed.

Lemma group_or_insert_ne (caps : captures) (i j : nat) (x : string) (dflt : Z) :
  i <> j -> group_or (<[i := x]> caps) j dflt = group_or caps j dflt.
Proof. intros Hne. unfold group_or. rewrite lookup_insert_ne by exact Hne. reflexivity. Qed.

Lemma group_or_empty (j : nat) (dflt : Z) : group_or ∅ j dflt = dflt.
Proof. reflexivity. Qed.

Lemma digits_upto_nonempty (n : nat) (s : string) : digits_upto n s -> s <> "".
Proof. intros [_ [H _]] ->. simpl in H. lia. Qed.

(** On a string of the absolute grammar [get_dt] builds the date-time of
    its fields, an absent month or day counting as 1 and an absent hour,
    minute or second as 0. *)
Lemma get_dt_partial_date (now : datetime) (y : string) (fs : list (ascii * string)) :
  is_partial_date y fs ->
  get_dt now (partial_date y fs)
  = new (int_of_digits y) (field_value fs 0 1) (field_value fs 1 1)
      (field_value fs 2 0) (field_value fs 3 0) (field_value fs 4 0) 0.
Proof.
  intros Hp. unfold get_dt. rewrite (datetime_re_matches y fs Hp).
  destruct Hp as (Hy & Hlen & Hfs). apply digits_upto_nonempty in Hy.
  assert (Hne : Forall (fun sf => snd sf <> "") fs).
  { eapply Forall_impl; [exact Hfs|]. intros sf [_ H]. exact (digits_upto_nonempty _ _ H). }
  unfold field_value.
  destruct fs as [|f1 [|f2 [|f3 [|f4 [|f5 [|f6 fs]]]]]]; [..|simpl in Hlen; lia];
    repeat match goal with
           | H : Forall _ (_ :: _) |- _ => apply Forall_cons_iff in H as [? H]
           end;
    cbn [fill_groups lookup list_lookup];
    repeat first [ rewrite group_or_insert_eq by assumption
                 | rewrite group_or_insert_ne by lia
                 | rewrite group_or_empty ];
    reflexivity.
Qed.

(** The borrow loop brings the month into 1..12 and takes from the year
    what it adds to the month. *)
Lemma borrow_closed_form (fuel : nat) :
  forall m y : Z,
    (m <= 12)%Z -> (1 - m <= Z.of_nat fuel)%Z ->
    borrow fuel m y = ((m - 1) mod 12 + 1, y + (m - 1) / 12)%Z.
Proof.
  induction fuel as [|fuel IH]; intros m y Hm Hfuel; cbn [borrow];
    destruct (m <=? 0)%Z eqn:E.
  - apply Z.leb_le in E. lia.
  - apply Z.leb_gt in E.
    rewrite Z.mod_small, Z.div_small by lia. f_equal; lia.
  - apply Z.leb_le in E. rewrite IH by lia.
    replace (m + 12 - 1)%Z with (m - 1 + 1 * 12)%Z by lia.
    rewrite Z.mod_add, Z.div_add by lia. f_equal; lia.
  - apply Z.leb_gt in E.
    rewrite Z.mod_small, Z.div_small by lia. f_equal; lia.
Qed.

Lemma new_fields (y m d hh mm ss us : Z) (dt : datetime) :
  new y m d hh mm ss us = Ok dt ->
  dt = {| year := y; month := m; day := d; hour := hh; minute := mm; second := ss;
          microsecond := us |}
  /\ (1 <= y <= 9999)%Z /\ (1 <= m <= 12)%Z /\ (1 <= d <= days_in_month y m)%Z
  /\ (0 <= hh <= 23)%Z /\ (0 <= mm <= 59)%Z /\ (0 <= ss <= 59)%Z
  /\ (0 <= us <= 999999)%Z.
Proof.
  unfold new, MINYEAR, MAXYEAR.
  repeat match goal with
         | |- context [negb (?a && ?b)] => destruct a eqn:?; destruct b eqn:?; cbn [negb andb]
         end; try discriminate.
  intros [= <-]. repeat split; lia.
Qed.

Lemma new_valid (y m d hh mm ss us : Z) (dt : datetime) :
  new y m d hh mm ss us = Ok dt -> valid dt = true.
Proof.
  intros H. destruct (new_fields _ _ _ _ _ _ _ _ H) as [-> _].
  unfold valid. cbn [year month day hour minute second microsecond]. rewrite H. reflexivity.
Qed.

Lemma sub_month_range (now : datetime) (td : timedelta) (dt : datetime) :
  sub now td = Ok dt -> (1 <= month dt <= 12)%Z.
Proof.
  unfold sub, add, mbind, res_bind.
  destruct (neg td) as [ntd|]; [|discriminate].
  destruct (normalize _ _ _) as [delta|]; [|discriminate].
  destruct (_ && _); [|discriminate].
  destruct (ord2ymd (td_days delta)) as [[y m] d].
  intros H. destruct (new_fields _ _ _ _ _ _ _ _ H) as (-> & _ & Hm & _). exact Hm.
Qed.

Lemma int_acc_nonneg (s : string) : forall acc : Z, (0 <= acc)%Z -> (0 <= int_acc acc s)%Z.
Proof.
  induction s as [|c s IH]; intros acc Hacc; cbn [int_acc]; [exact Hacc|].
  apply IH. unfold digit_value. lia.
Qed.

Lemma plural_args_nonneg (units : list string) (matches : list (list string)) (key : string) :
  (0 <= get0 (plural_args units matches) key)%Z.
Proof.
  unfold plural_args, get0.
  assert (H : forall (d : gmap string Z),
             (forall k v, d !! k = Some v -> (0 <= v)%Z) ->
             forall k v,
               foldl (fun (d : gmap string Z) (m : list string) =>
                        match m with
                        | [v; k] =>
                            if bool_decide (k ∈ units)
                            then <[k +:+ "s" := int_of_digits v]> d else d
                        | _ => d
                        end) d matches !! k = Some v -> (0 <= v)%Z).
  { induction matches as [|m matches IH]; intros d Hd k v; cbn [foldl]; [apply Hd|].
    apply IH. intros k' v'.
    destruct m as [|a [|b [|c m]]]; try apply Hd.
    destruct (bool_decide (b ∈ units)); [|apply Hd].
    destruct (decide (b +:+ "s" = k')) as [<-|Hne].
    - rewrite lookup_insert_eq. intros [= <-]. apply int_acc_nonneg. lia.
    - rewrite lookup_insert_ne by exact Hne. apply Hd. }
  destruct (foldl _ ∅ matches !! key) as [v|] eqn:E; cbn; [|lia].
  apply (H ∅ ltac:(intros k0 v0 Hk; rewrite lookup_empty in Hk; discriminate) key v E).
Qed.

(** On a relative specification the loop of [get_dt] computes the cutoff
    the specification describes. *)
Lemma get_dt_relative (now : datetime) (s : string) :
  re_match datetime_re s = None ->
  findall customtimedelta_re [1; 2]%nat s <> [] ->
  get_dt now s = relative_cutoff now (findall customtimedelta_re [1; 2]%nat s).
Proof.
  intros Hno Hsome. unfold get_dt. rewrite Hno.
  destruct (findall customtimedelta_re [1; 2]%nat s) as [|m ms] eqn:E; [contradiction|].
  unfold relative_cutoff, mbind, res_bind.
  destruct (new_timedelta _ _ _ _ _) as [td|]; [|reflexivity].
  destruct (sub now td) as [dt|] eqn:Hsub; [|reflexivity].
  pose proof (sub_month_range now td dt Hsub) as Hm.
  pose proof (plural_args_nonneg ["year"; "month"] (m :: ms) "months") as Hmonths.
  rewrite borrow_closed_form by lia.
  f_equal.
  - set (a := get0 _ "years"). set (b := get0 _ "months") in *.
    replace (year dt * 12 + (month dt - 1) - (a * 12 + b))%Z
      with (month dt - b - 1 + (year dt - a) * 12)%Z by lia.
    rewrite Z.div_add by lia. lia.
  - set (a := get0 _ "years"). set (b := get0 _ "months") in *.
    replace (year dt * 12 + (month dt - 1) - (a * 12 + b))%Z
      with (month dt - b - 1 + (year dt - a) * 12)%Z by lia.
    rewrite Z.mod_add by lia. reflexivity.
Qed.

(** C10, as the code has it.  For every specification of the form
    [YYYY[-MM[-DD[-hh[-mm[-ss]]]]]] [get_dt] hands the fields to the
    [datetime] constructor, an absent month or day as 1 and an absent hour,
    minute or second as 0: it returns that date-time when the fields are in
    range and raises the constructor's [ValueError] when they are not.  For
    a specification that the absolute pattern does not match but that holds
    [<integer> <unit>] phrases it returns the clock reading less the fixed
    durations, then less the years and months with the month borrowing from
    the year, or raises when that date is out of range or does not exist.
    When neither pattern matches it raises [UnboundLocalError].  Whenever
    it returns, the result is a date-time the constructor accepts, with no
    microseconds, and one of the patterns matched. *)
Theorem reachback_parse (now : datetime) :
  (forall y fs,
      is_partial_date y fs ->
      get_dt now (partial_date y fs)
      = new (int_of_digits y) (field_value fs 0 1) (field_value fs 1 1)
          (field_value fs 2 0) (field_value fs 3 0) (field_value fs 4 0) 0)
  /\ (forall s,
        re_match datetime_re s = None ->
        findall customtimedelta_re [1; 2]%nat s <> [] ->
        get_dt now s = relative_cutoff now (findall customtimedelta_re [1; 2]%nat s))
  /\ (forall s,
        re_match datetime_re s = None ->
        findall customtimedelta_re [1; 2]%nat s = [] ->
        get_dt now s = Err (UnboundLocalError "dt_args"))
  /\ (forall s dt,
        get_dt now s = Ok dt ->
        valid dt = true /\ microsecond dt = 0%Z
        /\ (re_match datetime_re s <> None
            \/ findall customtimedelta_re [1; 2]%nat s <> [])).
Proof.
  split; [intros y fs; apply get_dt_partial_date|].
  split; [intros s; apply get_dt_relative|].
  split.
  - intros s Hno Hnone. unfold get_dt. rewrite Hno, Hnone. reflexivity.
  - intros s dt. unfold get_dt.
    destruct (re_match datetime_re s) as [g|].
    + intros H. split; [exact (new_valid _ _ _ _ _ _ _ _ H)|].
      destruct (new_fields _ _ _ _ _ _ _ _ H) as [-> _]. split; [reflexivity|].
      left. discriminate.
    + destruct (findall customtimedelta_re [1; 2]%nat s) as [|m ms]; [discriminate|].
      unfold mbind, res_bind.
      destruct (new_timedelta _ _ _ _ _) as [td|]; [|discriminate].
      destruct (sub now td) as [dt'|]; [|discriminate].
      destruct (borrow _ _ _) as [mo ye].
      intros H. split; [exact (new_valid _ _ _ _ _ _ _ _ H)|].
      destruct (new_fields _ _ _ _ _ _ _ _ H) as [-> _]. split; [reflexivity|].
      right. discriminate.
Qed.

End Reachback.

(** The examples of [main2]: an absolute date with the day left out, a
    relative one read at 2021-03-31 12:00:00, and a string of neither form. *)
Lemma reachback_parse_witness :
  M2cache.get_dt (noon 0 5) "2000-12"
  = Ok {| PyDatetime.year := 2000; PyDatetime.month := 12; PyDatetime.day := 1;
          PyDatetime.hour := 0; PyDatetime.minute := 0; PyDatetime.second := 0;
          PyDatetime.microsecond := 0 |}
  /\ M2cache.get_dt (noon 0 5) "20 years, 25 months, 79 days, 36 hours, 300 minutes"
     = Ok {| PyDatetime.year := 1998; PyDatetime.month := 12; PyDatetime.day := 9;
             PyDatetime.hour := 19; PyDatetime.minute := 0; PyDatetime.second := 0;
             PyDatetime.microsecond := 0 |}
  /\ M2cache.get_dt (noon 0 5) "yesterday" = Err (UnboundLocalError "dt_args").
Proof.
  destruct (reachback_parse (noon 0 5)) as (Habs & Hrel & Hnone & _).
  split; [|split].
  - assert (Hp : is_partial_date "2000" [("-"%char, "12")]).
    { split; [split; [reflexivity|simpl; lia]|].
      split; [simpl; lia|].
      repeat constructor; simpl; lia. }
    exact (Habs "2000" [("-"%char, "12")] Hp).
  - rewrite Hrel; [reflexivity|reflexivity|discriminate].
  - apply Hnone; reflexivity.
Defined.

(** C10 as stated fails: [2000-13] is of the absolute form, and the
    pattern matches it, yet no cutoff comes back, whatever the clock
    reads; and a relative specification fails when the day does not exist
    in the month it lands in. *)
Lemma reachback_month_13_refused :
  is_partial_date "2000" [("-"%char, "13")]
  /\ partial_date "2000" [("-"%char, "13")] = "2000-13"
  /\ PyRe.re_match M2cache.datetime_re "2000-13" <> None
  /\ (forall now, M2cache.get_dt now "2000-13" = Err (ValueError "month must be in 1..12"))
  /\ M2cache.get_dt (noon 0 5) "1 month"
     = Err (ValueError "day is out of range for month").
Proof.
  split.
  { split; [split; [reflexivity|simpl; lia]|].
    split; [simpl; lia|]. repeat constructor; simpl; lia. }
  split; [reflexivity|]. split; [discriminate|]. split; [|reflexivity].
  intros now. reflexivity.
Qed.

(** * Further properties *)

(** ** The cache: lookup, storing and the inventory *)

Section CacheMore.

Import PyDatetime M2cache.

Context {S : Type} (fmt : pyformat) (sha1 : string -> string) (cfg : config)
  (func : operation S result).

Lemma remove_all_keeps (stale : list string) :
  forall w : world S,
    match remove_all stale w with
    | Return _ w' | Raise _ w' =>
        cache_inventory w' = cache_inventory w /\ calls w' = calls w
        /\ op_state w' = op_state w
    | Stuck => True
    end.
Proof.
  induction stale as [|file rest IH]; intros w; cbn [remove_all].
  - cbn. auto.
  - unfold mbind, comp_bind, get_files, set_files, throw.
    destruct (files w !! file); [|auto].
    specialize (IH {| op_state := op_state w; calls := calls w;
                      cache_inventory := cache_inventory w;
                      files := delete file (files w) |}).
    destruct (remove_all rest _); auto.
Qed.

(** The inventory a call can leave: the one it found, that one with the new
    entry appended, or that one with the new entry alone for the
    fingerprint. *)
Lemma wrapper_inventory_cases (clk : readings) (args : list pyval)
    (kwargs : list (string * pyval)) (w : world S) :
  let fp := get_func_sig_hashed fmt sha1 (op_name func) args kwargs in
  match wrapper fmt sha1 cfg func clk args kwargs w with
  | Return _ w' | Raise _ w' =>
      cache_inventory w' = cache_inventory w
      \/ exists r,
          r <> RNone
          /\ let new_entry :=
               {| dt := at_store clk;
                  cachefilename := stored_name (cachedir cfg) (op_name func) fp
                                     (at_store clk) r |} in
             cache_inventory w' = get_append fp new_entry (cache_inventory w)
             \/ cache_inventory w' = <[fp := [new_entry]]> (cache_inventory w)
  | Stuck => True
  end.
Proof.
  intros fp. unfold wrapper. fold fp.
  unfold mbind at 1. unfold comp_bind at 1. unfold get_inventory at 1.
  unfold mbind at 1. unfold comp_bind at 1.
  assert (Hlook : match (match cache_inventory w !! fp with
                         | Some entries =>
                             most_recent_cached_entry ← lift_res (max_by_dt entries);
                             cutoff ← lift_res (get_dt (at_lookup clk) (reachback cfg));
                             mret (if geb (dt most_recent_cached_entry) cutoff
                                   then Some most_recent_cached_entry else None)
                         | None => mret None
                         end) w with
                  | Return _ w' | Raise _ w' => w' = w
                  | Stuck => True
                  end).
  { destruct (cache_inventory w !! fp) as [entries|]; [|reflexivity].
    unfold mbind, comp_bind, lift_res.
    destruct (max_by_dt entries); [|reflexivity]. cbn.
    destruct (get_dt _ _); reflexivity. }
  match type of Hlook with
  | match ?t with _ => _ end => destruct t as [hit w0|e w0|]
  end; [subst w0|subst w0; left; reflexivity|exact I].
  destruct hit as [e|].
  - unfold from_cache, mbind, comp_bind, get_files, mret, comp_ret, throw.
    destruct (String.eqb _ ".csv");
      [destruct (files w !! _); left; reflexivity|].
    destruct (String.eqb _ ".pkl"); [destruct (files w !! _)|]; left; reflexivity.
  - unfold mbind at 1. unfold comp_bind at 1. unfold invoke at 1.
    destruct (op_call func args kwargs (op_state w)) as [[r|e] st'];
      [|left; reflexivity].
    destruct r as [|csv|pickled]; [left; reflexivity| |].
    all: unfold mbind at 1; unfold comp_bind at 1; rewrite to_cache_spec.
    all: destruct (hoard cfg); cbn [negb].
    all: try (right;
              match goal with
              | |- context [stored_name _ _ _ _ ?r] => exists r
              end; split; [discriminate|left; reflexivity]).
    all: unfold mbind at 1; unfold comp_bind at 1.
    all: unfold mbind at 1; unfold comp_bind at 1; unfold get_inventory at 1.
    all: unfold mbind at 1; unfold comp_bind at 1.
    all: cbn [op_state calls files cache_inventory].
    all: match goal with
         | |- context [remove_all ?l ?w1] =>
             pose proof (remove_all_keeps l w1) as Hk; destruct (remove_all l w1)
               as [[] w2|e w2|]
         end; [|left; apply Hk|exact I].
    all: destruct Hk as (Hinv & _ & _); cbn [cache_inventory] in Hinv.
    all: unfold mbind, comp_bind, get_inventory, set_inventory, mret, comp_ret.
    all: cbn [op_state calls files cache_inventory].
    all: right;
         match goal with
         | |- context [stored_name _ _ _ _ ?r] => exists r
         end; (split; [|right]); [discriminate|].
    all: rewrite Hinv; unfold get_append; rewrite lookup_insert_eq, insert_insert_eq.
    all: reflexivity.
Qed.

Lemma lex_ltb_trans (a : list Z) :
  forall b c, lex_ltb a b = true -> lex_ltb b c = true -> lex_ltb a c = true.
Proof.
  induction a as [|x a IH]; intros [|y b] [|z c]; cbn [lex_ltb]; try discriminate; auto.
  intros H1 H2.
  apply orb_true_iff in H1 as [H1|H1]; apply orb_true_iff in H2 as [H2|H2];
    apply orb_true_iff.
  - left. apply Z.ltb_lt in H1, H2. apply Z.ltb_lt. lia.
  - apply andb_true_iff in H2 as [H2 _]. apply Z.ltb_lt in H1. apply Z.eqb_eq in H2.
    left. apply Z.ltb_lt. lia.
  - apply andb_true_iff in H1 as [H1 _]. apply Z.ltb_lt in H2. apply Z.eqb_eq in H1.
    left. apply Z.ltb_lt. lia.
  - apply andb_true_iff in H1 as [H1 H1']. apply andb_true_iff in H2 as [H2 H2'].
    apply Z.eqb_eq in H1, H2. right. apply andb_true_iff. split.
    + apply Z.eqb_eq. lia.
    + exact (IH b c H1' H2').
Qed.

Lemma lex_ltb_total (a : list Z) :
  forall b, length a = length b ->
    lex_ltb a b = false -> lex_ltb b a = true \/ a = b.
Proof.
  induction a as [|x a IH]; intros [|y b] Hlen; try discriminate; cbn [lex_ltb].
  - auto.
  - intros H. apply orb_false_iff in H as [H1 H2]. apply Z.ltb_ge in H1.
    destruct (Z.eqb_spec x y) as [->|Hne].
    + cbn in H2. destruct (IH b ltac:(simpl in Hlen; lia) H2) as [H | ->].
      * left. rewrite Z.eqb_refl, H. apply orb_true_r.
      * right. reflexivity.
    + left. apply orb_true_iff. left. apply Z.ltb_lt. lia.
Qed.

Lemma ltb_trans (a b c : datetime) : ltb a b = true -> ltb b c = true -> ltb a c = true.
Proof. apply lex_ltb_trans. Qed.

(** Not older and then strictly older gives strictly older. *)
Lemma ltb_le_lt (y b x : datetime) : ltb b y = false -> ltb b x = true -> ltb y x = true.
Proof.
  intros Hby Hbx. destruct (lex_ltb_total (fields b) (fields y) eq_refl Hby) as [H|H].
  - exact (ltb_trans y b x H Hbx).
  - unfold ltb in *. rewrite <- H. exact Hbx.
Qed.

(** The fold of [max]: what has been seen is split around the best so
    far, older entries before it, none newer after it. *)
Lemma max_fold_split (rest : list entry) :
  forall (e0 : entry) (pre post : list entry),
    Forall (fun x => ltb (dt x) (dt e0) = true) pre ->
    Forall (fun x => ltb (dt e0) (dt x) = false) post ->
    exists l1 l2,
      (pre ++ e0 :: post ++ rest)%list
      = (l1 ++ fold_left (fun best x => if ltb (dt best) (dt x) then x else best) rest e0
            :: l2)%list
      /\ Forall (fun x =>
                   ltb (dt x)
                     (dt (fold_left (fun best x => if ltb (dt best) (dt x) then x else best)
                            rest e0)) = true) l1
      /\ Forall (fun x =>
                   ltb (dt (fold_left (fun best x => if ltb (dt best) (dt x) then x else best)
                              rest e0)) (dt x) = false) l2.
Proof.
  induction rest as [|x rest IH]; intros e0 pre post Hpre Hpost.
  - exists pre, post. rewrite app_nil_r. auto.
  - cbn [fold_left]. destruct (ltb (dt e0) (dt x)) eqn:E.
    + destruct (IH x (pre ++ e0 :: post)%list []) as (l1 & l2 & Heq & H1 & H2).
      * apply Forall_app. split.
        -- eapply Forall_impl; [exact Hpre|]. intros y Hy. exact (ltb_trans _ _ _ Hy E).
        -- constructor; [exact E|].
           eapply Forall_impl; [exact Hpost|]. intros y Hy. exact (ltb_le_lt _ _ _ Hy E).
      * constructor.
      * exists l1, l2. rewrite <- Heq. split; [|auto].
        rewrite <- !app_assoc. reflexivity.
    + destruct (IH e0 pre (post ++ [x])%list Hpre) as (l1 & l2 & Heq & H1 & H2).
      * apply Forall_app. split; [exact Hpost|]. constructor; [exact E|constructor].
      * exists l1, l2. rewrite <- Heq. split; [|auto].
        rewrite <- !app_assoc. reflexivity.
Qed.

(** X1. [max(entries, key=lambda d: d['dt'])] fails on the empty list only,
    and otherwise picks the first of the newest entries: every entry
    before it is strictly older, no entry after it is newer. *)
Theorem max_by_dt_first_newest (entries : list entry) :
  (max_by_dt entries = Err (ValueError "max() arg is an empty sequence") <-> entries = [])
  /\ (entries <> [] ->
      exists e l1 l2,
        max_by_dt entries = Ok e
        /\ entries = (l1 ++ e :: l2)%list
        /\ Forall (fun x => ltb (dt x) (dt e) = true) l1
        /\ Forall (fun x => geb (dt e) (dt x) = true) l2).
Proof.
  split.
  - destruct entries; cbn; split; intros H; try reflexivity; discriminate.
  - intros Hne. destruct entries as [|e0 rest]; [contradiction|].
    destruct (max_fold_split rest e0 [] [] ltac:(constructor) ltac:(constructor))
      as (l1 & l2 & Heq & H1 & H2).
    eexists _, l1, l2. split; [reflexivity|]. split; [exact Heq|]. split; [exact H1|].
    eapply Forall_impl; [exact H2|]. intros x Hx. unfold geb. rewrite Hx. reflexivity.
Qed.

End CacheMore.

Lemma max_by_dt_first_newest_witness :
  exists e l1 l2,
    M2cache.max_by_dt
      [ {| M2cache.dt := noon 0 5; M2cache.cachefilename := "a.pkl" |};
        {| M2cache.dt := noon 7 0; M2cache.cachefilename := "b.pkl" |};
        {| M2cache.dt := noon 7 0; M2cache.cachefilename := "c.pkl" |} ] = Ok e
    /\ [ {| M2cache.dt := noon 0 5; M2cache.cachefilename := "a.pkl" |};
         {| M2cache.dt := noon 7 0; M2cache.cachefilename := "b.pkl" |};
         {| M2cache.dt := noon 7 0; M2cache.cachefilename := "c.pkl" |} ]
       = (l1 ++ e :: l2)%list
    /\ Forall (fun x => PyDatetime.ltb (M2cache.dt x) (M2cache.dt e) = true) l1
    /\ Forall (fun x => PyDatetime.geb (M2cache.dt e) (M2cache.dt x) = true) l2.
Proof.
  apply (proj2 (max_by_dt_first_newest _)). discriminate.
Defined.

Section CacheCalls.

Import PyDatetime M2cache.

Context {S : Type} (fmt : pyformat) (sha1 : string -> string) (cfg : config)
  (func : operation S result).


Lemma loadable_stored_name (dir name fp : string) (now : datetime) (r : result) :
  loadable (stored_name dir name fp now r).
Proof.
  unfold loadable. rewrite extension_stored_name. destruct r; auto.
Qed.

(** X2. A call keeps the inventory well formed, however it ends: every
    fingerprint in it still has an entry, and every entry still names a
    file that [from_cache] can load. *)
Theorem cache_keeps_inventory_ok (clk : readings) (args : list pyval)
    (kwargs : list (string * pyval)) (w : world S) :
  inventory_ok (cache_inventory w) ->
  match wrapper fmt sha1 cfg func clk args kwargs w with
  | Return _ w' | Raise _ w' => inventory_ok (cache_inventory w')
  | Stuck => True
  end.
Proof.
  intros Hok. pose proof (wrapper_inventory_cases fmt sha1 cfg func clk args kwargs w) as H.
  cbv zeta in H.
  assert (Hcases : forall w' : world S,
             (cache_inventory w' = cache_inventory w
              \/ exists r,
                  r <> RNone
                  /\ (cache_inventory w'
                      = get_append (get_func_sig_hashed fmt sha1 (op_name func) args kwargs)
                          {| dt := at_store clk;
                             cachefilename :=
                               stored_name (cachedir cfg) (op_name func)
                                 (get_func_sig_hashed fmt sha1 (op_name func) args kwargs)
                                 (at_store clk) r |} (cache_inventory w)
                      \/ cache_inventory w'
                         = <[get_func_sig_hashed fmt sha1 (op_name func) args kwargs :=
                               [{| dt := at_store clk;
                                   cachefilename :=
                                     stored_name (cachedir cfg) (op_name func)
                                       (get_func_sig_hashed fmt sha1 (op_name func) args
                                          kwargs) (at_store clk) r |}]]>
                             (cache_inventory w))) ->
             inventory_ok (cache_inventory w')).
  { intros w' [->|(r & _ & [->| ->])]; [exact Hok| |].
    - unfold get_append. destruct (cache_inventory w !! _) as [entries|] eqn:E; [|exact Hok].
      intros fp es. destruct (decide (get_func_sig_hashed fmt sha1 (op_name func) args kwargs
                                      = fp)) as [<-|Hne].
      + rewrite lookup_insert_eq. intros [= <-]. split; [destruct entries; discriminate|].
        apply Forall_app. split; [apply (Hok _ _ E)|].
        constructor; [apply loadable_stored_name|constructor].
      + rewrite lookup_insert_ne by exact Hne. apply Hok.
    - intros fp es. destruct (decide (get_func_sig_hashed fmt sha1 (op_name func) args kwargs
                                      = fp)) as [<-|Hne].
      + rewrite lookup_insert_eq. intros [= <-]. split; [discriminate|].
        constructor; [apply loadable_stored_name|constructor].
      + rewrite lookup_insert_ne by exact Hne. apply Hok. }
  destruct (wrapper fmt sha1 cfg func clk args kwargs w); auto.
Qed.


(** X4. A call that misses and whose operation returns [None], or raises,
    stores nothing: the result or the error comes out, the operation has
    run once, and disk and inventory are as they were. *)
Theorem cache_stores_no_none_no_error (clk : readings) (args : list pyval)
    (kwargs : list (string * pyval)) (w : world S) :
  lookup_misses cfg clk (get_func_sig_hashed fmt sha1 (op_name func) args kwargs) w ->
  let w1 := {| op_state := snd (op_call func args kwargs (op_state w));
               calls := Datatypes.S (calls w);
               cache_inventory := cache_inventory w; files := files w |} in
  (fst (op_call func args kwargs (op_state w)) = Ok RNone ->
   wrapper fmt sha1 cfg func clk args kwargs w = Return RNone w1)
  /\ (forall e, fst (op_call func args kwargs (op_state w)) = Err e ->
      wrapper fmt sha1 cfg func clk args kwargs w = Raise e w1).
Proof.
  intros Hmiss w1. subst w1.
  split; [intros Hres|intros e Hres].
  all: unfold wrapper.
  all: unfold mbind at 1; unfold comp_bind at 1; unfold get_inventory at 1.
  all: unfold mbind at 1; unfold comp_bind at 1.
  all: rewrite (lookup_miss_spec cfg clk _ w Hmiss).
  all: unfold mbind at 1; unfold comp_bind at 1; unfold invoke at 1.
  all: destruct (op_call func args kwargs (op_state w)) as [r st']; cbn [fst snd] in *.
  all: rewrite Hres; reflexivity.
Qed.

(** X5. The reachback is parsed only when the fingerprint is in the
    inventory.  For a fingerprint that is not, the call does the same
    whatever the reachback says, malformed or not; for one that is, a
    reachback that does not parse makes the call raise the parser's error
    before the operation is run. *)
Theorem cache_reachback_parsed_lazily (clk : readings) (args : list pyval)
    (kwargs : list (string * pyval)) (w : world S) :
  (cache_inventory w !! get_func_sig_hashed fmt sha1 (op_name func) args kwargs = None ->
   forall other : string,
     wrapper fmt sha1 {| reachback := other; hoard := hoard cfg; cachedir := cachedir cfg |}
       func clk args kwargs w
     = wrapper fmt sha1 cfg func clk args kwargs w)
  /\ (forall entries e,
        cache_inventory w !! get_func_sig_hashed fmt sha1 (op_name func) args kwargs
        = Some entries ->
        entries <> [] ->
        get_dt (at_lookup clk) (reachback cfg) = Err e ->
        wrapper fmt sha1 cfg func clk args kwargs w = Raise e w).
Proof.
  split.
  - intros Hnone other. unfold wrapper.
    unfold mbind at 1. unfold comp_bind at 1. unfold get_inventory at 1.
    unfold mbind at 1. unfold comp_bind at 1.
    symmetry.
    unfold mbind at 1. unfold comp_bind at 1. unfold get_inventory at 1.
    unfold mbind at 1. unfold comp_bind at 1.
    rewrite Hnone. reflexivity.
  - intros entries e Hinv Hne Hcut.
    unfold wrapper, mbind, comp_bind, get_inventory, lift_res, mret, comp_ret, throw.
    rewrite Hinv. destruct entries as [|e0 rest]; [contradiction|].
    cbn [max_by_dt]. rewrite Hcut. reflexivity.
Qed.

(** Removal stops at the first file that is not there, with the files
    before it gone. *)
Lemma remove_all_stops (pre : list string) (f : string) (rest : list string) :
  forall w : world S,
    NoDup pre -> f ∉ pre ->
    (forall p, p ∈ pre -> is_Some (files w !! p)) ->
    files w !! f = None ->
    exists fs,
      remove_all (pre ++ f :: rest) w
      = Raise (FileNotFoundError f)
          {| op_state := op_state w; calls := calls w;
             cache_inventory := cache_inventory w; files := fs |}
      /\ (forall p, p ∈ pre -> fs !! p = None)
      /\ (forall p, p ∉ pre -> fs !! p = files w !! p).
Proof.
  induction pre as [|file pre IH]; intros w Hnd Hf Hall Hmiss.
  - exists (files w). cbn [app remove_all]. unfold mbind, comp_bind, get_files, throw.
    rewrite Hmiss. split; [destruct w; reflexivity|].
    split; [intros p Hp; inversion Hp|reflexivity].
  - apply NoDup_cons in Hnd as [Hnotin Hnd]. apply not_elem_of_cons in Hf as [Hne Hf].
    destruct (Hall file) as [content Hfile]; [left|].
    set (w1 := {| op_state := op_state w; calls := calls w;
                  cache_inventory := cache_inventory w;
                  files := delete file (files w) |}).
    destruct (IH w1 Hnd Hf) as (fs & E & Hgone & Hkept).
    { intros p Hp. cbn. rewrite lookup_delete_ne; [apply Hall; right; exact Hp|].
      intros ->. contradiction. }
    { cbn. rewrite lookup_delete_ne by congruence. exact Hmiss. }
    exists fs. split; [|split].
    + cbn [app remove_all]. unfold mbind, comp_bind, get_files, set_files.
      rewrite Hfile. exact E.
    + intros p Hp. apply elem_of_cons in Hp as [->|Hp]; [|apply Hgone; exact Hp].
      rewrite Hkept by exact Hnotin. cbn. apply lookup_delete_eq.
    + intros p Hp. apply not_elem_of_cons in Hp as [Hpne Hp].
      rewrite Hkept by exact Hp. cbn. apply lookup_delete_ne. congruence.
Qed.

(** X6. Under single-version retention a recorded file that is no longer
    on disk breaks the next write for its fingerprint: the operation has
    already run and its result is already written when [os.remove] raises
    [FileNotFoundError]; the recorded files before the missing one are
    gone, and the inventory is left as it was, the missing file still in
    it. *)
Theorem cache_missing_stale_file (clk : readings) (args : list pyval)
    (kwargs : list (string * pyval)) (w : world S) (r : result)
    (pre : list string) (f : string) (rest : list string) :
  let fp := get_func_sig_hashed fmt sha1 (op_name func) args kwargs in
  let new_path := stored_name (cachedir cfg) (op_name func) fp (at_store clk) r in
  hoard cfg = false ->
  lookup_misses cfg clk fp w ->
  fst (op_call func args kwargs (op_state w)) = Ok r ->
  r <> RNone ->
  recorded_files fp w = (pre ++ f :: rest)%list ->
  NoDup pre -> f ∉ pre ->
  (forall p, p ∈ pre -> is_Some (files w !! p)) ->
  files w !! f = None -> f <> new_path ->
  exists fs,
    wrapper fmt sha1 cfg func clk args kwargs w
    = Raise (FileNotFoundError f)
        {| op_state := snd (op_call func args kwargs (op_state w));
           calls := Datatypes.S (calls w);
           cache_inventory := cache_inventory w; files := fs |}
    /\ (new_path ∉ pre -> fs !! new_path = Some (stored_content r))
    /\ (forall p, p ∈ pre -> fs !! p = None).
Proof.
  intros fp new_path Hh Hmiss Hres Hr Hrec Hnd Hf Hall Hgone Hne.
  set (w1 := {| op_state := snd (op_call func args kwargs (op_state w));
                calls := Datatypes.S (calls w);
                cache_inventory := cache_inventory w;
                files := <[new_path := stored_content r]> (files w) |}).
  destruct (remove_all_stops pre f rest w1 Hnd Hf) as (fs & E & Hdel & Hkept).
  { intros p Hp. cbn. destruct (decide (new_path = p)) as [->|Hnp].
    - rewrite lookup_insert_eq. eauto.
    - rewrite lookup_insert_ne by exact Hnp. apply Hall. exact Hp. }
  { cbn. rewrite lookup_insert_ne by congruence. exact Hgone. }
  exists fs. split; [|split; [|exact Hdel]].
  - unfold recorded_files in Hrec. subst w1 new_path fp.
    unfold wrapper.
    unfold mbind at 1. unfold comp_bind at 1. unfold get_inventory at 1.
    unfold mbind at 1. unfold comp_bind at 1.
    rewrite (lookup_miss_spec cfg clk _ w Hmiss).
    unfold mbind at 1. unfold comp_bind at 1. unfold invoke at 1.
    destruct (op_call func args kwargs (op_state w)) as [r0 st']. cbn [fst snd] in *.
    subst r0.
    destruct r; [contradiction| |];
      unfold mbind at 1; unfold comp_bind at 1; rewrite to_cache_spec, Hh;
      cbn [negb]; unfold mbind, comp_bind, get_inventory;
      cbn [op_state calls files cache_inventory] in E |- *; rewrite Hrec, E;
      reflexivity.
  - intros Hnew. rewrite (Hkept new_path Hnew). cbn. apply lookup_insert_eq.
Qed.



End CacheCalls.

Lemma after_first_write_ok : inventory_ok (M2cache.cache_inventory after_first_write).
Proof.
  intros fp entries Hlook. cbn [M2cache.cache_inventory after_first_write] in Hlook.
  apply lookup_singleton_Some in Hlook as [_ <-].
  split; [discriminate|]. apply Forall_cons. split; [right; reflexivity|apply Forall_nil_2].
Qed.

Lemma cache_keeps_inventory_ok_witness :
  inventory_ok (M2cache.cache_inventory after_first_write)
  /\ match M2cache.wrapper plain_format plain_digest (cache_config "9999" false) fetch
             (at_time (noon 7 9)) [PyInt 1] [] after_first_write with
     | Return _ w' | Raise _ w' => inventory_ok (M2cache.cache_inventory w')
     | Stuck => True
     end.
Proof.
  split; [exact after_first_write_ok|].
  apply cache_keeps_inventory_ok. exact after_first_write_ok.
Defined.


Lemma cache_stores_no_none_no_error_witness :
  M2cache.wrapper plain_format plain_digest (cache_config "9999" true) nothing_then_fail
    (at_time (noon 7 9)) [PyInt 1] [] cache_start
  = Return M2cache.RNone
      {| M2cache.op_state := 1%nat; M2cache.calls := 1%nat;
         M2cache.cache_inventory := ∅; M2cache.files := ∅ |}
  /\ M2cache.wrapper plain_format plain_digest (cache_config "9999" false) nothing_then_fail
       (at_time (noon 7 9)) [PyInt 1] [] after_first_write
     = Raise (OperationError "boom")
         {| M2cache.op_state := 2%nat; M2cache.calls := 2%nat;
            M2cache.cache_inventory := M2cache.cache_inventory after_first_write;
            M2cache.files := M2cache.files after_first_write |}.
Proof.
  split.
  - refine (proj1 (cache_stores_no_none_no_error plain_format plain_digest
                     (cache_config "9999" true) nothing_then_fail (at_time (noon 7 9))
                     [PyInt 1] [] cache_start _) eq_refl).
    left. reflexivity.
  - refine (proj2 (cache_stores_no_none_no_error plain_format plain_digest
                     (cache_config "9999" false) nothing_then_fail (at_time (noon 7 9))
                     [PyInt 1] [] after_first_write _) (OperationError "boom") eq_refl).
    right. eexists _, _, _. repeat split; reflexivity.
Defined.

Lemma cache_reachback_parsed_lazily_witness :
  M2cache.wrapper plain_format plain_digest (cache_config "no such time" false) fetch
    (at_time (noon 7 9)) [PyInt 1] [] cache_start
  = M2cache.wrapper plain_format plain_digest (cache_config "9999" false) fetch
      (at_time (noon 7 9)) [PyInt 1] [] cache_start
  /\ exists e,
      M2cache.wrapper plain_format plain_digest (cache_config "2021-13" false) fetch
        (at_time (noon 7 9)) [PyInt 1] [] after_first_write
      = Raise e after_first_write.
Proof.
  split.
  - exact (proj1 (cache_reachback_parsed_lazily plain_format plain_digest
                    (cache_config "9999" false) fetch (at_time (noon 7 9)) [PyInt 1] []
                    cache_start) eq_refl "no such time").
  - eexists.
    refine (proj2 (cache_reachback_parsed_lazily plain_format plain_digest
                     (cache_config "2021-13" false) fetch (at_time (noon 7 9)) [PyInt 1] []
                     after_first_write) _ _ eq_refl _ _).
    + discriminate.
    + vm_compute. reflexivity.
Defined.

Lemma cache_missing_stale_file_witness :
  exists fs,
    M2cache.wrapper plain_format plain_digest (cache_config "9999" false) fetch
      (at_time (noon 7 9)) [PyInt 1] [] after_file_lost
    = Raise (FileNotFoundError "cache/fetch_fetch(1)_2021-03-31_120000.pkl")
        {| M2cache.op_state := 2%nat; M2cache.calls := 2%nat;
           M2cache.cache_inventory := M2cache.cache_inventory after_first_write;
           M2cache.files := fs |}
    /\ fs !! "cache/fetch_fetch(1)_2021-03-31_120007.pkl" = Some "result 2".
Proof.
  destruct (cache_missing_stale_file plain_format plain_digest (cache_config "9999" false)
              fetch (at_time (noon 7 9)) [PyInt 1] [] after_file_lost
              (M2cache.RObject "result 2") []
              "cache/fetch_fetch(1)_2021-03-31_120000.pkl" [])
    as (fs & E & Hnew & _).
  - reflexivity.
  - right. eexists _, _, _. repeat split; reflexivity.
  - reflexivity.
  - discriminate.
  - reflexivity.
  - constructor.
  - intros H. inversion H.
  - intros p H. inversion H.
  - reflexivity.
  - discriminate.
  - exists fs. split; [exact E|]. apply Hnew. intros H. inversion H.
Defined.



Section Scan.

Import PyDatetime PyRe M2cache.

Lemma append_assoc (a b c : string) : (a +:+ b) +:+ c = a +:+ (b +:+ c).
Proof.
  induction a as [|x a IH]; [reflexivity|].
  change (String x ((a +:+ b) +:+ c) = String x (a +:+ b +:+ c)). rewrite IH. reflexivity.
Qed.

Lemma strip_prefix_Some (p s s' : string) : strip_prefix p s = Some s' -> s = p +:+ s'.
Proof.
  revert s. induction p as [|a p IH]; intros s; simpl.
  - intros [= ->]. reflexivity.
  - destruct s as [|b s]; [discriminate|].
    destruct (Ascii.eqb_spec a b) as [->|]; [|discriminate].
    intros H. rewrite (IH _ H). reflexivity.
Qed.

Lemma strip_prefix_app (p s : string) : strip_prefix p (p +:+ s) = Some s.
Proof. induction p as [|a p IH]; simpl; [reflexivity|]. rewrite Ascii.eqb_refl. exact IH. Qed.

(** *** Every match leaves a suffix of the text *)

Lemma rep_suffix (m : string -> captures -> list state) :
  (forall s caps st, In st (m s caps) -> exists pre, s = pre +:+ snd st) ->
  forall hi lo s caps st, In st (rep m lo hi s caps) -> exists pre, s = pre +:+ snd st.
Proof.
  intros Hm. induction hi as [|hi IH]; intros lo s caps st; cbn [rep].
  - destruct (Nat.eqb lo 0); [|intros []]. intros [<-|[]]. exists "". reflexivity.
  - intros H. apply in_app_or in H as [H|H].
    + apply in_flat_map in H as (st1 & H1 & H2).
      destruct (Hm _ _ _ H1) as [p1 E1]. destruct (IH _ _ _ _ H2) as [p2 E2].
      exists (p1 +:+ p2). rewrite append_assoc, <- E2. exact E1.
    + destruct (Nat.eqb lo 0); [|destruct H]. destruct H as [<-|[]].
      exists "". reflexivity.
Qed.

Lemma run_suffix (r : regex) :
  forall s caps st, In st (run r s caps) -> exists pre, s = pre +:+ snd st.
Proof.
  induction r as [| | |a|p|r1 IH1 r2 IH2|r1 IH1 r2 IH2|r IH lo hi|i r IH|];
    intros s caps st; cbn [run].
  - destruct s as [|c s]; [intros []|]. destruct (is_digit c); [|intros []].
    intros [<-|[]]. exists (String c ""). reflexivity.
  - destruct s as [|c s]; [intros []|]. destruct (is_digit c); [intros []|].
    intros [<-|[]]. exists (String c ""). reflexivity.
  - destruct s as [|c s]; [intros []|]. destruct (is_hex_digit c); [|intros []].
    intros [<-|[]]. exists (String c ""). reflexivity.
  - destruct s as [|c s]; [intros []|]. destruct (Ascii.eqb a c); [|intros []].
    intros [<-|[]]. exists (String c ""). reflexivity.
  - destruct (strip_prefix p s) as [s'|] eqn:E; [|intros []].
    intros [<-|[]]. exists p. exact (strip_prefix_Some _ _ _ E).
  - intros H. apply in_flat_map in H as (st1 & H1 & H2).
    destruct (IH1 _ _ _ H1) as [p1 E1]. destruct (IH2 _ _ _ H2) as [p2 E2].
    exists (p1 +:+ p2). rewrite append_assoc, <- E2. exact E1.
  - intros H. apply in_app_or in H as [H|H]; [exact (IH1 _ _ _ H)|exact (IH2 _ _ _ H)].
  - apply rep_suffix. exact IH.
  - intros H. apply in_map_iff in H as (st0 & <- & H0). exact (IH _ _ _ H0).
  - destruct s as [|c [|c' s']].
    + intros [<-|[]]. exists "". reflexivity.
    + destruct (Ascii.eqb c newline); [|intros []]. intros [<-|[]]. exists "". reflexivity.
    + intros [].
Qed.

Lemma in_run_seq (r1 r2 : regex) (s : string) (caps : captures) (st : state) :
  In st (run (Seq r1 r2) s caps) ->
  exists st1, In st1 (run r1 s caps) /\ In st (run r2 (snd st1) (fst st1)).
Proof. cbn [run]. intros H. apply in_flat_map in H. exact H. Qed.

(** The end of the pattern, [\.(?:csv|pkl)$], takes one of the two
    extensions, alone or before a final line feed. *)
Lemma run_tail (s : string) (caps : captures) (st : state) :
  In st (run (Seq (Chr ".") (Seq (Alt (Lit "csv") (Lit "pkl")) Eos)) s caps) ->
  exists ext,
    (ext = ".csv" \/ ext = ".pkl")
    /\ (s = ext \/ s = ext +:+ String newline "").
Proof.
  intros H. apply in_run_seq in H as (st1 & H1 & H).
  apply in_run_seq in H as (st2 & H2 & H).
  assert (Hdot : s = String "." (snd st1)).
  { cbn [run] in H1. destruct s as [|c s]; [destruct H1|].
    destruct (Ascii.eqb_spec "." c) as [<-|]; [|destruct H1].
    destruct H1 as [<-|[]]. reflexivity. }
  assert (Hend : snd st2 = "" \/ snd st2 = String newline "").
  { cbn [run] in H. destruct (snd st2) as [|c [|c' s']].
    - left. reflexivity.
    - destruct (Ascii.eqb_spec c newline) as [Hc|]; [|destruct H]. right. rewrite Hc. reflexivity.
    - destruct H. }
  cbn [run] in H2. apply in_app_or in H2 as [H2|H2].
  - destruct (strip_prefix "csv" (snd st1)) as [s'|] eqn:E; [|destruct H2].
    destruct H2 as [<-|[]]. apply strip_prefix_Some in E. cbn [snd] in Hend.
    exists ".csv". split; [left; reflexivity|]. rewrite Hdot, E.
    destruct Hend as [-> | ->]; [left|right]; reflexivity.
  - destruct (strip_prefix "pkl" (snd st1)) as [s'|] eqn:E; [|destruct H2].
    destruct H2 as [<-|[]]. apply strip_prefix_Some in E. cbn [snd] in Hend.
    exists ".pkl". split; [right; reflexivity|]. rewrite Hdot, E.
    destruct Hend as [-> | ->]; [left|right]; reflexivity.
Qed.

(** A name that the pattern of cache files lets through ends in [.csv] or
    [.pkl], or in one of them and a line feed. *)
Lemma cachefilename_re_shape (name filename : string) (g : captures) :
  re_match (cachefilename_re name) filename = Some g ->
  exists pre ext,
    (ext = ".csv" \/ ext = ".pkl")
    /\ (filename = pre +:+ ext \/ filename = (pre +:+ ext) +:+ String newline "").
Proof.
  unfold re_match. destruct (run (cachefilename_re name) filename ∅) as [|st l] eqn:E;
    [discriminate|]. intros _.
  assert (H : In st (run (cachefilename_re name) filename ∅)) by (rewrite E; left; reflexivity).
  clear E. unfold cachefilename_re in H.
  apply in_run_seq in H as (s1 & H1 & H). apply run_suffix in H1 as [p1 E1].
  apply in_run_seq in H as (s2 & H2 & H). apply run_suffix in H2 as [p2 E2].
  apply in_run_seq in H as (s3 & H3 & H). apply run_suffix in H3 as [p3 E3].
  apply in_run_seq in H as (s4 & H4 & H). apply run_suffix in H4 as [p4 E4].
  apply in_run_seq in H as (s5 & H5 & H). apply run_suffix in H5 as [p5 E5].
  apply run_tail in H as (ext & Hext & Hs).
  exists (p1 +:+ p2 +:+ p3 +:+ p4 +:+ p5), ext. split; [exact Hext|].
  rewrite E1, E2, E3, E4, E5.
  destruct Hs as [-> | ->]; [left|right]; rewrite !append_assoc; reflexivity.
Qed.

Lemma path_join_app (a b c : string) : path_join a (b +:+ c) = path_join a b +:+ c.
Proof.
  unfold path_join. destruct (String.eqb a ""); [reflexivity|].
  destruct (String.eqb _ "/"); rewrite !append_assoc; reflexivity.
Qed.

Lemma final_newline_last (t : string) :
  substring (String.length (t +:+ String newline "") - 1) 1 (t +:+ String newline "")
  = String newline "".
Proof.
  induction t as [|c t IH]; [reflexivity|].
  change (String c t +:+ String newline "") with (String c (t +:+ String newline "")).
  cbn [String.length]. rewrite append_length in *. cbn [String.length] in *.
  replace (Datatypes.S (String.length t + 1) - 1)%nat
    with (Datatypes.S (String.length t + 1 - 1)) by lia.
  cbn [substring]. exact IH.
Qed.

Lemma scan_keeps_inventory_ok (name : string) (listing : list (string * string)) :
  forall inv inv',
    Forall (fun rf => no_final_newline (snd rf)) listing ->
    inventory_ok inv ->
    scan name listing inv = Ok inv' -> inventory_ok inv'.
Proof.
  induction listing as [|[root filename] listing IH]; intros inv inv' Hnl Hok; cbn [scan].
  - intros [= <-]. exact Hok.
  - apply Forall_cons in Hnl as [Hf Hnl]. cbn [snd] in Hf.
    destruct (re_match (cachefilename_re name) filename) as [g|] eqn:Hm;
      [|apply IH; assumption].
    unfold mbind, res_bind. destruct (strptime_stamp _) as [t|e]; [|discriminate].
    apply IH; [exact Hnl|].
    assert (Hload : loadable (path_join root filename)).
    { destruct (cachefilename_re_shape _ _ _ Hm) as (pre & ext & Hext & [-> | ->]).
      - rewrite path_join_app. unfold loadable.
        destruct Hext as [-> | ->]; [left|right]; apply extension_app; reflexivity.
      - exfalso. exact (Hf _ eq_refl). }
    intros fp es. destruct (decide (default "" (g !! 1%nat) = fp)) as [<-|Hne].
    + rewrite lookup_insert_eq. intros [= <-]. split.
      * destruct (default [] (inv !! default "" (g !! 1%nat))); discriminate.
      * apply Forall_app. split; [|constructor; [exact Hload|constructor]].
        destruct (inv !! default "" (g !! 1%nat)) as [old|] eqn:E; [|constructor].
        exact (proj2 (Hok _ _ E)).
    + rewrite lookup_insert_ne by exact Hne. apply Hok.
Qed.

(** X9. The inventory that decoration builds from the cache directory is
    well formed when no listed file name ends in a line feed: every
    fingerprint in it has an entry, and every entry names a file that
    [from_cache] can load. *)
Theorem get_cache_inventory_ok (listing : list (string * string)) (name : string)
    (inv : gmap string (list entry)) :
  Forall (fun rf => no_final_newline (snd rf)) listing ->
  get_cache_inventory listing name = Ok inv ->
  inventory_ok inv.
Proof.
  intros Hnl. apply (scan_keeps_inventory_ok name listing ∅ inv Hnl).
  intros fp es H. rewrite lookup_empty in H. discriminate.
Qed.

End Scan.

Section Restart.

Import PyDatetime PyRe M2cache.

Lemma rep_exact (m : string -> captures -> list state) (P : ascii -> bool)
    (all : string -> bool) :
  (forall c s caps, m (String c s) caps = if P c then [(caps, s)] else []) ->
  (forall c s, all (String c s) = P c && all s) ->
  forall (h rest : string) (caps : captures),
    all h = true ->
    rep m (String.length h) (String.length h) (h +:+ rest) caps = [(caps, rest)].
Proof.
  intros Hm Hall. induction h as [|c h IH]; intros rest caps Hh.
  - reflexivity.
  - rewrite Hall in Hh. apply andb_true_iff in Hh as [Hc Hh].
    cbn [String.length rep]. change (String c h +:+ rest) with (String c (h +:+ rest)).
    rewrite Hm, Hc. cbn [flat_map fst snd pred Nat.eqb].
    rewrite (IH rest caps Hh). reflexivity.
Qed.

Lemma run_exactly_digits (n : nat) (h rest : string) (caps : captures) :
  all_digits h = true -> String.length h = n ->
  run (exactly n Digit) (h +:+ rest) caps = [(caps, rest)].
Proof.
  intros Hd <-. unfold exactly. cbn [run].
  apply (rep_exact (run Digit) is_digit all_digits); [reflexivity|reflexivity|exact Hd].
Qed.

Lemma run_exactly_hex (n : nat) (h rest : string) (caps : captures) :
  all_hex h = true -> String.length h = n ->
  run (exactly n HexDigit) (h +:+ rest) caps = [(caps, rest)].
Proof.
  intros Hd <-. unfold exactly. cbn [run].
  apply (rep_exact (run HexDigit) is_hex_digit all_hex); [reflexivity|reflexivity|exact Hd].
Qed.

Lemma run_seq_one (r1 r2 : regex) (s s1 : string) (caps caps1 : captures) :
  run r1 s caps = [(caps1, s1)] -> run (Seq r1 r2) s caps = run r2 s1 caps1.
Proof. intros H. cbn [run]. rewrite H. cbn [flat_map fst snd]. apply app_nil_r. Qed.

Lemma run_group_one (i : nat) (r : regex) (s s1 : string) (caps caps1 : captures) :
  run r s caps = [(caps1, s1)] ->
  run (Group i r) s caps = [(<[i := consumed s s1]> caps1, s1)].
Proof. intros H. cbn [run]. rewrite H. reflexivity. Qed.

Lemma run_lit (p s : string) (caps : captures) : run (Lit p) (p +:+ s) caps = [(caps, s)].
Proof. cbn [run]. rewrite strip_prefix_app. reflexivity. Qed.

Lemma run_chr (a : ascii) (s : string) (caps : captures) :
  run (Chr a) (String a s) caps = [(caps, s)].
Proof. cbn [run]. rewrite Ascii.eqb_refl. reflexivity. Qed.

Lemma run_chr_app (a : ascii) (s : string) (caps : captures) :
  run (Chr a) (String a "" +:+ s) caps = [(caps, s)].
Proof. apply run_chr. Qed.

Lemma all_digits_app (a b : string) : all_digits (a +:+ b) = all_digits a && all_digits b.
Proof.
  induction a as [|c a IH]; [reflexivity|].
  change (String c a +:+ b) with (String c (a +:+ b)). cbn [all_digits].
  rewrite IH. apply andb_assoc.
Qed.

Lemma reads_as_spec (n : nat) (z : Z) (s : string) :
  reads_as n z s = true ->
  all_digits s = true /\ String.length s = n /\ int_of_digits s = z.
Proof.
  unfold reads_as. intros H. apply andb_true_iff in H as [H Hz].
  apply andb_true_iff in H as [Hd Hn].
  split; [exact Hd|]. split; [apply Nat.eqb_eq; exact Hn|apply Z.eqb_eq; exact Hz].
Qed.

(** What [%Y] writes for a year of four digits, and [%m], [%d], [%H],
    [%M], [%S] for a number below a hundred, reads back as that number. *)
Lemma pad_4_reads (y : Z) : (1000 <= y <= 9999)%Z -> reads_as 4 y (pad 4 y) = true.
Proof.
  intros Hy.
  assert (H : forallb (fun n => reads_as 4 (Z.of_nat n) (pad 4 (Z.of_nat n)))
                (seq (Z.to_nat 1000) (Z.to_nat 9000)) = true) by (vm_compute; reflexivity).
  rewrite forallb_forall in H. specialize (H (Z.to_nat y)).
  rewrite Z2Nat.id in H by lia. apply H. apply in_seq. lia.
Qed.

Lemma pad_2_reads (z : Z) : (0 <= z <= 99)%Z -> reads_as 2 z (pad 2 z) = true.
Proof.
  intros Hz.
  assert (H : forallb (fun n => reads_as 2 (Z.of_nat n) (pad 2 (Z.of_nat n)))
                (seq 0 100) = true) by (vm_compute; reflexivity).
  rewrite forallb_forall in H. specialize (H (Z.to_nat z)).
  rewrite Z2Nat.id in H by lia. apply H. apply in_seq. lia.
Qed.

Lemma run_stamp_re (Y m d hh mm ss rest : string) (caps : captures) :
  all_digits Y = true -> String.length Y = 4%nat ->
  all_digits m = true -> String.length m = 2%nat ->
  all_digits d = true -> String.length d = 2%nat ->
  all_digits hh = true -> String.length hh = 2%nat ->
  all_digits mm = true -> String.length mm = 2%nat ->
  all_digits ss = true -> String.length ss = 2%nat ->
  run stamp_re (Y +:+ "-" +:+ m +:+ "-" +:+ d +:+ "_" +:+ hh +:+ mm +:+ ss +:+ rest) caps
  = [(caps, rest)].
Proof.
  intros HY LY Hm Lm Hd Ld Hhh Lhh Hmm Lmm Hss Lss. unfold stamp_re.
  rewrite (run_seq_one _ _ _ _ _ _ (run_exactly_digits 4 Y _ caps HY LY)).
  rewrite (run_seq_one _ _ _ _ _ _ (run_chr_app "-" _ caps)).
  rewrite (run_seq_one _ _ _ _ _ _ (run_exactly_digits 2 m _ caps Hm Lm)).
  rewrite (run_seq_one _ _ _ _ _ _ (run_chr_app "-" _ caps)).
  rewrite (run_seq_one _ _ _ _ _ _ (run_exactly_digits 2 d _ caps Hd Ld)).
  rewrite (run_seq_one _ _ _ _ _ _ (run_chr_app "_" _ caps)).
  replace (hh +:+ mm +:+ ss +:+ rest) with ((hh +:+ mm +:+ ss) +:+ rest)
    by (rewrite !append_assoc; reflexivity).
  apply run_exactly_digits.
  - rewrite !all_digits_app, Hhh, Hmm, Hss. reflexivity.
  - rewrite !append_length, Lhh, Lmm, Lss. reflexivity.
Qed.

Lemma strptime_stamp_fields (Y m d hh mm ss : string) :
  String.length Y = 4%nat -> String.length m = 2%nat -> String.length d = 2%nat ->
  String.length hh = 2%nat -> String.length mm = 2%nat -> String.length ss = 2%nat ->
  strptime_stamp (Y +:+ "-" +:+ m +:+ "-" +:+ d +:+ "_" +:+ hh +:+ mm +:+ ss)
  = new (int_of_digits Y) (int_of_digits m) (int_of_digits d)
      (int_of_digits hh) (int_of_digits mm) (int_of_digits ss) 0.
Proof.
  intros LY Lm Ld Lhh Lmm Lss.
  destruct Y as [|y1 [|y2 [|y3 [|y4 [|y5 Y]]]]]; try discriminate LY.
  destruct m as [|m1 [|m2 [|m3 m]]]; try discriminate Lm.
  destruct d as [|d1 [|d2 [|d3 d]]]; try discriminate Ld.
  destruct hh as [|h1 [|h2 [|h3 hh]]]; try discriminate Lhh.
  destruct mm as [|n1 [|n2 [|n3 mm]]]; try discriminate Lmm.
  destruct ss as [|s1 [|s2 [|s3 ss]]]; try discriminate Lss.
  reflexivity.
Qed.

Lemma new_to_the_second (now : datetime) :
  valid now = true ->
  new (year now) (month now) (day now) (hour now) (minute now) (second now) 0
  = Ok (to_the_second now)
  /\ (1 <= month now <= 12)%Z /\ (1 <= day now <= 31)%Z
  /\ (0 <= hour now <= 23)%Z /\ (0 <= minute now <= 59)%Z /\ (0 <= second now <= 59)%Z.
Proof.
  unfold valid. destruct (new _ _ _ _ _ _ (microsecond now)) as [t|e] eqn:E; [|discriminate].
  intros _. destruct (new_fields _ _ _ _ _ _ _ _ E) as (_ & Hy & Hm & Hd & Hhh & Hmm & Hss & _).
  assert (Hdim : (days_in_month (year now) (month now) <= 31)%Z).
  { unfold days_in_month. destruct ((month now =? 2)%Z && is_leap (year now)); [lia|].
    assert (Hcases : (month now = 1 \/ month now = 2 \/ month now = 3 \/ month now = 4
                     \/ month now = 5 \/ month now = 6 \/ month now = 7 \/ month now = 8
                     \/ month now = 9 \/ month now = 10 \/ month now = 11
                     \/ month now = 12)%Z) by lia.
    repeat destruct Hcases as [-> | Hcases]; try rewrite Hcases; vm_compute;
      discriminate. }
  split; [|lia].
  unfold new, MINYEAR, MAXYEAR, to_the_second.
  repeat match goal with
         | |- context [(?a <=? ?b)%Z] => rewrite (proj2 (Z.leb_le a b)) by lia
         end.
  reflexivity.
Qed.

Lemma run_tail_ext (r : result) (caps : captures) :
  run (Seq (Chr ".") (Seq (Alt (Lit "csv") (Lit "pkl")) Eos))
    match r with
    | RFrame _ => ".csv"
    | _ => ".pkl"
    end caps
  = [(caps, "")].
Proof. destruct r; reflexivity. Qed.

(** The name [to_cache] gives a file goes through the pattern of the scan:
    the first group is the fingerprint, the second reads back as the time
    of the write, to the second. *)
Lemma stored_basename_matches (name fp : string) (now : datetime) (r : result) :
  is_hexdigest fp -> valid now = true -> (1000 <= year now)%Z ->
  exists g ts,
    re_match (cachefilename_re name) (stored_basename name fp now r) = Some g
    /\ g !! 1%nat = Some fp
    /\ g !! 2%nat = Some ts
    /\ strptime_stamp ts = Ok (to_the_second now).
Proof.
  intros [Lfp Hfp] Hvalid Hyear.
  destruct (new_to_the_second now Hvalid) as (Hnew & Hm & Hd & Hhh & Hmm & Hss).
  assert (Hy : (year now <= 9999)%Z).
  { unfold valid in Hvalid.
    destruct (new _ _ _ _ _ _ (microsecond now)) as [t|e] eqn:E; [|discriminate].
    destruct (new_fields _ _ _ _ _ _ _ _ E) as (_ & Hy & _). lia. }
  destruct (reads_as_spec _ _ _ (pad_4_reads (year now) ltac:(lia))) as (DY & LY & VY).
  destruct (reads_as_spec _ _ _ (pad_2_reads (month now) ltac:(lia))) as (Dm & Lm & Vm).
  destruct (reads_as_spec _ _ _ (pad_2_reads (day now) ltac:(lia))) as (Dd & Ld & Vd).
  destruct (reads_as_spec _ _ _ (pad_2_reads (hour now) ltac:(lia))) as (Dhh & Lhh & Vhh).
  destruct (reads_as_spec _ _ _ (pad_2_reads (minute now) ltac:(lia))) as (Dmm & Lmm & Vmm).
  destruct (reads_as_spec _ _ _ (pad_2_reads (second now) ltac:(lia))) as (Dss & Lss & Vss).
  set (ext := match r with
              | RFrame _ => ".csv"
              | _ => ".pkl"
              end).
  set (ts := pad 4 (year now) +:+ "-" +:+ pad 2 (month now) +:+ "-" +:+ pad 2 (day now)
             +:+ "_" +:+ pad 2 (hour now) +:+ pad 2 (minute now) +:+ pad 2 (second now)).
  assert (Hname : stored_basename name fp now r
                  = name +:+ "_" +:+ fp +:+ "_" +:+ pad 4 (year now) +:+ "-"
                    +:+ pad 2 (month now) +:+ "-" +:+ pad 2 (day now) +:+ "_"
                    +:+ pad 2 (hour now) +:+ pad 2 (minute now) +:+ pad 2 (second now)
                    +:+ ext).
  { unfold stored_basename, strftime_stamp. fold ext. rewrite !append_assoc. reflexivity. }
  exists (<[2%nat := ts]> (<[1%nat := fp]> ∅)), ts.
  split; [|split; [|split]].
  - rewrite Hname. unfold re_match, cachefilename_re.
    rewrite (run_seq_one _ _ _ _ _ _ (run_lit name _ ∅)).
    rewrite (run_seq_one _ _ _ _ _ _ (run_chr_app "_" _ ∅)).
    rewrite (run_seq_one _ _ _ _ _ _
               (run_group_one 1 _ _ _ _ _ (run_exactly_hex 40 fp _ ∅ Hfp Lfp))).
    rewrite consumed_append.
    rewrite (run_seq_one _ _ _ _ _ _ (run_chr_app "_" _ _)).
    rewrite (run_seq_one _ _ _ _ _ _
               (run_group_one 2 _ _ _ _ _
                  (run_stamp_re _ _ _ _ _ _ ext _ DY LY Dm Lm Dd Ld Dhh Lhh Dmm Lmm Dss Lss))).
    replace (pad 4 (year now) +:+ "-" +:+ pad 2 (month now) +:+ "-" +:+ pad 2 (day now)
             +:+ "_" +:+ pad 2 (hour now) +:+ pad 2 (minute now) +:+ pad 2 (second now)
             +:+ ext)
      with (ts +:+ ext) by (unfold ts; rewrite !append_assoc; reflexivity).
    rewrite consumed_append. unfold ext. rewrite run_tail_ext. reflexivity.
  - rewrite lookup_insert_ne by discriminate. apply lookup_insert_eq.
  - apply lookup_insert_eq.
  - unfold ts. rewrite (strptime_stamp_fields _ _ _ _ _ _ LY Lm Ld Lhh Lmm Lss).
    rewrite VY, Vm, Vd, Vhh, Vmm, Vss. exact Hnew.
Qed.

Lemma stored_name_basename (dir name fp : string) (now : datetime) (r : result) :
  path_join dir (stored_basename name fp now r) = stored_name dir name fp now r.
Proof.
  unfold stored_basename, stored_name.
  replace (name +:+ "_" +:+ fp +:+ strftime_stamp now
           +:+ match r with
               | RFrame _ => ".csv"
               | _ => ".pkl"
               end)
    with ((name +:+ "_" +:+ fp +:+ strftime_stamp now)
          +:+ match r with
              | RFrame _ => ".csv"
              | _ => ".pkl"
              end) by (rewrite !append_assoc; reflexivity).
  apply path_join_app.
Qed.

(** The scan keeps what it has, and adds the stored file when it meets
    it. *)
Lemma scan_finds (name dir fp : string) (now : datetime) (r : result)
    (listing : list (string * string)) :
  is_hexdigest fp -> valid now = true -> (1000 <= year now)%Z ->
  forall inv0 inv,
    scan name listing inv0 = Ok inv ->
    (dir, stored_basename name fp now r) ∈ listing
    \/ {| dt := to_the_second now; cachefilename := stored_name dir name fp now r |}
       ∈ default [] (inv0 !! fp) ->
    {| dt := to_the_second now; cachefilename := stored_name dir name fp now r |}
    ∈ default [] (inv !! fp).
Proof.
  intros Hfp Hvalid Hyear.
  induction listing as [|[root filename] listing IH]; intros inv0 inv; cbn [scan].
  - intros [= <-] [H|H]; [inversion H|exact H].
  - intros Hscan Hin.
    assert (Hhere : (root, filename) = (dir, stored_basename name fp now r)
                    \/ (dir, stored_basename name fp now r) ∈ listing
                    \/ {| dt := to_the_second now;
                           cachefilename := stored_name dir name fp now r |}
                       ∈ default [] (inv0 !! fp)).
    { destruct Hin as [Hin|Hin]; [|auto]. apply elem_of_cons in Hin as [Hin|Hin]; auto. }
    clear Hin. destruct Hhere as [[= -> ->]|Hrest].
    + destruct (stored_basename_matches name fp now r Hfp Hvalid Hyear)
        as (g & ts & Hm & Hg1 & Hg2 & Hts).
      rewrite Hm, Hg1, Hg2 in Hscan. cbn [default from_option id] in Hscan. rewrite Hts in Hscan.
      unfold mbind, res_bind in Hscan. rewrite stored_name_basename in Hscan.
      apply (IH _ _ Hscan). right. rewrite lookup_insert_eq. cbn [default from_option id].
      apply elem_of_app. right. left.
    + destruct (re_match (cachefilename_re name) filename) as [g|];
        [|exact (IH _ _ Hscan Hrest)].
      unfold mbind, res_bind in Hscan.
      destruct (strptime_stamp _) as [t|e]; [|discriminate].
      apply (IH _ _ Hscan). destruct Hrest as [Hrest|Hrest]; [left; exact Hrest|right].
      destruct (decide (default "" (g !! 1%nat) = fp)) as [->|Hne].
      * rewrite lookup_insert_eq. cbn [default from_option id]. apply elem_of_app. left. exact Hrest.
      * rewrite lookup_insert_ne by exact Hne. exact Hrest.
Qed.

(** X10. A result stored by [to_cache] is found again when the cache
    directory is scanned at the next decoration: if the scan goes through,
    its inventory has, under the same fingerprint, an entry that names the
    file and carries the time of the write, cut to the second. *)
Theorem stored_file_found_by_scan (name dir fp : string) (now : datetime) (r : result)
    (listing : list (string * string)) (inv : gmap string (list entry)) :
  is_hexdigest fp -> valid now = true -> (1000 <= year now)%Z ->
  (dir, stored_basename name fp now r) ∈ listing ->
  get_cache_inventory listing name = Ok inv ->
  exists entries,
    inv !! fp = Some entries
    /\ {| dt := to_the_second now; cachefilename := stored_name dir name fp now r |}
       ∈ entries.
Proof.
  intros Hfp Hvalid Hyear Hin Hscan.
  pose proof (scan_finds name dir fp now r listing Hfp Hvalid Hyear ∅ inv Hscan
                (or_introl Hin)) as H.
  destruct (inv !! fp) as [entries|]; [|inversion H].
  exists entries. split; [reflexivity|exact H].
Qed.

End Restart.

Lemma get_cache_inventory_ok_witness :
  exists inv, M2cache.get_cache_inventory some_listing "fetch" = Ok inv /\ inventory_ok inv.
Proof.
  destruct (M2cache.get_cache_inventory some_listing "fetch") as [inv|e] eqn:E;
    [|vm_compute in E; discriminate E].
  exists inv. split; [reflexivity|].
  apply (get_cache_inventory_ok some_listing "fetch" inv); [|exact E].
  repeat apply Forall_cons_2; [| |apply Forall_nil_2]; intros t H;
    apply (f_equal (fun s => substring (String.length s - 1) 1 s)) in H;
    rewrite final_newline_last in H; vm_compute in H; discriminate H.
Defined.

Lemma stored_file_found_by_scan_witness :
  exists inv entries,
    M2cache.get_cache_inventory some_listing "fetch" = Ok inv
    /\ inv !! some_digest = Some entries
    /\ {| M2cache.dt := noon 0 0;
          M2cache.cachefilename :=
            "cache/fetch_da39a3ee5e6b4b0d3255bfef95601890afd80709_2021-03-31_120000.pkl" |}
       ∈ entries.
Proof.
  destruct (M2cache.get_cache_inventory some_listing "fetch") as [inv|e] eqn:E;
    [|vm_compute in E; discriminate E].
  destruct (stored_file_found_by_scan "fetch" "cache" some_digest (noon 0 5)
              (M2cache.RObject "result 1") some_listing inv)
    as (entries & Hinv & Hin).
  - split; reflexivity.
  - reflexivity.
  - vm_compute. discriminate.
  - right. left.
  - exact E.
  - exists inv, entries. split; [reflexivity|]. split; [exact Hinv|exact Hin].
Defined.

Section RetryMore.

Import M2retry.
Local Open Scope Q_scope.

Context {S : Type} (fmt : pyformat) (func : operation S pyval)
  (args : list pyval) (kwargs : list (string * pyval)).

Local Abbreviation called := (after_call func args kwargs).








End RetryMore.





Section JitterArgsMore.

Import JitterArgs.
Local Open Scope Q_scope.














End JitterArgsMore.



Section PathsMore.

Import M2paths.

Lemma free_of_app (U : ascii -> bool) (a b : string) :
  free_of U (a +:+ b) = free_of U a && free_of U b.
Proof.
  induction a as [|c a IH]; [reflexivity|].
  change (String c a +:+ b) with (String c (a +:+ b)). cbn [free_of].
  rewrite IH. apply andb_assoc.
Qed.

Lemma replace_runs_free (U : ascii -> bool) (repl : string) :
  free_of U repl = true ->
  forall (s : string) (in_run : bool), free_of U (replace_runs U repl s in_run) = true.
Proof.
  intros Hrepl. induction s as [|c s IH]; intros in_run; cbn [replace_runs]; [reflexivity|].
  destruct (U c) eqn:Hc.
  - destruct in_run; [apply IH|]. rewrite free_of_app, Hrepl, IH. reflexivity.
  - cbn [free_of]. rewrite Hc, IH. reflexivity.
Qed.

Lemma replace_runs_id (U : ascii -> bool) (repl : string) :
  forall (s : string) (in_run : bool),
    free_of U s = true -> replace_runs U repl s in_run = s.
Proof.
  induction s as [|c s IH]; intros in_run; cbn [replace_runs free_of]; [reflexivity|].
  intros H. apply andb_true_iff in H as [Hc Hs]. apply negb_true_iff in Hc.
  rewrite Hc, IH by exact Hs. reflexivity.
Qed.

Lemma replace_runs_without (U : ascii -> bool) :
  forall (s : string) (in_run : bool), replace_runs U "" s in_run = without U s.
Proof.
  induction s as [|c s IH]; intros in_run; cbn [replace_runs without]; [reflexivity|].
  destruct (U c); [destruct in_run; apply IH|]. rewrite IH. reflexivity.
Qed.

Lemma free_of_without (U : ascii -> bool) (s : string) : free_of U (without U s) = true.
Proof.
  induction s as [|c s IH]; cbn [without free_of]; [reflexivity|].
  destruct (U c) eqn:Hc; [exact IH|]. cbn [free_of]. rewrite Hc, IH. reflexivity.
Qed.

Lemma free_of_has (U : ascii -> bool) (a : ascii) (s : string) :
  U a = true -> free_of U s = true -> has a s = false.
Proof.
  intros Ha. induction s as [|c s IH]; cbn [free_of has]; [reflexivity|].
  intros H. apply andb_true_iff in H as [Hc Hs]. apply negb_true_iff in Hc.
  rewrite (IH Hs), orb_false_r. destruct (Ascii.eqb_spec a c) as [->|]; [congruence|reflexivity].
Qed.

Lemma free_of_file_dir (s : string) :
  free_of unwanted_file s = true -> free_of unwanted_dir s = true.
Proof.
  induction s as [|c s IH]; cbn [free_of]; [reflexivity|].
  intros H. apply andb_true_iff in H as [Hc Hs]. rewrite (IH Hs), andb_true_r.
  apply negb_true_iff in Hc. apply negb_true_iff.
  unfold unwanted_file in Hc. unfold unwanted_dir.
  repeat (apply orb_false_iff in Hc as [Hc ?]).
  repeat (apply orb_false_iff; split); assumption.
Qed.

(** [untaint] in a mode it knows, under a replacement with no backslash. *)
Lemma untaint_mode (mode name repl : string) :
  mode = "file" \/ mode = "dir" ->
  has backslash repl = false ->
  untaint (PyStr mode) name (Some repl)
  = Done (replace_runs (class_of mode) repl name false).
Proof.
  intros [-> | ->] Hb; unfold untaint, re_sub, class_of; cbn [String.eqb Ascii.eqb];
    rewrite Hb; reflexivity.
Qed.

Lemma class_of_backslash (mode : string) : class_of mode backslash = true.
Proof. unfold class_of. destruct (String.eqb mode "file"); reflexivity. Qed.

(** X18. Sanitising in ['file'] or ['dir'] mode with a replacement that
    is itself free of the unwanted characters gives a name free of them.
    A name that is free of them already comes back as it is, so that
    sanitising twice is sanitising once. *)
Theorem untaint_sanitises (mode name repl : string) :
  mode = "file" \/ mode = "dir" ->
  free_of (class_of mode) repl = true ->
  exists s,
    untaint (PyStr mode) name (Some repl) = Done s
    /\ free_of (class_of mode) s = true
    /\ untaint (PyStr mode) s (Some repl) = Done s
    /\ (free_of (class_of mode) name = true -> s = name).
Proof.
  intros Hmode Hrepl.
  pose proof (free_of_has _ backslash repl (class_of_backslash mode) Hrepl) as Hb.
  exists (replace_runs (class_of mode) repl name false).
  pose proof (replace_runs_free _ repl Hrepl name false) as Hfree.
  split; [exact (untaint_mode mode name repl Hmode Hb)|]. split; [exact Hfree|]. split.
  - rewrite (untaint_mode mode _ repl Hmode Hb).
    rewrite (replace_runs_id _ repl _ false Hfree). reflexivity.
  - intros Hname. apply replace_runs_id. exact Hname.
Qed.

Lemma replace_runs_clean_prefix (U : ascii -> bool) (repl a s : string) :
  free_of U a = true ->
  replace_runs U repl (a +:+ s) false = a +:+ replace_runs U repl s false.
Proof.
  induction a as [|c a IH]; [reflexivity|]. cbn [free_of]. intros H.
  apply andb_true_iff in H as [Hc Ha]. apply negb_true_iff in Hc.
  change (String c a +:+ s) with (String c (a +:+ s)). cbn [replace_runs].
  rewrite Hc, (IH Ha). reflexivity.
Qed.

Lemma replace_runs_in_run (U : ascii -> bool) (repl u b : string) :
  all_of U u = true -> clean_start U b = true ->
  replace_runs U repl (u +:+ b) true = replace_runs U repl b false.
Proof.
  intros Hu Hb. induction u as [|c u IH].
  - destruct b as [|c b]; [reflexivity|]. cbn [clean_start] in Hb.
    apply negb_true_iff in Hb. change ("" +:+ String c b) with (String c b).
    cbn [replace_runs]. rewrite Hb. reflexivity.
  - cbn [all_of] in Hu. apply andb_true_iff in Hu as [Hc Hu].
    change (String c u +:+ b) with (String c (u +:+ b)). cbn [replace_runs].
    rewrite Hc. exact (IH Hu).
Qed.

(** X19. What [untaint] does to a run.  In a name made of a part free of
    unwanted characters, then one or more unwanted characters, then a rest
    that does not start with one, the whole run gives way to one
    replacement, the part before it stays, and the rest is sanitised on its
    own.  With the default replacement, the empty string, [untaint] drops
    the unwanted characters and keeps the others in order. *)
Theorem untaint_collapses_runs (mode a u b repl : string) :
  mode = "file" \/ mode = "dir" ->
  has backslash repl = false ->
  free_of (class_of mode) a = true ->
  all_of (class_of mode) u = true -> u <> "" ->
  clean_start (class_of mode) b = true ->
  (exists rest,
      untaint (PyStr mode) b (Some repl) = Done rest
      /\ untaint (PyStr mode) (a +:+ u +:+ b) (Some repl) = Done (a +:+ repl +:+ rest))
  /\ untaint (PyStr mode) (a +:+ u +:+ b) (Some "")
     = Done (a +:+ without (class_of mode) b).
Proof.
  intros Hmode Hb Ha Hu Hne Hstart.
  assert (Hrun : forall r,
             replace_runs (class_of mode) r (a +:+ u +:+ b) false
             = a +:+ r +:+ replace_runs (class_of mode) r b false).
  { intros r. rewrite (replace_runs_clean_prefix _ r a _ Ha).
    destruct u as [|c u]; [contradiction|]. cbn [all_of] in Hu.
    apply andb_true_iff in Hu as [Hc Hu].
    change (String c u +:+ b) with (String c (u +:+ b)). cbn [replace_runs].
    rewrite Hc, (replace_runs_in_run _ r u b Hu Hstart). reflexivity. }
  split.
  - exists (replace_runs (class_of mode) repl b false).
    rewrite !(untaint_mode mode _ repl Hmode Hb), Hrun. split; reflexivity.
  - rewrite (untaint_mode mode _ "" Hmode eq_refl), Hrun, replace_runs_without.
    reflexivity.
Qed.

Lemma os_path_join_relative (a b : string) :
  clean_start unwanted_file b = true ->
  os_path_join a b
  = if String.eqb a "" then b
    else if String.eqb (substring (String.length a - 1) 1 a) "/" then a +:+ b
         else a +:+ "/" +:+ b.
Proof.
  destruct b as [|c b]; [reflexivity|]. cbn [clean_start]. intros H.
  apply negb_true_iff in H.
  destruct c as [[] [] [] [] [] [] [] []]; try reflexivity; discriminate H.
Qed.

Lemma free_of_concat (U : ascii -> bool) (sep : string) (l : list string) :
  free_of U sep = true -> Forall (fun a => free_of U a = true) l ->
  free_of U (String.concat sep l) = true.
Proof.
  intros Hsep Hl. induction Hl as [|a l Ha Hl IH]; [reflexivity|].
  cbn [String.concat]. destruct l as [|a' l]; [exact Ha|].
  rewrite !free_of_app, Ha, Hsep, IH. reflexivity.
Qed.

Lemma free_of_clean_start (U : ascii -> bool) (s : string) :
  free_of U s = true -> clean_start U s = true.
Proof.
  destruct s as [|c s]; [reflexivity|]. cbn [free_of clean_start]. intros H.
  apply andb_true_iff in H as [H _]. exact H.
Qed.

Lemma free_of_dotted (s : string) :
  free_of unwanted_file s = true -> free_of unwanted_file (dotted s) = true.
Proof.
  intros H. unfold dotted. destruct (negb (String.eqb s "") && negb (startswith_dot s));
    [|exact H].
  change ("." +:+ s) with (String "." s). cbn [free_of]. rewrite H. reflexivity.
Qed.

(** What [get_new_path] computes when it sanitises. *)
Lemma get_new_path_some (args : list string) (extension dirname : string)
    (timestamp : bool) (now_text r : string) (createdir : bool) :
  get_new_path args extension dirname timestamp now_text (Some r) createdir
  = Done (os_path_join
            (replace_runs unwanted_dir (without unwanted_file r) dirname false)
            (replace_runs unwanted_file (without unwanted_file r)
               (String.concat "_" (args ++ (if timestamp then [now_text] else []))%list)
               false
             +:+ dotted (replace_runs unwanted_file (without unwanted_file r) extension
                           false)),
          if createdir
             && negb (String.eqb
                        (replace_runs unwanted_dir (without unwanted_file r) dirname false)
                        "")
          then Some (replace_runs unwanted_dir (without unwanted_file r) dirname false)
          else None).
Proof.
  assert (Hb : has backslash (without unwanted_file r) = false).
  { apply (free_of_has unwanted_file); [reflexivity|apply free_of_without]. }
  assert (Hfile : forall name repl,
             has backslash repl = false ->
             untaint (PyStr "file") name (Some repl)
             = Done (replace_runs unwanted_file repl name false)).
  { intros name repl H. exact (untaint_mode "file" name repl (or_introl eq_refl) H). }
  assert (Hdir : forall name repl,
             has backslash repl = false ->
             untaint (PyStr "dir") name (Some repl)
             = Done (replace_runs unwanted_dir repl name false)).
  { intros name repl H. exact (untaint_mode "dir" name repl (or_intror eq_refl) H). }
  unfold get_new_path, mbind, subbed_bind, mret, subbed_ret.
  rewrite (Hfile r "" eq_refl), replace_runs_without. cbv beta iota.
  rewrite (Hdir dirname _ Hb), (Hfile extension _ Hb), (Hfile _ _ Hb).
  reflexivity.
Qed.

(** X20. With a replacement given, [get_new_path] always returns a path,
    whatever its arguments hold: it refuses nothing, and no backslash of
    the replacement reaches [re.sub], the replacement being sanitised
    first.  The path is a directory part and a file name.  The file name
    has none of tilde, slash, line feed, carriage return, NUL and
    backslash; the directory part and the whole path have none of these
    but the slash.  The path is the file name alone when the directory
    part is empty, and otherwise the two with one slash between them at
    most.  The directory is made only if asked for and not empty. *)
Theorem get_new_path_sanitised (args : list string) (extension dirname : string)
    (timestamp : bool) (now_text r : string) (createdir : bool) :
  exists dir file,
    get_new_path args extension dirname timestamp now_text (Some r) createdir
    = Done (os_path_join dir file,
            if createdir && negb (String.eqb dir "") then Some dir else None)
    /\ free_of unwanted_dir dir = true
    /\ free_of unwanted_file file = true
    /\ free_of unwanted_dir (os_path_join dir file) = true
    /\ (dir = "" -> os_path_join dir file = file)
    /\ (dir <> "" ->
        os_path_join dir file = dir +:+ file
        \/ os_path_join dir file = dir +:+ "/" +:+ file).
Proof.
  rewrite get_new_path_some.
  assert (Hr : free_of unwanted_file (without unwanted_file r) = true)
    by apply free_of_without.
  set (r' := without unwanted_file r) in *.
  set (dir := replace_runs unwanted_dir r' dirname false).
  set (file := replace_runs unwanted_file r' _ false +:+ dotted _).
  assert (Hdir : free_of unwanted_dir dir = true).
  { apply replace_runs_free. apply free_of_file_dir. exact Hr. }
  assert (Hfile : free_of unwanted_file file = true).
  { unfold file. rewrite free_of_app, (replace_runs_free _ r' Hr).
    rewrite free_of_dotted; [reflexivity|]. apply replace_runs_free. exact Hr. }
  exists dir, file. split; [reflexivity|]. split; [exact Hdir|]. split; [exact Hfile|].
  rewrite (os_path_join_relative dir file (free_of_clean_start _ _ Hfile)).
  pose proof (free_of_file_dir file Hfile) as Hfile'.
  split; [|split].
  - destruct (String.eqb dir ""); [exact Hfile'|].
    destruct (String.eqb _ "/"); rewrite !free_of_app, Hdir, Hfile'; reflexivity.
  - intros ->. reflexivity.
  - intros Hne. destruct (String.eqb_spec dir "") as [|_]; [contradiction|].
    destruct (String.eqb _ "/"); [left|right]; reflexivity.
Qed.

(** X21. Names that need no sanitising go through [get_new_path]
    untouched, whatever the replacement, and also with sanitising switched
    off: the path is the directory joined with the positional arguments,
    and the time text if asked for, joined on underscores, followed by the
    extension with its dot. *)
Theorem get_new_path_clean (args : list string) (extension dirname : string)
    (timestamp : bool) (now_text : string) (replacewith : option string)
    (createdir : bool) :
  Forall (fun a => free_of unwanted_file a = true) args ->
  (timestamp = true -> free_of unwanted_file now_text = true) ->
  free_of unwanted_file extension = true ->
  free_of unwanted_dir dirname = true ->
  get_new_path args extension dirname timestamp now_text replacewith createdir
  = Done (os_path_join dirname
            (String.concat "_" (args ++ (if timestamp then [now_text] else []))%list
             +:+ dotted extension),
          if createdir && negb (String.eqb dirname "") then Some dirname else None).
Proof.
  intros Hargs Hnow Hext Hdir.
  destruct replacewith as [r|]; [|reflexivity].
  rewrite get_new_path_some.
  assert (Hall : free_of unwanted_file
                   (String.concat "_" (args ++ (if timestamp then [now_text] else []))%list)
                 = true).
  { apply free_of_concat; [reflexivity|]. apply Forall_app. split; [exact Hargs|].
    destruct timestamp; [|constructor]. constructor; [apply Hnow; reflexivity|constructor]. }
  rewrite (replace_runs_id _ _ dirname false Hdir).
  rewrite (replace_runs_id _ _ extension false Hext).
  rewrite (replace_runs_id _ _ _ false Hall). reflexivity.
Qed.

End PathsMore.

Lemma untaint_sanitises_witness :
  exists s,
    M2paths.untaint (PyStr "dir") "~/data/a~~b" (Some "-") = M2paths.Done s
    /\ free_of (class_of "dir") s = true
    /\ M2paths.untaint (PyStr "dir") s (Some "-") = M2paths.Done s
    /\ (free_of (class_of "dir") "~/data/a~~b" = true -> s = "~/data/a~~b").
Proof.
  apply untaint_sanitises; [right; reflexivity|reflexivity].
Defined.

Lemma untaint_collapses_runs_witness :
  (exists rest,
      M2paths.untaint (PyStr "file") "Croatia/Hrvatska" (Some "-") = M2paths.Done rest
      /\ M2paths.untaint (PyStr "file") ("Europe" +:+ "/~/" +:+ "Croatia/Hrvatska") (Some "-")
         = M2paths.Done ("Europe" +:+ "-" +:+ rest))
  /\ M2paths.untaint (PyStr "file") ("Europe" +:+ "/~/" +:+ "Croatia/Hrvatska") (Some "")
     = M2paths.Done ("Europe" +:+ without (class_of "file") "Croatia/Hrvatska").
Proof.
  apply untaint_collapses_runs; try reflexivity; [left; reflexivity|discriminate].
Defined.

Lemma get_new_path_clean_witness :
  M2paths.get_new_path ["Europe"; "Croatia"; "Zagreb"] "csv" "test-dir/test-subdir2"
    false "" (Some "") true
  = M2paths.Done ("test-dir/test-subdir2/Europe_Croatia_Zagreb.csv", Some "test-dir/test-subdir2").
Proof.
  refine (get_new_path_clean ["Europe"; "Croatia"; "Zagreb"] "csv" "test-dir/test-subdir2"
            false "" (Some "") true _ _ eq_refl eq_refl).
  - repeat constructor.
  - discriminate.
Defined.

Section ReachbackMore.

Import PyDatetime PyRe M2cache.

Lemma run_digits_no_start (lo : nat) (hi : option nat) (s : string) (caps : captures) :
  clean_start is_digit s = true ->
  run (Rep Digit (Datatypes.S lo) hi) s caps = [].
Proof.
  intros Hs. cbn [run].
  destruct (match hi with Some h => h | None => String.length s end) as [|h];
    [reflexivity|].
  cbn [rep]. destruct s as [|c s]; [reflexivity|].
  cbn [clean_start] in Hs. apply negb_true_iff in Hs. cbn [run]. rewrite Hs. reflexivity.
Qed.

Lemma run_seq_group_nil (i : nat) (r1 r2 : regex) (s : string) (caps : captures) :
  run r1 s caps = [] -> run (Seq (Group i r1) r2) s caps = [].
Proof. intros H. cbn [run]. rewrite H. reflexivity. Qed.

Lemma findall_no_digits (fuel : nat) :
  forall s, free_of is_digit s = true ->
            findall_from fuel customtimedelta_re [1; 2]%nat s = [].
Proof.
  induction fuel as [|fuel IH]; intros s Hs; [reflexivity|].
  cbn [findall_from].
  assert (Hrun : run customtimedelta_re s ∅ = []).
  { unfold customtimedelta_re, Plus. apply run_seq_group_nil.
    exact (run_digits_no_start 0 None s ∅ (free_of_clean_start _ _ Hs)). }
  rewrite Hrun. destruct s as [|c s]; [reflexivity|].
  apply IH. cbn [free_of] in Hs. apply andb_true_iff in Hs as [_ Hs]. exact Hs.
Qed.

(** X22. A reachback with no digit in it fits neither grammar, and [get_dt]
    then fails on the name it never bound: [UnboundLocalError], not a
    [ValueError]. *)
Theorem get_dt_without_digits (now : datetime) (reachback : string) :
  free_of is_digit reachback = true ->
  get_dt now reachback = Err (UnboundLocalError "dt_args").
Proof.
  intros Hs. unfold get_dt.
  assert (Hm : re_match datetime_re reachback = None).
  { unfold re_match, datetime_re.
    rewrite (run_seq_group_nil 1 _ _ reachback ∅
               (run_digits_no_start 0 (Some 4) reachback ∅ (free_of_clean_start _ _ Hs))).
    reflexivity. }
  rewrite Hm. unfold findall. rewrite (findall_no_digits _ reachback Hs). reflexivity.
Qed.

End ReachbackMore.

Lemma get_dt_without_digits_witness :
  M2cache.get_dt (noon 0 5) "yesterday" = Err (UnboundLocalError "dt_args").
Proof. apply get_dt_without_digits. reflexivity. Defined.
